(** * Data-shaping layer of the outbreak dashboard (data-utils)

    A shallow embedding of the transformation and data-access functions of
    the dashboard's [data-utils] module, and the properties its
    specification states about them.

    Modelling conventions.
    - A JavaScript [number] that holds a count read from the JSON document is
      a [Z]: the document holds integers well inside the safe range
      (|n| <= 2^53), where double arithmetic on them is exact.  The one place
      where the program leaves the integers, the percentage of
      [getSummaryStats], is computed on binary64 floats ([PrimFloat]).
    - A [number] that may be [NaN] (the results of [parseInt] and the sums
      built from them) is a [number]: [NaN] or an integer.
    - A JavaScript object used as a [Record<string, V>] is an association
      list [Obj V] whose entries are in the object's enumeration order; a
      well-formed object has no duplicate key ([wfObj]).  A key that the
      document itself supplies (a year key, a catalog id) is taken not to
      name a member of [Object.prototype] and is read with [get]; a key
      that a caller supplies is read with [lookup], which finds the
      members every object inherits from [Object.prototype].
    - Strings are [string]s of bytes; comparison is by code unit, case
      conversion is that of ASCII letters.
    - [Array.prototype.sort] is stable; it is modelled by a stable insertion
      sort driven by the comparator. *)

From Stdlib Require Import ZArith List String Ascii Bool Lia.
From Stdlib Require Import Sorting.Sorted Sorting.Permutation.
From Stdlib Require Import Floats DecimalString.
From Stdlib Require OrderedTypeEx.
Import ListNotations.

Open Scope string_scope.
Open Scope Z_scope.

(* ================================================================== *)
(** ** JavaScript values *)

(** A number that may be [NaN]. *)
Inductive number : Type :=
| NaN
| Num (z : Z).

Definition number_add (a b : number) : number :=
  match a, b with
  | Num x, Num y => Num (x + y)
  | _, _ => NaN
  end.

Definition number_sub (a b : number) : number :=
  match a, b with
  | Num x, Num y => Num (x - y)
  | _, _ => NaN
  end.

(** [isFinite]: the number is not [NaN]. *)
Definition isNum (a : number) : bool :=
  match a with
  | NaN => false
  | Num _ => true
  end.

(** A value of type [number | boolean] (Bogor's yearly entries). *)
Inductive NumOrBool : Type :=
| VNum (n : Z)
| VBool (b : bool).

Definition truthy (v : NumOrBool) : bool :=
  match v with
  | VNum n => negb (n =? 0)
  | VBool b => b
  end.

(** [ToNumber] on a number or a boolean. *)
Definition toNumber (v : NumOrBool) : Z :=
  match v with
  | VNum n => n
  | VBool true => 1
  | VBool false => 0
  end.

(** [v || d] for an optional [number | boolean] operand. *)
Definition orElse (v : option NumOrBool) (d : NumOrBool) : NumOrBool :=
  match v with
  | Some x => if truthy x then x else d
  | None => d
  end.

(** [s || d] for an optional string operand: the empty string is falsy. *)
Definition orStr (s : option string) (d : string) : string :=
  match s with
  | Some x => if (x =? "")%string then d else x
  | None => d
  end.

(** [s1 || s2] where both operands are optional strings. *)
Definition orOptStr (s1 s2 : option string) : option string :=
  match s1 with
  | Some x => if (x =? "")%string then s2 else s1
  | None => s2
  end.

(* ================================================================== *)
(** ** Objects used as maps *)

Definition Obj (V : Type) : Type := list (string * V).

Fixpoint get {V : Type} (o : Obj V) (k : string) : option V :=
  match o with
  | [] => None
  | (k', v) :: o' => if (k' =? k)%string then Some v else get o' k
  end.

(** The members every plain object inherits from [Object.prototype]. *)
Definition objectPrototypeNames : list string :=
  ["constructor"; "hasOwnProperty"; "isPrototypeOf"; "propertyIsEnumerable";
   "toLocaleString"; "toString"; "valueOf"; "__proto__";
   "__defineGetter__"; "__defineSetter__"; "__lookupGetter__"; "__lookupSetter__"].

Definition inherited (k : string) : bool :=
  existsb (fun n => (n =? k)%string) objectPrototypeNames.

(** What [o[k]] evaluates to for a key [k] of any spelling: the object's own
    property, else the member of [Object.prototype] of that name (a
    function, or the prototype itself for [__proto__]: a truthy object that
    has none of the document's fields), else [undefined]. *)
Inductive Lookup (V : Type) : Type :=
| Own (v : V)
| Inherited
| Undefined.
Arguments Own {V} v.
Arguments Inherited {V}.
Arguments Undefined {V}.

Definition lookup {V : Type} (o : Obj V) (k : string) : Lookup V :=
  match get o k with
  | Some v => Own v
  | None => if inherited k then Inherited else Undefined
  end.

(** [Object.keys], [Object.values] and [Object.entries]. *)
Definition keys {V : Type} (o : Obj V) : list string := map fst o.
Definition values {V : Type} (o : Obj V) : list V := map snd o.
Definition entries {V : Type} (o : Obj V) : list (string * V) := o.

(** [o[k] = v]: an existing key keeps its place, a new key goes last.  The
    same function models [Map.prototype.set]. *)
Fixpoint set {V : Type} (o : Obj V) (k : string) (v : V) : Obj V :=
  match o with
  | [] => [(k, v)]
  | (k', v') :: o' => if (k' =? k)%string then (k', v) :: o' else (k', v') :: set o' k v
  end.

(** [Map.prototype.has]. *)
Definition has {V : Type} (o : Obj V) (k : string) : bool :=
  match get o k with
  | Some _ => true
  | None => false
  end.

Definition wfObj {V : Type} (o : Obj V) : Prop := NoDup (keys o).

(* ================================================================== *)
(** ** Array.prototype.sort *)

Section Sort.
Context {A : Type}.
(** The comparator: a positive result puts its first argument after the
    second; [NaN] counts as [+0]. *)
Variable compareFn : A -> A -> number.

Definition after (x y : A) : bool :=
  match compareFn x y with
  | Num v => 0 <? v
  | NaN => false
  end.

Fixpoint insert (x : A) (l : list A) : list A :=
  match l with
  | [] => [x]
  | y :: l' => if after x y then y :: insert x l' else x :: l
  end.

Definition sort (l : list A) : list A := fold_right insert [] l.
End Sort.

(** The default comparator of [sort()] on strings: code-unit order. *)
Definition compareStrings (x y : string) : number :=
  match String.compare x y with
  | Lt => Num (-1)
  | Eq => Num 0
  | Gt => Num 1
  end.

(* ================================================================== *)
(** ** String built-ins *)

Definition toLowerChar (c : ascii) : ascii :=
  let n := nat_of_ascii c in
  if ((65 <=? n) && (n <=? 90))%nat then ascii_of_nat (n + 32) else c.

Fixpoint toLowerCase (s : string) : string :=
  match s with
  | EmptyString => EmptyString
  | String c s' => String (toLowerChar c) (toLowerCase s')
  end.

(** [s.includes(sub)]. *)
Fixpoint includes (s sub : string) : bool :=
  if prefix sub s then true
  else match s with
       | EmptyString => false
       | String _ s' => includes s' sub
       end.

Fixpoint drop (n : nat) (s : string) : string :=
  match n, s with
  | O, _ => s
  | S n', String _ s' => drop n' s'
  | S _, EmptyString => EmptyString
  end.

(** [s.replace(pat, rep)] for a string pattern: the first occurrence only
    ([rep] holds no [$] pattern). *)
Fixpoint replace (s pat rep : string) : string :=
  if prefix pat s then rep ++ drop (String.length pat) s
  else match s with
       | EmptyString => EmptyString
       | String c s' => String c (replace s' pat rep)
       end.

(* ================================================================== *)
(** ** parseInt *)

(** [StrWhiteSpaceChar], as far as it is ASCII. *)
Definition isWhiteSpace (c : ascii) : bool :=
  let n := nat_of_ascii c in
  ((9 <=? n) && (n <=? 13) || (n =? 32))%nat.

Fixpoint trimStart (s : string) : string :=
  match s with
  | String c s' => if isWhiteSpace c then trimStart s' else s
  | EmptyString => EmptyString
  end.

(** The value of a digit in a radix up to 36. *)
Definition digitValue (c : ascii) : option Z :=
  let n := nat_of_ascii c in
  if ((48 <=? n) && (n <=? 57))%nat then Some (Z.of_nat n - 48)
  else if ((97 <=? n) && (n <=? 122))%nat then Some (Z.of_nat n - 87)
  else if ((65 <=? n) && (n <=? 90))%nat then Some (Z.of_nat n - 55)
  else None.

(** The value of the longest prefix of radix-[R] digits; [None] when that
    prefix is empty. *)
Fixpoint parseDigits (R : Z) (s : string) (acc : option Z) : option Z :=
  match s with
  | EmptyString => acc
  | String c s' =>
      match digitValue c with
      | Some v =>
          if v <? R
          then parseDigits R s' (Some (R * match acc with Some a => a | None => 0 end + v))
          else acc
      | None => acc
      end
  end.

(** The signed value of the leading radix-[R] digits of [s], [NaN] when
    there is none. *)
Definition parseMagnitude (sign R : Z) (s : string) : number :=
  match parseDigits R s None with
  | Some v => Num (sign * v)
  | None => NaN
  end.

(** [parseInt(string, radix)]; a [radix] of 0 stands for an absent one. *)
Definition parseInt (str : string) (radix : Z) : number :=
  let S0 := trimStart str in
  let '(sign, S1) :=
    match S0 with
    | String "-" r => (-1, r)
    | String "+" r => (1, r)
    | _ => (1, S0)
    end in
  if negb (radix =? 0) && ((radix <? 2) || (36 <? radix)) then NaN
  else
    let stripPrefix := (radix =? 0) || (radix =? 16) in
    let R0 := if radix =? 0 then 10 else radix in
    let '(R, S2) :=
      match S1 with
      | String "0" (String x r) =>
          if stripPrefix && (Ascii.eqb x "x" || Ascii.eqb x "X") then (16, r) else (R0, S1)
      | _ => (R0, S1)
      end in
    parseMagnitude sign R S2.

(* ================================================================== *)
(** ** Number.prototype.toFixed(1) *)

(** The double nearest to an integer. *)
Definition Z2float (z : Z) : float :=
  SF2Prim (binary_normalize prec emax z 0 false).

(** The integer [n] for which [n / 10 - m * 2^e] is closest to zero, the
    larger one when two are as close. *)
Definition nearestTenths (m : positive) (e : Z) : Z :=
  if 0 <=? e
  then 10 * Z.pos m * 2 ^ e
  else (2 * 10 * Z.pos m + 2 ^ (- e)) / (2 * 2 ^ (- e)).

Definition digitsOf (n : Z) : string :=
  NilEmpty.string_of_uint (N.to_uint (Z.to_N n)).

(** The digits of [n] with a point before the last one, padded on the left
    to two digits. *)
Definition renderTenths (n : Z) : string :=
  digitsOf (n / 10) ++ "." ++ digitsOf (n mod 10).

(** [x.toFixed(1)].  A magnitude of 10^21 and more, which ECMAScript prints
    in exponent form, is beyond every quotient of counts in the safe range
    and is printed in full here too. *)
Definition toFixed1 (x : float) : string :=
  match Prim2SF x with
  | S754_nan => "NaN"
  | S754_infinity false => "Infinity"
  | S754_infinity true => "-Infinity"
  | S754_zero _ => "0.0"
  | S754_finite s m e =>
      (if s then "-" else "") ++ renderTenths (nearestTenths m e)
  end.

(** [((change / prior) * 100).toFixed(1)] on two counts: the quotient and
    the product are those of doubles. *)
Definition percent (change prior : Z) : string :=
  toFixed1 (PrimFloat.mul (PrimFloat.div (Z2float change) (Z2float prior)) (Z2float 100)).

(* ================================================================== *)
(** ** The unified document

    The fields no transformation reads ([metadata], the [diseases] catalog,
    [analytics.trends], the descriptive strings of the regional payloads) are
    left out. *)

Module District.
Record t : Type := { id : string; name : string; type : string }.
End District.

Module RegionInfo.
Record t : Type :=
  { name : string;
    type : string;
    kode : string;
    districts : option (list District.t) }.
End RegionInfo.

Module DiseaseCount.
Record t : Type := { laki : Z; perempuan : Z; total : Z }.
End DiseaseCount.

Module DistrictCases.
Record t : Type :=
  { district : string;
    diseases : Obj DiseaseCount.t }.
End DistrictCases.

Module JakartaYearData.
Record t : Type :=
  { periode : string;
    source : string;
    isEstimated : option bool;
    cases : list DistrictCases.t;
    summary : Obj DiseaseCount.t }.
End JakartaYearData.

Module Subdistrict.
Record t : Type := { id : string; name : string }.
End Subdistrict.

Module OutbreakSummary.
Record t : Type :=
  { totalAllYears : Z;
    peakYear : Z;
    peakCount : Z;
    hotspot : string }.
End OutbreakSummary.

Module CirebonData.
Record t : Type :=
  { subdistricts : list Subdistrict.t;
    yearlyData : Obj (Obj Z);
    summary : OutbreakSummary.t }.
End CirebonData.

Module BogorData.
Record t : Type :=
  { subdistricts : list Subdistrict.t;
    yearlyData : Obj (Obj NumOrBool);
    summary : OutbreakSummary.t }.
End BogorData.

Module JatimDiseaseCount.
Record t : Type := { igd : Z; rawat_inap : Z; total : Z }.
End JatimDiseaseCount.

Module JatimYearData.
Record t : Type :=
  { periode : string;
    isPartialYear : option bool;
    diseases : Obj JatimDiseaseCount.t }.
End JatimYearData.

Module JatimData.
Record t : Type := { yearlyData : Obj JatimYearData.t }.
End JatimData.

Module Hotspot.
Record t : Type :=
  { region : string; disease : string; year : Z; cases : Z }.
End Hotspot.

Module Analytics.
Record t : Type :=
  { hotspots : list Hotspot.t;
    recommendations : list string }.
End Analytics.

Module Regions.
Record t : Type :=
  { jakarta : RegionInfo.t;
    jabar : RegionInfo.t;
    jatim : RegionInfo.t }.
End Regions.

Module Data.
Record t : Type :=
  { jakarta : Obj JakartaYearData.t;
    cirebon : CirebonData.t;
    bogor : BogorData.t;
    jatim : JatimData.t }.
End Data.

Module UnifiedData.
Record t : Type :=
  { regions : Regions.t;
    data : Data.t;
    analytics : Analytics.t }.
End UnifiedData.

(* ================================================================== *)
(** ** Results of the transformers *)

(** A count is [None] when the record holds [undefined]. *)
Module DistrictRow.
Record t : Type :=
  { name : string; id : string;
    laki : option Z; perempuan : option Z; total : option Z }.
End DistrictRow.

Module YearComparisonRow.
Record t : Type :=
  { year : string;
    total : option Z; laki : option Z; perempuan : option Z;
    isEstimated : bool }.
End YearComparisonRow.

(** [total] is [None] when the record holds [undefined]. *)
Module CirebonTrendRow.
Record t : Type := { year : string; total : option Z }.
End CirebonTrendRow.

Module BogorTrendRow.
Record t : Type :=
  { year : string; total : NumOrBool; isEstimated : NumOrBool }.
End BogorTrendRow.

Module SubdistrictRow.
Record t : Type := { name : string; id : string; total : Z }.
End SubdistrictRow.

(** A field of the record [getJatimDiseaseComparison] builds. *)
Inductive JatimField : Type :=
| FStr (s : string)
| FNum (n : Z)
| FBool (b : bool).

Module SummaryStats.
Record t : Type :=
  { jakartaDifteri2023 : Z;
    jakartaDifteri2022 : Z;
    difteriChange : Z;
    difteriChangePercent : string;
    cirebonTotal : Z;
    cirebonPeak : Z;
    cirebonPeakYear : Z;
    bogorTotal : Z;
    hotspots : list Hotspot.t;
    recommendations : list string }.
End SummaryStats.

(** A call either returns or throws a [TypeError] (a property of
    [undefined] was read). *)
Inductive result (A : Type) : Type :=
| Ok (a : A)
| TypeError.
Arguments Ok {A} a.
Arguments TypeError {A}.

Definition bind {A B : Type} (r : result A) (f : A -> result B) : result B :=
  match r with
  | Ok a => f a
  | TypeError => TypeError
  end.

(** [xs.map(f)] where [f] may throw. *)
Fixpoint mapM {A B : Type} (f : A -> result B) (xs : list A) : result (list B) :=
  match xs with
  | [] => Ok []
  | x :: xs' =>
      bind (f x) (fun y => bind (mapM f xs') (fun ys => Ok (y :: ys)))
  end.

(* ================================================================== *)
(** ** Chart data transformers *)

(** [n || 0] for an optional number. *)
Definition orZero (n : option Z) : Z :=
  match n with
  | Some x => x
  | None => 0
  end.

Definition zeroCount : DiseaseCount.t :=
  {| DiseaseCount.laki := 0; DiseaseCount.perempuan := 0; DiseaseCount.total := 0 |}.

(** [districts?.find(d => d.id === id)]. *)
Definition findDistrict (districts : option (list District.t)) (id : string)
  : option District.t :=
  match districts with
  | Some ds => find (fun d => (District.id d =? id)%string) ds
  | None => None
  end.

(** [(o[k] || { laki: 0, perempuan: 0, total: 0 }).f]: the field [f] of the
    counts found under [k]; an inherited member is truthy and has no such
    field. *)
Definition countField (f : DiseaseCount.t -> Z) (found : Lookup DiseaseCount.t)
  : option Z :=
  match found with
  | Own c => Some (f c)
  | Inherited => None
  | Undefined => Some (f zeroCount)
  end.

Definition getJakartaDistrictData (unifiedData : UnifiedData.t) (year disease : string)
  : result (list DistrictRow.t) :=
  match lookup (Data.jakarta (UnifiedData.data unifiedData)) year with
  | Undefined => Ok []
  | Inherited => TypeError
  | Own yearData =>
      Ok (map (fun districtData =>
             let diseaseData := lookup (DistrictCases.diseases districtData) disease in
             let districtInfo :=
               findDistrict
                 (RegionInfo.districts (Regions.jakarta (UnifiedData.regions unifiedData)))
                 (DistrictCases.district districtData) in
             {| DistrictRow.name :=
                  orStr (option_map District.name districtInfo)
                        (DistrictCases.district districtData);
                DistrictRow.id := DistrictCases.district districtData;
                DistrictRow.laki := countField DiseaseCount.laki diseaseData;
                DistrictRow.perempuan := countField DiseaseCount.perempuan diseaseData;
                DistrictRow.total := countField DiseaseCount.total diseaseData |})
          (JakartaYearData.cases yearData))
  end.

Definition getJakartaYearComparison (unifiedData : UnifiedData.t) (disease : string)
  : result (list YearComparisonRow.t) :=
  let jakarta := Data.jakarta (UnifiedData.data unifiedData) in
  let years := sort compareStrings (keys jakarta) in
  mapM (fun year =>
          match get jakarta year with
          | None => TypeError
          | Some yearData =>
              let summary := lookup (JakartaYearData.summary yearData) disease in
              Ok {| YearComparisonRow.year := year;
                    YearComparisonRow.total := countField DiseaseCount.total summary;
                    YearComparisonRow.laki := countField DiseaseCount.laki summary;
                    YearComparisonRow.perempuan := countField DiseaseCount.perempuan summary;
                    YearComparisonRow.isEstimated :=
                      match JakartaYearData.isEstimated yearData with
                      | Some b => b
                      | None => false
                      end |}
          end)
       years.

(** The comparator [(a, b) => parseInt(a.year) - parseInt(b.year)]. *)
Definition byYear {A : Type} (year : A -> string) (a b : A) : number :=
  number_sub (parseInt (year a) 0) (parseInt (year b) 0).

Definition getCirebonYearlyTrend (unifiedData : UnifiedData.t) : list CirebonTrendRow.t :=
  let yearlyData := CirebonData.yearlyData (Data.cirebon (UnifiedData.data unifiedData)) in
  sort (byYear CirebonTrendRow.year)
       (map (fun '(year, data) =>
               {| CirebonTrendRow.year := year;
                  CirebonTrendRow.total := get data "total" |})
            (entries yearlyData)).

(** The comparator [(a, b) => b.total - a.total]. *)
Definition byTotalDesc (a b : SubdistrictRow.t) : number :=
  Num (SubdistrictRow.total b - SubdistrictRow.total a).

Definition getCirebonBySubdistrict (unifiedData : UnifiedData.t) : list SubdistrictRow.t :=
  let yearlyData := CirebonData.yearlyData (Data.cirebon (UnifiedData.data unifiedData)) in
  let subdistricts := CirebonData.subdistricts (Data.cirebon (UnifiedData.data unifiedData)) in
  sort byTotalDesc
       (map (fun sub =>
               let total :=
                 fold_left (fun total yearData =>
                              total + orZero (get yearData (Subdistrict.id sub)))
                           (values yearlyData) 0 in
               {| SubdistrictRow.name := Subdistrict.name sub;
                  SubdistrictRow.id := Subdistrict.id sub;
                  SubdistrictRow.total := total |})
            subdistricts).

Definition getBogorYearlyTrend (unifiedData : UnifiedData.t) : list BogorTrendRow.t :=
  let yearlyData := BogorData.yearlyData (Data.bogor (UnifiedData.data unifiedData)) in
  sort (byYear BogorTrendRow.year)
       (map (fun '(year, data) =>
               {| BogorTrendRow.year := year;
                  BogorTrendRow.total := orElse (get data "total") (VNum 0);
                  BogorTrendRow.isEstimated :=
                    orElse (get data "isEstimated") (VBool false) |})
            (entries yearlyData)).

Definition getBogorBySubdistrict (unifiedData : UnifiedData.t) : list SubdistrictRow.t :=
  let yearlyData := BogorData.yearlyData (Data.bogor (UnifiedData.data unifiedData)) in
  let subdistricts := BogorData.subdistricts (Data.bogor (UnifiedData.data unifiedData)) in
  sort byTotalDesc
       (filter (fun s => 0 <? SubdistrictRow.total s)
          (map (fun sub =>
                  let total :=
                    fold_left (fun total yearData =>
                                 total + toNumber (orElse (get yearData (Subdistrict.id sub))
                                                          (VNum 0)))
                              (values yearlyData) 0 in
                  {| SubdistrictRow.name := Subdistrict.name sub;
                     SubdistrictRow.id := Subdistrict.id sub;
                     SubdistrictRow.total := total |})
               subdistricts)).

Definition jatimDiseases : list string :=
  ["diare-akut"; "dengue"; "pneumonia"; "tifoid"].

Definition getJatimDiseaseComparison (unifiedData : UnifiedData.t)
  : result (list (Obj JatimField)) :=
  let yearlyData := JatimData.yearlyData (Data.jatim (UnifiedData.data unifiedData)) in
  let years := sort compareStrings (keys yearlyData) in
  mapM (fun year =>
          match get yearlyData year with
          | None => TypeError
          | Some yearData =>
              let result0 : Obj JatimField :=
                [("year", FStr year);
                 ("isPartialYear",
                  FBool match JatimYearData.isPartialYear yearData with
                        | Some b => b
                        | None => false
                        end)] in
              Ok (fold_left
                    (fun result disease =>
                       set result disease
                           (FNum (orZero (option_map JatimDiseaseCount.total
                                            (get (JatimYearData.diseases yearData) disease)))))
                    jatimDiseases result0)
          end)
       years.

(** [yearData?.summary['difteri']?.total || 0]. *)
Definition difteriTotal (yearData : option JakartaYearData.t) : Z :=
  match yearData with
  | Some y => orZero (option_map DiseaseCount.total (get (JakartaYearData.summary y) "difteri"))
  | None => 0
  end.

Definition getSummaryStats (unifiedData : UnifiedData.t) : SummaryStats.t :=
  let d := UnifiedData.data unifiedData in
  let jakarta2023 := get (Data.jakarta d) "2023" in
  let jakarta2022 := get (Data.jakarta d) "2022" in
  let difteri2023 := difteriTotal jakarta2023 in
  let difteri2022 := difteriTotal jakarta2022 in
  let difteriChange := difteri2023 - difteri2022 in
  let difteriChangePercent :=
    if 0 <? difteri2022 then percent difteriChange difteri2022 else "0" in
  {| SummaryStats.jakartaDifteri2023 := difteri2023;
     SummaryStats.jakartaDifteri2022 := difteri2022;
     SummaryStats.difteriChange := difteriChange;
     SummaryStats.difteriChangePercent := difteriChangePercent;
     SummaryStats.cirebonTotal := OutbreakSummary.totalAllYears (CirebonData.summary (Data.cirebon d));
     SummaryStats.cirebonPeak := OutbreakSummary.peakCount (CirebonData.summary (Data.cirebon d));
     SummaryStats.cirebonPeakYear := OutbreakSummary.peakYear (CirebonData.summary (Data.cirebon d));
     SummaryStats.bogorTotal := OutbreakSummary.totalAllYears (BogorData.summary (Data.bogor d));
     SummaryStats.hotspots := Analytics.hotspots (UnifiedData.analytics unifiedData);
     SummaryStats.recommendations := Analytics.recommendations (UnifiedData.analytics unifiedData) |}.

(* ================================================================== *)
(** ** Data fetching

    The module-level cell [cachedUnifiedData] and the outside world are
    explicit state.  A parsed document lives in the heap; a reference to it
    is its address, so two results are reference-equal when the addresses
    are equal. *)

(** What one request for an asset comes to. *)
Inductive Response : Type :=
| NetworkFailure
| InvalidJson
| Json (doc : UnifiedData.t).

Inductive FetchError : Type :=
| FetchFailed
| ParseFailed.

Definition ref : Type := nat.

Module Env.
Record t : Type :=
  { BASE_URL : string;
    (** the answer to the [n]-th request of the session, for a given URL *)
    server : nat -> string -> Response }.
End Env.

Module World.
Record t : Type :=
  { cachedUnifiedData : option ref;
    heap : list UnifiedData.t;
    (** the URLs requested so far, oldest first *)
    requests : list string }.
End World.

Definition deref (w : World.t) (r : ref) : option UnifiedData.t :=
  nth_error (World.heap w) r.

(** An asynchronous function run to completion: it resolves or rejects, and
    leaves a new world. *)
Definition Async (A : Type) : Type := World.t -> (A + FetchError) * World.t.

Definition unifiedDataUrl (env : Env.t) : string :=
  Env.BASE_URL env ++ "data/unified-data.json".

Definition fetchUnifiedData (env : Env.t) : Async ref :=
  fun w =>
    match World.cachedUnifiedData w with
    | Some r => (inl r, w)
    | None =>
        let url := unifiedDataUrl env in
        let w1 :=
          {| World.cachedUnifiedData := World.cachedUnifiedData w;
             World.heap := World.heap w;
             World.requests := World.requests w ++ [url] |} in
        match Env.server env (List.length (World.requests w)) url with
        | NetworkFailure => (inr FetchFailed, w1)
        | InvalidJson => (inr ParseFailed, w1)
        | Json doc =>
            let r := List.length (World.heap w1) in
            (inl r,
             {| World.cachedUnifiedData := Some r;
                World.heap := World.heap w1 ++ [doc];
                World.requests := World.requests w1 |})
        end
    end.

(** [n] calls one after the other, each awaited before the next; the
    results in call order. *)
Fixpoint fetchTimes (env : Env.t) (n : nat) (w : World.t)
  : list (ref + FetchError) * World.t :=
  match n with
  | O => ([], w)
  | S n' =>
      let '(r, w1) := fetchUnifiedData env w in
      let '(rs, w2) := fetchTimes env n' w1 in
      (r :: rs, w2)
  end.

(* ================================================================== *)
(** ** Legacy rows and their aggregations

    Of each legacy row, the fields the aggregations read. *)

Module JakartaDataItem.
Record t : Type :=
  { periode_data : string;
    wilayah : option string;
    kota_atau_kabupaten : option string;
    jenis_kelamin : string;
    jenis_kasus : option string;
    jumlah : option string;
    jumlah_difteri : option string }.
End JakartaDataItem.

Module CirebonDataItem.
Record t : Type :=
  { kemendagri_nama_kecamatan : string;
    jumlah_kasus : string;
    tahun : string }.
End CirebonDataItem.

Module BogorDataItem.
Record t : Type :=
  { kemendagri_nama_kecamatan : string;
    jumlah_wabah_lainya : string;
    tahun : string }.
End BogorDataItem.

Module RegionCount.
Record t : Type := { laki : number; perempuan : number }.
End RegionCount.

Module RegionRow.
Record t : Type :=
  { name : string; laki : number; perempuan : number; total : number }.
End RegionRow.

Module YearRow.
Record t : Type := { year : string; total : number }.
End YearRow.

(** The text [item.jumlah || item.jumlah_difteri || '0'] handed to
    [parseInt]. *)
Definition jakartaJumlah (item : JakartaDataItem.t) : string :=
  orStr (orOptStr (JakartaDataItem.jumlah item) (JakartaDataItem.jumlah_difteri item)) "0".

(** The body of the [forEach] of [transformJakartaDataByRegion]. *)
Definition jakartaRegionStep (diseaseType : string)
  (acc : result (Obj RegionCount.t)) (item : JakartaDataItem.t)
  : result (Obj RegionCount.t) :=
  bind acc (fun regionMap =>
    let region :=
      orStr (orOptStr (JakartaDataItem.wilayah item)
                      (JakartaDataItem.kota_atau_kabupaten item))
            "Unknown" in
    let kasusMatch :=
      option_map (fun k => includes (toLowerCase k) (toLowerCase diseaseType))
                 (JakartaDataItem.jenis_kasus item) in
    if match kasusMatch with Some b => b | None => false end
       || (diseaseType =? "difteri")%string
    then
      let jumlah := parseInt (jakartaJumlah item) 10 in
      let regionMap1 :=
        if has regionMap region then regionMap
        else set regionMap region
                 {| RegionCount.laki := Num 0; RegionCount.perempuan := Num 0 |} in
      match get regionMap1 region with
      | None => TypeError
      | Some current =>
          if includes (toLowerCase (JakartaDataItem.jenis_kelamin item)) "laki"
          then Ok (set regionMap1 region
                       {| RegionCount.laki := number_add (RegionCount.laki current) jumlah;
                          RegionCount.perempuan := RegionCount.perempuan current |})
          else Ok (set regionMap1 region
                       {| RegionCount.laki := RegionCount.laki current;
                          RegionCount.perempuan :=
                            number_add (RegionCount.perempuan current) jumlah |})
      end
    else Ok regionMap).

Definition transformJakartaDataByRegion (data : list JakartaDataItem.t) (diseaseType : string)
  : result (list RegionRow.t) :=
  bind (fold_left (jakartaRegionStep diseaseType) data (Ok []))
       (fun regionMap =>
          Ok (map (fun '(name, values) =>
                     {| RegionRow.name :=
                          replace (replace name "KOTA ADM. " "") "KAB. ADM. " "";
                        RegionRow.laki := RegionCount.laki values;
                        RegionRow.perempuan := RegionCount.perempuan values;
                        RegionRow.total :=
                          number_add (RegionCount.laki values) (RegionCount.perempuan values) |})
                  (entries regionMap))).

(** The body of the [forEach] of the two by-year aggregations: [year] and
    the numeric field of the row are given. *)
Definition yearStep (yearMap : Obj number) (year jumlahField : string) : Obj number :=
  let jumlah := parseInt jumlahField 10 in
  let yearMap1 := if has yearMap year then yearMap else set yearMap year (Num 0) in
  set yearMap1 year
      (number_add match get yearMap1 year with
                  | Some t => t
                  | None => NaN
                  end
                  jumlah).

Definition yearRows (yearMap : Obj number) : list YearRow.t :=
  sort (byYear YearRow.year)
       (map (fun '(year, total) => {| YearRow.year := year; YearRow.total := total |})
            (entries yearMap)).

Definition transformCirebonByYear (data : list CirebonDataItem.t) : list YearRow.t :=
  yearRows
    (fold_left (fun yearMap item =>
                  yearStep yearMap (CirebonDataItem.tahun item)
                           (CirebonDataItem.jumlah_kasus item))
               data []).

Definition transformBogorByYear (data : list BogorDataItem.t) : list YearRow.t :=
  yearRows
    (fold_left (fun yearMap item =>
                  yearStep yearMap (BogorDataItem.tahun item)
                           (BogorDataItem.jumlah_wabah_lainya item))
               data []).

(* ================================================================== *)
(** ** Year keys *)

Definition isDigit (c : ascii) : bool :=
  let n := nat_of_ascii c in ((48 <=? n) && (n <=? 57))%nat.

(** A string of exactly four decimal digits. *)
Definition isYearKey (s : string) : bool :=
  match s with
  | String a (String b (String c (String d EmptyString))) =>
      isDigit a && isDigit b && isDigit c && isDigit d
  | _ => false
  end.

Definition digit (c : ascii) : Z := Z.of_nat (nat_of_ascii c) - 48.

(** The integer a string of decimal digits denotes. *)
Definition decimalValue (s : string) : Z :=
  fold_left (fun acc c => 10 * acc + digit c) (list_ascii_of_string s) 0.

(** An object whose keys are distinct four-digit years. *)
Definition yearKeyed {V : Type} (o : Obj V) : Prop :=
  wfObj o /\ Forall (fun k => isYearKey k = true) (keys o).

(** Strictly ascending by the integer value of the year. *)
Definition ascendingYears (years : list string) : Prop :=
  StronglySorted (fun a b => decimalValue a < decimalValue b) years.

(* ================================================================== *)
(** ** Fixtures *)

Definition emptyRegion : RegionInfo.t :=
  {| RegionInfo.name := ""; RegionInfo.type := ""; RegionInfo.kode := "";
     RegionInfo.districts := None |}.

Definition emptySummary : OutbreakSummary.t :=
  {| OutbreakSummary.totalAllYears := 0; OutbreakSummary.peakYear := 0;
     OutbreakSummary.peakCount := 0; OutbreakSummary.hotspot := "" |}.

(** A document with the given Jakarta catalog and payloads. *)
Definition mkDoc (districts : option (list District.t))
  (jakarta : Obj JakartaYearData.t)
  (subdistricts : list Subdistrict.t)
  (cirebonYearly : Obj (Obj Z)) (bogorYearly : Obj (Obj NumOrBool))
  (jatimYearly : Obj JatimYearData.t) : UnifiedData.t :=
  {| UnifiedData.regions :=
       {| Regions.jakarta :=
            {| RegionInfo.name := "DKI Jakarta"; RegionInfo.type := "provinsi";
               RegionInfo.kode := "31"; RegionInfo.districts := districts |};
          Regions.jabar := emptyRegion;
          Regions.jatim := emptyRegion |};
     UnifiedData.data :=
       {| Data.jakarta := jakarta;
          Data.cirebon :=
            {| CirebonData.subdistricts := subdistricts;
               CirebonData.yearlyData := cirebonYearly;
               CirebonData.summary := emptySummary |};
          Data.bogor :=
            {| BogorData.subdistricts := subdistricts;
               BogorData.yearlyData := bogorYearly;
               BogorData.summary := emptySummary |};
          Data.jatim := {| JatimData.yearlyData := jatimYearly |} |};
     UnifiedData.analytics :=
       {| Analytics.hotspots := []; Analytics.recommendations := [] |} |}.

Definition count (l p t : Z) : DiseaseCount.t :=
  {| DiseaseCount.laki := l; DiseaseCount.perempuan := p; DiseaseCount.total := t |}.

Definition jakartaYear (cases : list DistrictCases.t) (summary : Obj DiseaseCount.t)
  : JakartaYearData.t :=
  {| JakartaYearData.periode := ""; JakartaYearData.source := "";
     JakartaYearData.isEstimated := None;
     JakartaYearData.cases := cases; JakartaYearData.summary := summary |}.

(** The fixture of the end-to-end scenario: difteri 15 in 2022 and 22 in
    2023; the 2023 cases name one catalogued and one uncatalogued district,
    the latter without difteri; the years are inserted newest first. *)
Definition fixture2023 : JakartaYearData.t :=
  jakartaYear
    [ {| DistrictCases.district := "jakarta-pusat";
         DistrictCases.diseases := [("difteri", count 3 2 5)] |};
      {| DistrictCases.district := "kepulauan-seribu";
         DistrictCases.diseases := [("pertusis", count 1 0 1)] |} ]
    [("difteri", count 14 8 22)].

Definition fixture2022 : JakartaYearData.t :=
  jakartaYear [] [("difteri", count 10 5 15)].

Definition fixtureSubdistricts : list Subdistrict.t :=
  [ {| Subdistrict.id := "kec-a"; Subdistrict.name := "A" |};
    {| Subdistrict.id := "kec-b"; Subdistrict.name := "B" |};
    {| Subdistrict.id := "kec-c"; Subdistrict.name := "C" |} ].

Definition fixtureCirebonYearly : Obj (Obj Z) :=
  [("2023", [("kec-a", 2); ("total", 2)]);
   ("2021", [("kec-b", 5); ("kec-a", 1); ("total", 6)]);
   ("2022", [("kec-b", 4)])].

(** The same yearly data in Bogor's [number | boolean] shape. *)
Definition liftYearly (yearly : Obj (Obj Z)) : Obj (Obj NumOrBool) :=
  map (fun '(year, data) => (year, map (fun '(k, n) => (k, VNum n)) data)) yearly.

Definition fixtureJatimYearly : Obj JatimYearData.t :=
  [("2025", {| JatimYearData.periode := ""; JatimYearData.isPartialYear := Some true;
               JatimYearData.diseases :=
                 [("dengue", {| JatimDiseaseCount.igd := 1; JatimDiseaseCount.rawat_inap := 2;
                                JatimDiseaseCount.total := 3 |})] |});
   ("2024", {| JatimYearData.periode := ""; JatimYearData.isPartialYear := None;
               JatimYearData.diseases := [] |})].

(** A document whose one Cirebon and Bogor year has no [total] entry. *)
Definition noTotalDoc : UnifiedData.t :=
  mkDoc None []
        [ {| Subdistrict.id := "kec-a"; Subdistrict.name := "A" |} ]
        [("2020", [("kec-a", 3)])]
        (liftYearly [("2020", [("kec-a", 3)])])
        [].

Definition fixture : UnifiedData.t :=
  mkDoc (Some [ {| District.id := "jakarta-pusat"; District.name := "Jakarta Pusat";
                   District.type := "kota" |} ])
        [("2023", fixture2023); ("2022", fixture2022)]
        fixtureSubdistricts fixtureCirebonYearly (liftYearly fixtureCirebonYearly)
        fixtureJatimYearly.

(** A deployment under [/app/] that serves the fixture, and one whose first
    request fails. *)
Definition fixtureEnv : Env.t :=
  {| Env.BASE_URL := "/app/"; Env.server := fun _ _ => Json fixture |}.

Definition failingOnceEnv : Env.t :=
  {| Env.BASE_URL := "/app/";
     Env.server := fun n _ => match n with O => NetworkFailure | S _ => Json fixture end |}.

Definition emptyWorld : World.t :=
  {| World.cachedUnifiedData := None; World.heap := []; World.requests := [] |}.

(** Legacy rows: a Jakarta row and a Cirebon and a Bogor row with the given
    numeric field. *)
Definition jakartaRow (jumlah : option string) : JakartaDataItem.t :=
  {| JakartaDataItem.periode_data := "2023";
     JakartaDataItem.wilayah := Some "KOTA ADM. JAKARTA PUSAT";
     JakartaDataItem.kota_atau_kabupaten := None;
     JakartaDataItem.jenis_kelamin := "Laki-laki";
     JakartaDataItem.jenis_kasus := None;
     JakartaDataItem.jumlah := jumlah;
     JakartaDataItem.jumlah_difteri := None |}.

Definition cirebonRow (tahun jumlah_kasus : string) : CirebonDataItem.t :=
  {| CirebonDataItem.kemendagri_nama_kecamatan := "KEJAKSAN";
     CirebonDataItem.jumlah_kasus := jumlah_kasus;
     CirebonDataItem.tahun := tahun |}.


(* ================================================================== *)
(** ** Vocabulary of the properties *)

(** Two elements in the order of an integer key. *)
Definition keyLe {A : Type} (key : A -> Z) (a b : A) : Prop := key a <= key b.
Definition keyLt {A : Type} (key : A -> Z) (a b : A) : Prop := key a < key b.

(** The relation between one entry of a year's cases list and the record
    made from it: the counts of the disease, zeros when the entry has no
    such disease, and [undefined] when it has none and the name is that of
    a member of [Object.prototype]. *)
Definition rowOf (disease : string) (c : DistrictCases.t) (r : DistrictRow.t) : Prop :=
  DistrictRow.id r = DistrictCases.district c /\
  match get (DistrictCases.diseases c) disease with
  | Some n =>
      DistrictRow.laki r = Some (DiseaseCount.laki n) /\
      DistrictRow.perempuan r = Some (DiseaseCount.perempuan n) /\
      DistrictRow.total r = Some (DiseaseCount.total n)
  | None =>
      if inherited disease
      then DistrictRow.laki r = None /\ DistrictRow.perempuan r = None /\
           DistrictRow.total r = None
      else DistrictRow.laki r = Some 0 /\ DistrictRow.perempuan r = Some 0 /\
           DistrictRow.total r = Some 0
  end.

(** The records of a year's cases whose entry lacks the disease hold three
    zeros. *)
Definition zerosWhenDiseaseMissing (d : UnifiedData.t) (year disease : string) : Prop :=
  forall yearData rows i c r,
    get (Data.jakarta (UnifiedData.data d)) year = Some yearData ->
    getJakartaDistrictData d year disease = Ok rows ->
    nth_error (JakartaYearData.cases yearData) i = Some c ->
    nth_error rows i = Some r ->
    get (DistrictCases.diseases c) disease = None ->
    DistrictRow.laki r = Some 0 /\ DistrictRow.perempuan r = Some 0 /\
    DistrictRow.total r = Some 0.









(** A document whose Bogor catalog and yearly data are its own: Cirebon has
    one subdistrict without a case, Bogor two, one of them without a case. *)
Definition separateCatalogsDoc : UnifiedData.t :=
  {| UnifiedData.regions := UnifiedData.regions noTotalDoc;
     UnifiedData.data :=
       {| Data.jakarta := [];
          Data.cirebon :=
            {| CirebonData.subdistricts :=
                 [ {| Subdistrict.id := "kejaksan"; Subdistrict.name := "Kejaksan" |} ];
               CirebonData.yearlyData := [("2020", [("total", 0)])];
               CirebonData.summary := emptySummary |};
          Data.bogor :=
            {| BogorData.subdistricts :=
                 [ {| Subdistrict.id := "cibinong"; Subdistrict.name := "Cibinong" |};
                   {| Subdistrict.id := "ciawi"; Subdistrict.name := "Ciawi" |} ];
               BogorData.yearlyData :=
                 [("2020", [("ciawi", VNum 4); ("isEstimated", VBool true)]);
                  ("2021", [("ciawi", VNum 2); ("cibinong", VNum 0)])];
               BogorData.summary := emptySummary |};
          Data.jatim := {| JatimData.yearlyData := [] |} |};
     UnifiedData.analytics := UnifiedData.analytics noTotalDoc |}.

(** [s] is the decimal numeral of the natural number [n]. *)
Definition decimalOf (n : Z) : string :=
  NilEmpty.string_of_uint (N.to_uint (Z.to_N n)).

(** [n] is the integer nearest to [10 * m * 2^e], the larger one of two
    equally near. *)
Definition nearestToTenTimes (m : positive) (e n : Z) : Prop :=
  if 0 <=? e
  then n = 10 * Z.pos m * 2 ^ e
  else 2 * 2 ^ (- e) * n <= 2 * 10 * Z.pos m + 2 ^ (- e) < 2 * 2 ^ (- e) * (n + 1).

(** [m * 2^e < 10^21]: the magnitudes [toFixed] writes without an
    exponent. *)
Definition belowExponentForm (m : positive) (e : Z) : Prop :=
  if 0 <=? e then Z.pos m * 2 ^ e < 10 ^ 21 else Z.pos m < 10 ^ 21 * 2 ^ (- e).

(** [s] is the double [x] written with one decimal place, as
    [Number.prototype.toFixed(1)] specifies it: the numeral of the integer
    nearest to ten times the magnitude, with a point before its last
    digit. *)
Definition rendersOneDecimal (x : spec_float) (s : string) : Prop :=
  match x with
  | S754_nan => s = "NaN"
  | S754_infinity false => s = "Infinity"
  | S754_infinity true => s = "-Infinity"
  | S754_zero _ => s = "0.0"
  | S754_finite sign m e =>
      belowExponentForm m e ->
      exists n,
        nearestToTenTimes m e n /\
        s = (if sign : bool then "-" else "")
              ++ decimalOf (n / 10) ++ "." ++ decimalOf (n mod 10)
  end.

(** The double nearest to an integer (round to nearest, ties to even). *)
Definition doubleOf (z : Z) : float := SF2Prim (binary_normalize prec emax z 0 false).

(** The value of the double [x] is the integer [z]. *)
Definition isDoubleOf (x : spec_float) (z : Z) : Prop :=
  match x with
  | S754_zero _ => z = 0
  | S754_finite s m e => e <= 0 /\ (if s then - Z.pos m else Z.pos m) = z * 2 ^ (- e)
  | _ => False
  end.

(** [t] is the difteri total of the year [year] of the document: the
    [total] of the year's difteri summary, and zero when the document has
    no such year or the year's summary has no difteri. *)
Inductive difteriTotalOf (d : UnifiedData.t) (year : string) : Z -> Prop :=
| total_of_summary yearData c :
    get (Data.jakarta (UnifiedData.data d)) year = Some yearData ->
    get (JakartaYearData.summary yearData) "difteri" = Some c ->
    difteriTotalOf d year (DiseaseCount.total c)
| total_without_difteri yearData :
    get (Data.jakarta (UnifiedData.data d)) year = Some yearData ->
    get (JakartaYearData.summary yearData) "difteri" = None ->
    difteriTotalOf d year 0
| total_without_year :
    get (Data.jakarta (UnifiedData.data d)) year = None ->
    difteriTotalOf d year 0.

(** The fixture without its year 2022, and without its year 2023. *)
Definition only2023Doc : UnifiedData.t :=
  mkDoc None [("2023", fixture2023)] [] [] [] [].

Definition only2022Doc : UnifiedData.t :=
  mkDoc None [("2022", fixture2022)] [] [] [] [].

(** The year of a record of [getJatimDiseaseComparison]. *)
Definition jatimYear (r : Obj JatimField) : string :=
  match get r "year" with
  | Some (FStr y) => y
  | _ => ""
  end.

(** The world after the first, successful call. *)
Definition afterFirstFetch (env : Env.t) (w : World.t) (doc : UnifiedData.t) : World.t :=
  {| World.cachedUnifiedData := Some (List.length (World.heap w));
     World.heap := World.heap w ++ [doc];
     World.requests := World.requests w ++ [unifiedDataUrl env] |}.

(** Both sums of a region are numbers. *)
Definition numericCount (c : RegionCount.t) : Prop :=
  isNum (RegionCount.laki c) = true /\ isNum (RegionCount.perempuan c) = true.



(* ================================================================== *)
(** ** The remaining legacy functions *)

Module JawaTimurDataItem.
Record t : Type :=
  { penyakit : string;
    periode_update : string;
    jumlah : string }.
End JawaTimurDataItem.

Module MonthRow.
Record t : Type := { month : string; total : number }.
End MonthRow.

(** [transformJawaTimurByMonth]; the rows of the disease are accumulated as
    in the by-year aggregations ([yearStep], keyed by month).  The order of
    [String.prototype.localeCompare] depends on the host's collation and is
    a parameter. *)
Definition transformJawaTimurByMonth (localeCompare : string -> string -> number)
  (data : list JawaTimurDataItem.t) (diseaseName : string) : list MonthRow.t :=
  let monthMap :=
    fold_left (fun monthMap item =>
                 if includes (toLowerCase (JawaTimurDataItem.penyakit item))
                             (toLowerCase diseaseName)
                 then yearStep monthMap (JawaTimurDataItem.periode_update item)
                               (JawaTimurDataItem.jumlah item)
                 else monthMap)
              data [] in
  sort (fun a b => localeCompare (MonthRow.month a) (MonthRow.month b))
       (map (fun '(month, total) => {| MonthRow.month := month; MonthRow.total := total |})
            (entries monthMap)).

(** [Set.prototype.add] on a set of strings kept in insertion order. *)
Definition setAdd (s : list string) (x : string) : list string :=
  if existsb (String.eqb x) s then s else s ++ [x].

Definition getUniqueDiseasesJatim (data : list JawaTimurDataItem.t) : list string :=
  sort compareStrings
       (fold_left (fun diseases item => setAdd diseases (JawaTimurDataItem.penyakit item))
                  data []).

Module Summary.
Record t : Type :=
  { totalDifteri2022 : number;
    totalDifteri2023 : number;
    change : number;
    changePercent : string }.
End Summary.

(** The double of a number. *)
Definition number2float (a : number) : float :=
  match a with
  | NaN => PrimFloat.nan
  | Num z => Z2float z
  end.

Definition calculateSummary (jakartaData2022 jakartaData2023 : list JakartaDataItem.t)
  : Summary.t :=
  let totalDifteri2022 :=
    fold_left (fun sum item =>
                 number_add sum
                   (parseInt (orStr (orOptStr (JakartaDataItem.jumlah_difteri item)
                                              (JakartaDataItem.jumlah item))
                                    "0")
                             10))
              jakartaData2022 (Num 0) in
  let totalDifteri2023 :=
    fold_left (fun sum item =>
                 number_add sum (parseInt (orStr (JakartaDataItem.jumlah item) "0") 10))
              jakartaData2023 (Num 0) in
  {| Summary.totalDifteri2022 := totalDifteri2022;
     Summary.totalDifteri2023 := totalDifteri2023;
     Summary.change := number_sub totalDifteri2023 totalDifteri2022;
     Summary.changePercent :=
       toFixed1 (PrimFloat.mul
                   (PrimFloat.div (number2float (number_sub totalDifteri2023 totalDifteri2022))
                                  (number2float totalDifteri2022))
                   (Z2float 100)) |}.

(** *** Legacy fetching *)

Module JakartaResponse.
Record t : Type :=
  { data : list JakartaDataItem.t;
    total_file : Z;
    message : string }.
End JakartaResponse.

Inductive LegacyResponse : Type :=
| LegacyNetworkFailure
| LegacyInvalidJson
| LegacyJson (r : JakartaResponse.t).

Module LegacyEnv.
Record t : Type :=
  { BASE_URL : string;
    server : nat -> string -> LegacyResponse }.
End LegacyEnv.

Definition jakartaUrl (env : LegacyEnv.t) (year : string) : string :=
  LegacyEnv.BASE_URL env ++ "data/jakarta-" ++ year ++ ".json".

Definition fetchJakartaData (env : LegacyEnv.t) (year : string) : Async JakartaResponse.t :=
  fun w =>
    let url := jakartaUrl env year in
    let w1 :=
      {| World.cachedUnifiedData := World.cachedUnifiedData w;
         World.heap := World.heap w;
         World.requests := World.requests w ++ [url] |} in
    match LegacyEnv.server env (List.length (World.requests w)) url with
    | LegacyNetworkFailure => (inr FetchFailed, w1)
    | LegacyInvalidJson => (inr ParseFailed, w1)
    | LegacyJson r => (inl r, w1)
    end.

(** The calls [fetchJakartaData(year)] for the given years, one after the
    other. *)
Fixpoint fetchJakartaEach (env : LegacyEnv.t) (years : list string) (w : World.t)
  : list (JakartaResponse.t + FetchError) * World.t :=
  match years with
  | [] => ([], w)
  | year :: years' =>
      let '(r, w1) := fetchJakartaData env year w in
      let '(rs, w2) := fetchJakartaEach env years' w1 in
      (r :: rs, w2)
  end.

(* ================================================================== *)
(** ** Computations of the pages *)

(** [summary?.difteri?.total || 0]. *)
Definition summaryDifteri (summary : option (Obj DiseaseCount.t)) : Z :=
  match summary with
  | Some s => orZero (option_map DiseaseCount.total (get s "difteri"))
  | None => 0
  end.

Module JakartaTotals.
Record t : Type :=
  { prevYear : option string;
    totalDifteri : Z;
    prevTotalDifteri : Z;
    change : Z;
    changePercent : string;
    diseases : list string }.
End JakartaTotals.

(** The totals the Jakarta page derives for the selected year.  A member
    inherited from [Object.prototype] has no [summary], so the optional
    chain reads it as it reads an absent year. *)
Definition jakartaTotals (data : UnifiedData.t) (selectedYear : string) : JakartaTotals.t :=
  let jakartaData := Data.jakarta (UnifiedData.data data) in
  let currentYearSummary :=
    option_map JakartaYearData.summary (get jakartaData selectedYear) in
  let prevYear :=
    if (selectedYear =? "2023")%string then Some "2022"
    else if (selectedYear =? "2024")%string then Some "2023"
    else None in
  let prevYearSummary :=
    match prevYear with
    | Some y => option_map JakartaYearData.summary (get jakartaData y)
    | None => None
    end in
  let totalDifteri := summaryDifteri currentYearSummary in
  let prevTotalDifteri := summaryDifteri prevYearSummary in
  let change := totalDifteri - prevTotalDifteri in
  {| JakartaTotals.prevYear := prevYear;
     JakartaTotals.totalDifteri := totalDifteri;
     JakartaTotals.prevTotalDifteri := prevTotalDifteri;
     JakartaTotals.change := change;
     JakartaTotals.changePercent :=
       if 0 <? prevTotalDifteri then percent change prevTotalDifteri else "0";
     JakartaTotals.diseases :=
       match currentYearSummary with
       | Some s => keys s
       | None => []
       end |}.

Module DiseaseType.
Record t : Type := { id : string; name : string }.
End DiseaseType.

Module NamedTotal.
Record t : Type := { name : string; total : Z }.
End NamedTotal.

(** The comparator [(a, b) => b.total - a.total] on named totals. *)
Definition byNamedTotalDesc (a b : NamedTotal.t) : number :=
  Num (NamedTotal.total b - NamedTotal.total a).

(** [jatimDiseaseComparison] of the Regional page; [diseaseTypes] is the
    field of that name of [data.jatim]. *)
Definition regionalDiseaseComparison (diseaseTypes : list DiseaseType.t)
  (jatimData : JatimData.t) : list NamedTotal.t :=
  sort byNamedTotalDesc
       (filter (fun d => 0 <? NamedTotal.total d)
          (map (fun disease =>
                  let totals :=
                    fold_left
                      (fun sum yearData =>
                         sum + orZero (option_map JatimDiseaseCount.total
                                         (get (JatimYearData.diseases yearData)
                                              (DiseaseType.id disease))))
                      (values (JatimData.yearlyData jatimData)) 0 in
                  {| NamedTotal.name :=
                       replace (replace (DiseaseType.name disease) "Suspek " "") " / DBD" "";
                     NamedTotal.total := totals |})
               (firstn 8 diseaseTypes))).

(* ================================================================== *)
(** ** The theme switch of the header

    What the header touches of the browser: whether the root element has
    the class [dark], and the [theme] item of the local storage.  The
    component's state is [isDark]; every click is handled on a render that
    has seen the previous update. *)

Module Browser.
Record t : Type :=
  { darkClass : bool;
    theme : option string }.
End Browser.

(** The mount effect of [Header]: [isDark] becomes the presence of the
    class. *)
Definition headerMount (b : Browser.t) : bool := Browser.darkClass b.

Definition toggleTheme (isDark : bool) (b : Browser.t) : bool * Browser.t :=
  let newIsDark := negb isDark in
  (newIsDark,
   {| Browser.darkClass := newIsDark;
      Browser.theme := Some (if newIsDark then "dark" else "light") |}).

(** [n] clicks on the switch. *)
Fixpoint clicks (n : nat) (isDark : bool) (b : Browser.t) : bool * Browser.t :=
  match n with
  | O => (isDark, b)
  | S n' => let '(isDark1, b1) := toggleTheme isDark b in clicks n' isDark1 b1
  end.

(** The mount effect of [App]. *)
Definition appMount (b : Browser.t) : Browser.t :=
  match Browser.theme b with
  | Some savedTheme =>
      if (savedTheme =? "dark")%string
      then {| Browser.darkClass := true; Browser.theme := Browser.theme b |}
      else b
  | None => b
  end.

(** Mounting the page.  [Header] is rendered inside [App], and the mount
    effect of a child runs before that of its parent: the header reads the
    class before [App] may add it. *)
Definition mount (b : Browser.t) : bool * Browser.t :=
  let isDark := headerMount b in
  (isDark, appMount b).

(** A deployment that serves an empty legacy file for every year. *)
Definition legacyEnv : LegacyEnv.t :=
  {| LegacyEnv.BASE_URL := "/app/";
     LegacyEnv.server :=
       fun _ _ => LegacyJson {| JakartaResponse.data := [];
                                JakartaResponse.total_file := 0;
                                JakartaResponse.message := "" |} |}.

(* ================================================================== *)
(** ** Vocabulary of the further properties *)

(** A yearly record of [getJakartaYearComparison] made from the year
    [year]: the counts of the disease in the year's summary; when the
    summary lacks it, zeros, or [undefined] if the disease id is the name
    of a member of [Object.prototype]; and the year's [isEstimated] flag,
    [false] when it is absent. *)
Definition comparisonRowOf (d : UnifiedData.t) (disease year : string)
  (r : YearComparisonRow.t) : Prop :=
  YearComparisonRow.year r = year /\
  exists yearData,
    get (Data.jakarta (UnifiedData.data d)) year = Some yearData /\
    YearComparisonRow.isEstimated r
      = match JakartaYearData.isEstimated yearData with Some b => b | None => false end /\
    match get (JakartaYearData.summary yearData) disease with
    | Some c =>
        YearComparisonRow.total r = Some (DiseaseCount.total c) /\
        YearComparisonRow.laki r = Some (DiseaseCount.laki c) /\
        YearComparisonRow.perempuan r = Some (DiseaseCount.perempuan c)
    | None =>
        if inherited disease
        then YearComparisonRow.total r = None /\ YearComparisonRow.laki r = None /\
             YearComparisonRow.perempuan r = None
        else YearComparisonRow.total r = Some 0 /\ YearComparisonRow.laki r = Some 0 /\
             YearComparisonRow.perempuan r = Some 0
    end.

(** The total of a disease in a year of East Java, 0 when the year does not
    list it. *)
Definition jatimTotal (yearData : JatimYearData.t) (disease : string) : Z :=
  match get (JatimYearData.diseases yearData) disease with
  | Some c => JatimDiseaseCount.total c
  | None => 0
  end.


(** The sum the aggregations build from the texts of a numeric field, in
    row order: [NaN] as soon as one text does not parse. *)
Definition sumParsed (fields : list string) : number :=
  fold_left (fun sum f => number_add sum (parseInt f 10)) fields (Num 0).

(** The map the by-year and by-month aggregations build from the rows, from
    the map [m]. *)
Definition groupFold {Item : Type} (key field : Item -> string) (data : list Item)
  (m : Obj number) : Obj number :=
  fold_left (fun yearMap item => yearStep yearMap (key item) (field item)) data m.

(** A row of East Java is of the disease when its [penyakit] contains the
    name, letter case aside. *)
Definition matchesDisease (diseaseName : string) (item : JawaTimurDataItem.t) : bool :=
  includes (toLowerCase (JawaTimurDataItem.penyakit item)) (toLowerCase diseaseName).

(** Code-unit order of two strings. *)
Definition codeUnitLe (a b : string) : Prop := String.compare a b <> Gt.
Definition codeUnitLt (a b : string) : Prop := String.compare a b = Lt.

(** The grouping key of a Jakarta row, whether the aggregation counts the
    row for a disease type, and whether the row counts as male. *)
Definition regionOf (item : JakartaDataItem.t) : string :=
  orStr (orOptStr (JakartaDataItem.wilayah item) (JakartaDataItem.kota_atau_kabupaten item))
        "Unknown".

Definition selectsRow (diseaseType : string) (item : JakartaDataItem.t) : bool :=
  match option_map (fun k => includes (toLowerCase k) (toLowerCase diseaseType))
                   (JakartaDataItem.jenis_kasus item) with
  | Some b => b
  | None => false
  end
  || (diseaseType =? "difteri")%string.

Definition isMale (item : JakartaDataItem.t) : bool :=
  includes (toLowerCase (JakartaDataItem.jenis_kelamin item)) "laki".

(** The sum of the counted rows of a region and a sex, from [start]. *)
Definition regionSumFrom (diseaseType : string) (male : bool) (data : list JakartaDataItem.t)
  (region : string) (start : number) : number :=
  fold_left (fun sum f => number_add sum (parseInt f 10))
            (map jakartaJumlah
                 (filter (fun item =>
                            selectsRow diseaseType item
                            && (regionOf item =? region)%string
                            && Bool.eqb (isMale item) male)
                         data))
            start.

Definition regionSum (diseaseType : string) (male : bool) (data : list JakartaDataItem.t)
  (region : string) : number :=
  regionSumFrom diseaseType male data region (Num 0).

(** The prefixes [transformJakartaDataByRegion] strips from a region. *)
Definition stripPrefixes (name : string) : string :=
  replace (replace name "KOTA ADM. " "") "KAB. ADM. " "".

(** The distinct strings of a list, in the order of their first
    occurrence. *)
Definition distinct (l : list string) : list string := fold_left setAdd l [].

(** A Jakarta row without its [jenis_kasus], and without its
    [jumlah_difteri]. *)
Definition withoutKasus (item : JakartaDataItem.t) : JakartaDataItem.t :=
  {| JakartaDataItem.periode_data := JakartaDataItem.periode_data item;
     JakartaDataItem.wilayah := JakartaDataItem.wilayah item;
     JakartaDataItem.kota_atau_kabupaten := JakartaDataItem.kota_atau_kabupaten item;
     JakartaDataItem.jenis_kelamin := JakartaDataItem.jenis_kelamin item;
     JakartaDataItem.jenis_kasus := None;
     JakartaDataItem.jumlah := JakartaDataItem.jumlah item;
     JakartaDataItem.jumlah_difteri := JakartaDataItem.jumlah_difteri item |}.

Definition withoutJumlahDifteri (item : JakartaDataItem.t) : JakartaDataItem.t :=
  {| JakartaDataItem.periode_data := JakartaDataItem.periode_data item;
     JakartaDataItem.wilayah := JakartaDataItem.wilayah item;
     JakartaDataItem.kota_atau_kabupaten := JakartaDataItem.kota_atau_kabupaten item;
     JakartaDataItem.jenis_kelamin := JakartaDataItem.jenis_kelamin item;
     JakartaDataItem.jenis_kasus := JakartaDataItem.jenis_kasus item;
     JakartaDataItem.jumlah := JakartaDataItem.jumlah item;
     JakartaDataItem.jumlah_difteri := None |}.

(* ================================================================== *)
(** * Properties *)

(** ** The built-ins on small inputs *)

Example parseInt_year_key : parseInt "2021" 0 = Num 2021.
Proof. reflexivity. Qed.

Example parseInt_leading_zero : parseInt "0123" 0 = Num 123.
Proof. reflexivity. Qed.

Example parseInt_prefix_only : parseInt "  -12 ekor" 10 = Num (-12).
Proof. reflexivity. Qed.

Example parseInt_hex : parseInt "0x1f" 0 = Num 31 /\ parseInt "0x1f" 10 = Num 0.
Proof. split; reflexivity. Qed.

Example parseInt_empty : parseInt "" 10 = NaN.
Proof. reflexivity. Qed.

Example sort_years_example :
  sort compareStrings ["2023"; "2021"; "2022"] = ["2021"; "2022"; "2023"].
Proof. reflexivity. Qed.

Example replace_first_only :
  replace (replace "KOTA ADM. JAKARTA PUSAT" "KOTA ADM. " "") "KAB. ADM. " ""
  = "JAKARTA PUSAT".
Proof. reflexivity. Qed.

Example toFixed1_examples :
  percent 7 15 = "46.7" /\ percent (-7) 15 = "-46.7" /\ percent 0 15 = "0.0" /\
  percent 150 15 = "1000.0" /\ percent 1 3 = "33.3" /\ percent (-1) 10000 = "-0.0".
Proof. vm_compute. repeat split. Qed.

(** The quotient is a double: 3 / 2000 * 100 is the double next to 0.15,
    which lies below it, and prints as "0.1" where the exact 0.15 would
    round up. *)
Example toFixed1_rounds_the_double : percent 3 2000 = "0.1".
Proof. vm_compute. reflexivity. Qed.

(** ** Objects *)

Lemma get_None_iff {V : Type} (o : Obj V) (k : string) :
  get o k = None <-> ~ In k (keys o).
Proof.
  induction o as [|[k' v] o IH]; simpl.
  - tauto.
  - destruct (String.eqb_spec k' k) as [->|Hne].
    + split; [discriminate | intros H; exfalso; apply H; now left].
    + rewrite IH. split; [intros H [E|I]; [now apply Hne | now apply H] | tauto].
Qed.

Lemma get_keys_Some {V : Type} (o : Obj V) (k : string) :
  In k (keys o) -> exists v, get o k = Some v.
Proof.
  intros Hin. destruct (get o k) as [v|] eqn:E.
  - now exists v.
  - apply get_None_iff in E. contradiction.
Qed.

Lemma get_In {V : Type} (o : Obj V) (k : string) (v : V) :
  get o k = Some v -> In (k, v) o.
Proof.
  induction o as [|[k' v'] o IH]; simpl; [discriminate|].
  destruct (String.eqb_spec k' k) as [->|Hne].
  - intros [= ->]. now left.
  - intros H. right. now apply IH.
Qed.

(** ** getJakartaDistrictData *)

Lemma find_none_iff (ds : list District.t) (i : string) :
  find (fun d => (District.id d =? i)%string) ds = None <->
  forall e, In e ds -> District.id e <> i.
Proof.
  induction ds as [|d ds IH]; simpl.
  - split; [intros _ e [] | reflexivity].
  - destruct (String.eqb_spec (District.id d) i) as [E|Hne].
    + split; [discriminate | intros H; exfalso; apply (H d); auto].
    + rewrite IH. split.
      * intros H e [<-|Hin]; auto.
      * intros H e Hin. apply H. now right.
Qed.

(** For a year of the document the call returns, with one record per entry
    of the year's cases list. *)
Lemma getJakartaDistrictData_own_year
  (unifiedData : UnifiedData.t) (year disease : string) (yearData : JakartaYearData.t) :
  get (Data.jakarta (UnifiedData.data unifiedData)) year = Some yearData ->
  exists rows,
    getJakartaDistrictData unifiedData year disease = Ok rows /\
    Forall2 (rowOf disease) (JakartaYearData.cases yearData) rows /\
    forall i c,
      nth_error (JakartaYearData.cases yearData) i = Some c ->
      exists r,
        nth_error rows i = Some r /\
        DistrictRow.id r = DistrictCases.district c /\
        DistrictRow.name r
          = orStr (option_map District.name
                     (findDistrict
                        (RegionInfo.districts
                           (Regions.jakarta (UnifiedData.regions unifiedData)))
                        (DistrictCases.district c)))
                  (DistrictCases.district c).
Proof.
  intros Hy. unfold getJakartaDistrictData, lookup. rewrite Hy.
  eexists. split; [reflexivity|]. split.
  - induction (JakartaYearData.cases yearData) as [|c cs IH]; cbn [map]; constructor; auto.
    unfold rowOf, lookup. cbn [DistrictRow.id DistrictRow.laki DistrictRow.perempuan
                                DistrictRow.total].
    split; [reflexivity|].
    destruct (get (DistrictCases.diseases c) disease); [cbn; auto|].
    destruct (inherited disease); cbn; auto.
  - intros i c Hc. rewrite nth_error_map, Hc. cbn [option_map].
    eexists. split; [reflexivity|]. split; reflexivity.
Qed.

Lemma Forall2_nth_error {A B : Type} (R : A -> B -> Prop) (l : list A) (l' : list B) :
  Forall2 R l l' ->
  forall i a b, nth_error l i = Some a -> nth_error l' i = Some b -> R a b.
Proof.
  induction 1 as [|x y l l' Hxy _ IH]; intros [|i] a b Ha Hb; cbn in Ha, Hb;
    try discriminate.
  - injection Ha as <-. injection Hb as <-. exact Hxy.
  - now apply (IH i).
Qed.

Lemma Forall2_map_eq {A B C : Type} (R : A -> B -> Prop) (f : A -> C) (g : B -> C)
  (l : list A) (l' : list B) :
  Forall2 R l l' -> (forall a b, R a b -> g b = f a) -> map g l' = map f l.
Proof.
  intros H Hfg. induction H as [|x y l l' Hxy _ IH]; cbn; [reflexivity|].
  now rewrite (Hfg _ _ Hxy), IH.
Qed.

(** C6 (as amended).  For a year present in the Jakarta data,
    [getJakartaDistrictData] returns exactly one record per entry of the
    year's cases list, in the order of that list, whatever the disease id;
    the record carries the district id and the counts of the disease.  When
    the district's diseases mapping lacks the disease id, the three counts
    are 0 if the id is not the name of a member of [Object.prototype], and
    [undefined] if it is. *)
Theorem getJakartaDistrictData_one_per_case
  (unifiedData : UnifiedData.t) (year disease : string) (yearData : JakartaYearData.t) :
  get (Data.jakarta (UnifiedData.data unifiedData)) year = Some yearData ->
  exists rows,
    getJakartaDistrictData unifiedData year disease = Ok rows /\
    List.length rows = List.length (JakartaYearData.cases yearData) /\
    map DistrictRow.id rows = map DistrictCases.district (JakartaYearData.cases yearData) /\
    Forall2 (rowOf disease) (JakartaYearData.cases yearData) rows /\
    (forall i c r,
        nth_error (JakartaYearData.cases yearData) i = Some c ->
        nth_error rows i = Some r ->
        get (DistrictCases.diseases c) disease = None ->
        if inherited disease
        then DistrictRow.laki r = None /\ DistrictRow.perempuan r = None /\
             DistrictRow.total r = None
        else DistrictRow.laki r = Some 0 /\ DistrictRow.perempuan r = Some 0 /\
             DistrictRow.total r = Some 0).
Proof.
  intros Hy.
  destruct (getJakartaDistrictData_own_year unifiedData year disease yearData Hy)
    as (rows & E & HF & _).
  exists rows. repeat apply conj.
  - exact E.
  - symmetry. exact (Forall2_length HF).
  - apply (Forall2_map_eq _ _ _ _ _ HF). intros c r [Hid _]. exact Hid.
  - exact HF.
  - intros i c r Hc Hr Hnone.
    destruct (Forall2_nth_error _ _ _ HF i c r Hc Hr) as [_ Hcounts].
    now rewrite Hnone in Hcounts.
Qed.

Lemma getJakartaDistrictData_one_per_case_witness :
  exists rows,
    getJakartaDistrictData fixture "2023" "difteri" = Ok rows /\
    List.length rows = 2%nat /\
    map DistrictRow.id rows = ["jakarta-pusat"; "kepulauan-seribu"] /\
    map DistrictRow.total rows = [Some 5; Some 0].
Proof.
  destruct (getJakartaDistrictData_one_per_case fixture "2023" "difteri" fixture2023
              eq_refl) as (rows & E & Hlen & Hids & _).
  exists rows. repeat apply conj; [exact E | exact Hlen | exact Hids |].
  cbv in E. injection E as <-. reflexivity.
Defined.

(** C6 as stated fails for a disease id that names a member of
    [Object.prototype]: the lookup finds the inherited member, and the
    record of a district without that disease holds [undefined] counts, not
    zeros. *)
Lemma getJakartaDistrictData_inherited_disease :
  getJakartaDistrictData fixture "2023" "constructor"
  = Ok [ {| DistrictRow.name := "Jakarta Pusat"; DistrictRow.id := "jakarta-pusat";
            DistrictRow.laki := None; DistrictRow.perempuan := None;
            DistrictRow.total := None |};
         {| DistrictRow.name := "kepulauan-seribu"; DistrictRow.id := "kepulauan-seribu";
            DistrictRow.laki := None; DistrictRow.perempuan := None;
            DistrictRow.total := None |} ] /\
  ~ zerosWhenDiseaseMissing fixture "2023" "constructor".
Proof.
  split; [reflexivity|].
  intros H.
  destruct (H fixture2023 _ 0%nat _ _ eq_refl eq_refl eq_refl eq_refl eq_refl) as [H0 _].
  discriminate H0.
Qed.

(** C8.  When the district id of an entry of the year's cases list matches
    no entry of the [regions.jakarta.districts] catalog (or the catalog is
    absent), the record made from that entry has the raw district id as its
    name. *)
Theorem getJakartaDistrictData_name_fallback
  (unifiedData : UnifiedData.t) (year disease : string) (yearData : JakartaYearData.t)
  (i : nat) (c : DistrictCases.t) :
  get (Data.jakarta (UnifiedData.data unifiedData)) year = Some yearData ->
  nth_error (JakartaYearData.cases yearData) i = Some c ->
  (forall ds e,
      RegionInfo.districts (Regions.jakarta (UnifiedData.regions unifiedData)) = Some ds ->
      In e ds -> District.id e <> DistrictCases.district c) ->
  exists rows r,
    getJakartaDistrictData unifiedData year disease = Ok rows /\
    nth_error rows i = Some r /\
    DistrictRow.id r = DistrictCases.district c /\
    DistrictRow.name r = DistrictCases.district c.
Proof.
  intros Hy Hc Hno.
  destruct (getJakartaDistrictData_own_year unifiedData year disease yearData Hy)
    as (rows & E & _ & Hrows).
  destruct (Hrows i c Hc) as (r & Hr & Hid & Hname).
  exists rows, r. repeat apply conj; [exact E | exact Hr | exact Hid |].
  rewrite Hname. unfold findDistrict.
  destruct (RegionInfo.districts _) as [ds|] eqn:Eds; [|reflexivity].
  assert (Hf : find (fun d => (District.id d =? DistrictCases.district c)%string) ds = None).
  { apply find_none_iff. intros e He. now apply (Hno ds). }
  rewrite Hf. reflexivity.
Qed.

Lemma getJakartaDistrictData_name_fallback_witness :
  exists rows r,
    getJakartaDistrictData fixture "2023" "difteri" = Ok rows /\
    nth_error rows 1 = Some r /\
    DistrictRow.id r = "kepulauan-seribu" /\
    DistrictRow.name r = "kepulauan-seribu".
Proof.
  apply (getJakartaDistrictData_name_fallback fixture "2023" "difteri" fixture2023 1
           {| DistrictCases.district := "kepulauan-seribu";
              DistrictCases.diseases := [("pertusis", count 1 0 1)] |}).
  - reflexivity.
  - reflexivity.
  - intros ds e [= <-] [<-|[]]. simpl. discriminate.
Defined.

(** C9 (as amended).  For a year that is not a key of the Jakarta data
    mapping, [getJakartaDistrictData] returns the empty list when the year
    is not the name of a member of [Object.prototype]; when it is, the
    lookup finds the inherited member, which has no cases list, and the call
    throws a [TypeError]. *)
Theorem getJakartaDistrictData_unknown_year
  (unifiedData : UnifiedData.t) (year disease : string) :
  ~ In year (keys (Data.jakarta (UnifiedData.data unifiedData))) ->
  (inherited year = false -> getJakartaDistrictData unifiedData year disease = Ok []) /\
  (inherited year = true -> getJakartaDistrictData unifiedData year disease = TypeError).
Proof.
  intros Hk. apply get_None_iff in Hk.
  unfold getJakartaDistrictData, lookup. rewrite Hk.
  split; intros ->; reflexivity.
Qed.

Lemma getJakartaDistrictData_unknown_year_witness :
  getJakartaDistrictData fixture "1999" "difteri" = Ok [].
Proof.
  apply (getJakartaDistrictData_unknown_year fixture "1999" "difteri");
    [simpl; intros [H|[H|[]]]; discriminate | reflexivity].
Defined.

(** C9 as stated fails: "constructor" is not a key of the Jakarta data
    mapping, yet the call does not return the empty list; it throws. *)
Lemma getJakartaDistrictData_inherited_year :
  ~ In "constructor" (keys (Data.jakarta (UnifiedData.data fixture))) /\
  getJakartaDistrictData fixture "constructor" "difteri" = TypeError /\
  getJakartaDistrictData fixture "constructor" "difteri" <> Ok [].
Proof.
  split; [simpl; intros [H|[H|[]]]; discriminate|].
  split; [reflexivity | discriminate].
Qed.

(** ** getSummaryStats *)

(** [nearestTenths m e] is the integer nearest to [10 * m * 2^e], the larger
    one on a tie: the digits [toFixed(1)] prints. *)
Lemma nearestTenths_nearest (m : positive) (e : Z) :
  (0 <= e -> nearestTenths m e = 10 * Z.pos m * 2 ^ e) /\
  (e < 0 ->
   2 * 2 ^ (- e) * nearestTenths m e <= 2 * 10 * Z.pos m + 2 ^ (- e)
     < 2 * 2 ^ (- e) * (nearestTenths m e + 1)).
Proof.
  unfold nearestTenths. split; intros He.
  - destruct (Z.leb_spec 0 e); [reflexivity | lia].
  - destruct (Z.leb_spec 0 e); [lia|].
    assert (Hq : 0 < 2 ^ (- e)) by (apply Z.pow_pos_nonneg; lia).
    set (q := 2 ^ (- e)) in *. set (a := 2 * 10 * Z.pos m + q).
    pose proof (Z.div_mod a (2 * q) ltac:(lia)) as Hdm.
    pose proof (Z.mod_pos_bound a (2 * q) ltac:(lia)) as Hb.
    nia.
Qed.

(** The fields of [getSummaryStats] that depend on the Jakarta totals. *)
Lemma getSummaryStats_difteri (unifiedData : UnifiedData.t) :
  let jakarta := Data.jakarta (UnifiedData.data unifiedData) in
  let cur := difteriTotal (get jakarta "2023") in
  let prior := difteriTotal (get jakarta "2022") in
  let s := getSummaryStats unifiedData in
  SummaryStats.jakartaDifteri2023 s = cur /\
  SummaryStats.jakartaDifteri2022 s = prior /\
  SummaryStats.difteriChange s = cur - prior /\
  SummaryStats.difteriChangePercent s =
    if 0 <? prior then percent (cur - prior) prior else "0".
Proof. repeat split. Qed.

(** The conversion of an integer below 2^53 in magnitude is exact: the
    mantissa is the integer shifted to 53 bits. *)
Lemma digits2_pos_iter (p d : positive) :
  digits2_pos (Pos.iter xO p d) = (digits2_pos p + d)%positive.
Proof.
  induction d as [|d IH] using Pos.peano_ind.
  - cbn. lia.
  - rewrite Pos.iter_succ. cbn [digits2_pos]. rewrite IH. lia.
Qed.

Lemma Zpos_iter_xO (p d : positive) :
  Z.pos (Pos.iter xO p d) = Z.pos p * 2 ^ Z.pos d.
Proof.
  induction d as [|d IH] using Pos.peano_ind.
  - cbn. lia.
  - rewrite Pos.iter_succ, Pos2Z.inj_xO, IH, Pos2Z.inj_succ, Z.pow_succ_r by lia. lia.
Qed.

Lemma digits2_pos_bound (p : positive) :
  2 ^ (Z.pos (digits2_pos p) - 1) <= Z.pos p < 2 ^ Z.pos (digits2_pos p).
Proof.
  induction p as [p IH|p IH|]; cbn [digits2_pos].
  - rewrite Pos2Z.inj_succ, Z.pow_succ_r by lia.
    replace (Z.succ (Z.pos (digits2_pos p)) - 1) with (Z.succ (Z.pos (digits2_pos p) - 1)) by lia.
    rewrite Z.pow_succ_r by lia. lia.
  - rewrite Pos2Z.inj_succ, Z.pow_succ_r by lia.
    replace (Z.succ (Z.pos (digits2_pos p)) - 1) with (Z.succ (Z.pos (digits2_pos p) - 1)) by lia.
    rewrite Z.pow_succ_r by lia. lia.
  - cbn. lia.
Qed.

Lemma binary_round_aux_canonical (sx : bool) (m : positive) (e : Z) :
  canonical_mantissa prec emax m e = true -> e <= emax - prec ->
  binary_round_aux prec emax sx (Z.pos m) e loc_Exact = S754_finite sx m e.
Proof.
  unfold canonical_mantissa. intros Hc He. apply Z.eqb_eq in Hc.
  unfold binary_round_aux, shr_fexp. cbn [Zdigits2 shr_record_of_loc].
  rewrite Hc, Z.sub_diag. cbn [shr shr_m loc_of_shr_record round_nearest_even Zdigits2
                              shr_record_of_loc].
  rewrite Hc, Z.sub_diag. cbn [shr shr_m].
  destruct (Z.leb_spec e (emax - prec)); [reflexivity | lia].
Qed.

Lemma binary_round_exact (sx : bool) (p : positive) :
  Z.pos p < 2 ^ 53 ->
  exists m e,
    binary_round prec emax sx p 0 = S754_finite sx m e /\
    SpecFloat.valid_binary prec emax (S754_finite sx m e) = true /\
    e <= 0 /\ Z.pos m = Z.pos p * 2 ^ (- e).
Proof.
  intros Hp.
  pose proof (digits2_pos_bound p) as [Hlo _].
  assert (Hd : Z.pos (digits2_pos p) <= 53).
  { destruct (Z.le_gt_cases (Z.pos (digits2_pos p)) 53) as [H|H]; [exact H|].
    exfalso. assert (2 ^ 53 <= 2 ^ (Z.pos (digits2_pos p) - 1))
      by (apply Z.pow_le_mono_r; lia). lia. }
  unfold binary_round.
  assert (Hf : fexp prec emax (Z.pos (digits2_pos p) + 0) = Z.pos (digits2_pos p) - 53).
  { unfold fexp, emin, prec, emax. lia. }
  rewrite Hf. unfold shl_align.
  destruct (Z.pos (digits2_pos p) - 53 - 0) as [|d|d] eqn:Ed; [| lia |].
  - exists p, 0.
    assert (Hc : canonical_mantissa prec emax p 0 = true).
    { unfold canonical_mantissa. rewrite Hf. apply Z.eqb_eq. lia. }
    rewrite binary_round_aux_canonical; [| exact Hc | unfold emax, prec; lia].
    repeat apply conj; [reflexivity | | lia | cbn; lia].
    cbn [SpecFloat.valid_binary]. unfold bounded. rewrite Hc. reflexivity.
  - assert (Hc : canonical_mantissa prec emax (Pos.iter xO p d)
                   (Z.pos (digits2_pos p) - 53) = true).
    { unfold canonical_mantissa. rewrite digits2_pos_iter. apply Z.eqb_eq.
      unfold fexp, emin, prec, emax. lia. }
    exists (Pos.iter xO p d), (Z.pos (digits2_pos p) - 53).
    rewrite binary_round_aux_canonical; [| exact Hc | unfold emax, prec; lia].
    repeat apply conj; [reflexivity | | lia |].
    + cbn [SpecFloat.valid_binary]. unfold bounded. rewrite Hc. cbn [andb].
      apply Z.leb_le. unfold emax, prec. lia.
    + rewrite Zpos_iter_xO. f_equal. f_equal. lia.
Qed.

Lemma doubleOf_exact (z : Z) :
  Z.abs z < 2 ^ 53 -> isDoubleOf (Prim2SF (doubleOf z)) z.
Proof.
  intros Hz. unfold doubleOf. destruct z as [|p|p]; cbn [binary_normalize].
  - rewrite Prim2SF_SF2Prim by reflexivity. reflexivity.
  - destruct (binary_round_exact false p Hz) as (m & e & E & Hv & He & Hm).
    rewrite E, (Prim2SF_SF2Prim _ Hv). cbn [isDoubleOf]. split; assumption.
  - destruct (binary_round_exact true p Hz) as (m & e & E & Hv & He & Hm).
    rewrite E, (Prim2SF_SF2Prim _ Hv). cbn [isDoubleOf]. split; [assumption|].
    rewrite Hm. lia.
Qed.
(** The string [toFixed1] makes of a double is the double written with one
    decimal place. *)
Lemma toFixed1_rendersOneDecimal (x : float) : rendersOneDecimal (Prim2SF x) (toFixed1 x).
Proof.
  unfold toFixed1, rendersOneDecimal.
  destruct (Prim2SF x) as [z | [|] | | sign m e]; try reflexivity.
  intros _. exists (nearestTenths m e). split; [|reflexivity].
  unfold nearestToTenTimes.
  destruct (nearestTenths_nearest m e) as [Hnonneg Hneg].
  destruct (Z.leb_spec 0 e); [apply Hnonneg | apply Hneg]; assumption.
Qed.

(** The difteri totals [getSummaryStats] reads from the document. *)
Lemma difteriTotalOf_difteriTotal (d : UnifiedData.t) (year : string) (t : Z) :
  difteriTotalOf d year t ->
  difteriTotal (get (Data.jakarta (UnifiedData.data d)) year) = t.
Proof.
  intros [yearData c Hy Hc | yearData Hy Hc | Hy]; rewrite Hy; cbn [difteriTotal];
    [rewrite Hc | rewrite Hc |]; reflexivity.
Qed.

(** C2.  With the Jakarta difteri summary totals of 2023 and 2022 at hand,
    [difteriChange] is the 2023 total minus the 2022 total.  When the 2022
    total is strictly positive, [difteriChangePercent] is the double
    [(change / prior) * 100], the quotient and the product being those of
    doubles, written with one decimal place: the numeral of the integer
    nearest to ten times its magnitude with a point before the last digit,
    after a minus sign when it is negative.  The operands of the quotient
    and of the product are the doubles whose values are exactly the change,
    the 2022 total and 100, for counts below 2^53.  When the 2022 total is
    zero it is the string "0".
    Prior 0 and current 5 give change 5 and "0"; prior 15 and current 22 give
    change 7 and "46.7". *)
Theorem getSummaryStats_change_and_percent
  (unifiedData : UnifiedData.t) (y2023 y2022 : JakartaYearData.t)
  (c2023 c2022 : DiseaseCount.t) :
  get (Data.jakarta (UnifiedData.data unifiedData)) "2023" = Some y2023 ->
  get (JakartaYearData.summary y2023) "difteri" = Some c2023 ->
  get (Data.jakarta (UnifiedData.data unifiedData)) "2022" = Some y2022 ->
  get (JakartaYearData.summary y2022) "difteri" = Some c2022 ->
  let current := DiseaseCount.total c2023 in
  let prior := DiseaseCount.total c2022 in
  let s := getSummaryStats unifiedData in
  SummaryStats.difteriChange s = current - prior /\
  (0 < prior ->
   rendersOneDecimal
     (Prim2SF (PrimFloat.mul (PrimFloat.div (doubleOf (current - prior)) (doubleOf prior))
                             (doubleOf 100)))
     (SummaryStats.difteriChangePercent s)) /\
  (Z.abs (current - prior) < 2 ^ 53 -> Z.abs prior < 2 ^ 53 ->
   isDoubleOf (Prim2SF (doubleOf (current - prior))) (current - prior) /\
   isDoubleOf (Prim2SF (doubleOf prior)) prior /\
   isDoubleOf (Prim2SF (doubleOf 100)) 100) /\
  (0 < prior ->
   SummaryStats.difteriChangePercent s = percent (current - prior) prior) /\
  (prior = 0 -> SummaryStats.difteriChangePercent s = "0") /\
  (prior = 0 -> current = 5 ->
   SummaryStats.difteriChange s = 5 /\ SummaryStats.difteriChangePercent s = "0") /\
  (prior = 15 -> current = 22 ->
   SummaryStats.difteriChange s = 7 /\ SummaryStats.difteriChangePercent s = "46.7").
Proof.
  intros H23 Hc23 H22 Hc22 current prior s.
  destruct (getSummaryStats_difteri unifiedData) as (_ & _ & Hch & Hpc).
  assert (E23 : difteriTotal (get (Data.jakarta (UnifiedData.data unifiedData)) "2023")
                 = current)
    by (rewrite H23; simpl; rewrite Hc23; reflexivity).
  assert (E22 : difteriTotal (get (Data.jakarta (UnifiedData.data unifiedData)) "2022")
                 = prior)
    by (rewrite H22; simpl; rewrite Hc22; reflexivity).
  cbv zeta in Hch, Hpc. rewrite E23, E22 in Hch, Hpc. fold s in Hch, Hpc.
  assert (Hzero : prior = 0 -> SummaryStats.difteriChangePercent s = "0").
  { intros E. rewrite Hpc, E. reflexivity. }
  assert (Hpos : 0 < prior ->
                 SummaryStats.difteriChangePercent s = percent (current - prior) prior).
  { intros Hpos. rewrite Hpc. destruct (Z.ltb_spec 0 prior); [reflexivity | lia]. }
  repeat apply conj.
  - exact Hch.
  - intros H. rewrite (Hpos H). apply toFixed1_rendersOneDecimal.
  - intros Hc Hp.
    split; [exact (doubleOf_exact _ Hc) | split; [exact (doubleOf_exact _ Hp)|]].
    apply doubleOf_exact. reflexivity.
  - exact Hpos.
  - exact Hzero.
  - intros E0 E5. split; [rewrite Hch; lia | auto].
  - intros E15 E22'. split; [rewrite Hch; lia|].
    rewrite Hpc, E15, E22'. vm_compute. reflexivity.
Qed.

Lemma getSummaryStats_change_and_percent_witness :
  SummaryStats.difteriChange (getSummaryStats fixture) = 7 /\
  SummaryStats.difteriChangePercent (getSummaryStats fixture) = "46.7".
Proof.
  apply (getSummaryStats_change_and_percent fixture fixture2023 fixture2022
           (count 14 8 22) (count 10 5 15) eq_refl eq_refl eq_refl eq_refl);
    reflexivity.
Defined.

(** C10.  [getSummaryStats] returns a record whatever years the Jakarta
    mapping holds.  Each of its two difteri totals is the total of the
    year's difteri summary in the document, and 0 when the year is absent
    or its summary lacks difteri; [difteriChange] is the 2023 total so
    obtained minus the 2022 one, so the present year's total, or its
    opposite, when the other year is absent; and [difteriChangePercent] is
    the string "0" whenever the 2022 entry is absent, its summary lacks
    difteri, or its difteri total is zero. *)
Theorem getSummaryStats_absent_years (unifiedData : UnifiedData.t) (t2023 t2022 : Z) :
  difteriTotalOf unifiedData "2023" t2023 ->
  difteriTotalOf unifiedData "2022" t2022 ->
  let jakarta := Data.jakarta (UnifiedData.data unifiedData) in
  let s := getSummaryStats unifiedData in
  SummaryStats.jakartaDifteri2023 s = t2023 /\
  SummaryStats.jakartaDifteri2022 s = t2022 /\
  SummaryStats.difteriChange s = t2023 - t2022 /\
  (get jakarta "2023" = None ->
   SummaryStats.jakartaDifteri2023 s = 0 /\ SummaryStats.difteriChange s = - t2022) /\
  (get jakarta "2022" = None ->
   SummaryStats.jakartaDifteri2022 s = 0 /\ SummaryStats.difteriChange s = t2023 /\
   SummaryStats.difteriChangePercent s = "0") /\
  (get jakarta "2023" = None -> get jakarta "2022" = None ->
   SummaryStats.difteriChange s = 0) /\
  (forall y, get jakarta "2022" = Some y ->
             get (JakartaYearData.summary y) "difteri" = None ->
             SummaryStats.jakartaDifteri2022 s = 0 /\
             SummaryStats.difteriChangePercent s = "0") /\
  (t2022 = 0 -> SummaryStats.difteriChangePercent s = "0").
Proof.
  intros T23 T22 jakarta s.
  destruct (getSummaryStats_difteri unifiedData) as (H23 & H22 & Hch & Hpc).
  cbv zeta in H23, H22, Hch, Hpc.
  rewrite (difteriTotalOf_difteriTotal _ _ _ T23) in H23, Hch.
  rewrite (difteriTotalOf_difteriTotal _ _ _ T22) in H22, Hch, Hpc.
  fold s in H23, H22, Hch, Hpc.
  assert (A23 : get jakarta "2023" = None -> t2023 = 0).
  { intros E. apply difteriTotalOf_difteriTotal in T23. fold jakarta in T23.
    now rewrite E in T23. }
  assert (A22 : get jakarta "2022" = None -> t2022 = 0).
  { intros E. apply difteriTotalOf_difteriTotal in T22. fold jakarta in T22.
    now rewrite E in T22. }
  assert (N22 : forall y, get jakarta "2022" = Some y ->
                          get (JakartaYearData.summary y) "difteri" = None -> t2022 = 0).
  { intros y E1 E2. apply difteriTotalOf_difteriTotal in T22. fold jakarta in T22.
    rewrite E1 in T22. cbn [difteriTotal] in T22. now rewrite E2 in T22. }
  assert (Hzero : t2022 = 0 -> SummaryStats.difteriChangePercent s = "0").
  { intros E. rewrite Hpc, E. reflexivity. }
  repeat apply conj.
  - exact H23.
  - exact H22.
  - exact Hch.
  - intros E. rewrite H23, Hch, (A23 E). split; [reflexivity | lia].
  - intros E. rewrite H22, Hch, (A22 E). repeat apply conj; [reflexivity | lia |].
    apply Hzero, A22, E.
  - intros E1 E2. rewrite Hch, (A23 E1), (A22 E2). reflexivity.
  - intros y E1 E2. pose proof (N22 y E1 E2) as E0. split; [now rewrite H22 | auto].
  - exact Hzero.
Qed.

Lemma getSummaryStats_absent_years_witness :
  difteriTotalOf only2023Doc "2023" 22 /\
  difteriTotalOf only2023Doc "2022" 0 /\
  SummaryStats.jakartaDifteri2023 (getSummaryStats only2023Doc) = 22 /\
  SummaryStats.jakartaDifteri2022 (getSummaryStats only2023Doc) = 0 /\
  SummaryStats.difteriChange (getSummaryStats only2023Doc) = 22 /\
  SummaryStats.difteriChangePercent (getSummaryStats only2023Doc) = "0".
Proof.
  assert (T23 : difteriTotalOf only2023Doc "2023" 22)
    by exact (total_of_summary only2023Doc "2023" fixture2023 (count 14 8 22)
                eq_refl eq_refl).
  assert (T22 : difteriTotalOf only2023Doc "2022" 0)
    by exact (total_without_year only2023Doc "2022" eq_refl).
  destruct (getSummaryStats_absent_years only2023Doc 22 0 T23 T22)
    as (H23 & H22 & Hch & _ & _ & _ & _ & Hz).
  repeat apply conj; [exact T23 | exact T22 | exact H23 | exact H22 | exact Hch |].
  exact (Hz eq_refl).
Defined.

(** ** Array.prototype.sort *)

Section SortFacts.
Context {A : Type}.
Variable cmp : A -> A -> number.

Lemma insert_perm (x : A) (l : list A) : Permutation (insert cmp x l) (x :: l).
Proof.
  induction l as [|y l IH]; simpl.
  - apply Permutation_refl.
  - destruct (after cmp x y).
    + eapply Permutation_trans; [apply perm_skip, IH | apply perm_swap].
    + apply Permutation_refl.
Qed.

Lemma sort_perm (l : list A) : Permutation (sort cmp l) l.
Proof.
  induction l as [|x l IH]; simpl.
  - apply perm_nil.
  - eapply Permutation_trans; [apply insert_perm | now apply perm_skip].
Qed.

Lemma sort_In (x : A) (l : list A) : In x (sort cmp l) <-> In x l.
Proof.
  split; apply Permutation_in; [apply sort_perm | apply Permutation_sym, sort_perm].
Qed.

Lemma sort_Forall (P : A -> Prop) (l : list A) : Forall P l -> Forall P (sort cmp l).
Proof.
  intros H. eapply Permutation_Forall; [apply Permutation_sym, sort_perm | exact H].
Qed.

(** The comparator orders a domain of elements by an integer key. *)
Variable key : A -> Z.
Variable dom : A -> Prop.
Hypothesis after_key :
  forall x y, dom x -> dom y -> after cmp x y = (key y <? key x).


Lemma insert_sorted (x : A) (l : list A) :
  dom x -> Forall dom l ->
  StronglySorted (keyLe key) l -> StronglySorted (keyLe key) (insert cmp x l).
Proof.
  intros Hx Hd Hs. induction Hs as [|y l Hs IH Hy]; simpl.
  - constructor; constructor.
  - inversion Hd; subst. rewrite after_key by assumption.
    destruct (Z.ltb_spec (key y) (key x)) as [Hlt|Hge].
    + constructor; [now apply IH|].
      eapply Permutation_Forall; [apply Permutation_sym, insert_perm|].
      constructor; [unfold keyLe; lia | exact Hy].
    + constructor; [now constructor|].
      constructor; [exact Hge|].
      eapply Forall_impl; [|exact Hy]. unfold keyLe. intros; lia.
Qed.

Lemma sort_dom (l : list A) : Forall dom l -> Forall dom (sort cmp l).
Proof. apply sort_Forall. Qed.

Lemma sort_sorted (l : list A) : Forall dom l -> StronglySorted (keyLe key) (sort cmp l).
Proof.
  induction l as [|x l IH]; intros Hd; simpl.
  - constructor.
  - inversion Hd; subst. apply insert_sorted; auto using sort_dom.
Qed.



Lemma sorted_strict (l : list A) :
  StronglySorted (keyLe key) l -> NoDup (map key l) -> StronglySorted (keyLt key) l.
Proof.
  induction 1 as [|x l Hs IH Hx]; intros Hnd; simpl in *.
  - constructor.
  - inversion Hnd as [|? ? Hnin Hnd']; subst. constructor; [now apply IH|].
    rewrite Forall_forall in *. intros y Hy.
    assert (key x <> key y).
    { intros E. apply Hnin. rewrite E. now apply in_map. }
    specialize (Hx y Hy). unfold keyLe, keyLt in *. lia.
Qed.

End SortFacts.

(** ** Per-subdistrict totals *)

Lemma fold_left_add {B : Type} (f : B -> Z) (l : list B) (a : Z) :
  fold_left (fun total y => total + f y) l a = a + fold_right Z.add 0 (map f l).
Proof.
  revert a. induction l as [|y l IH]; intros a; simpl.
  - lia.
  - rewrite IH. lia.
Qed.


Lemma Forall_True {B : Type} (l : list B) : Forall (fun _ => True) l.
Proof. induction l; constructor; auto. Qed.








(** ** Year keys *)

Lemma isDigit_cases (c : ascii) :
  isDigit c = true ->
  In c ["0"; "1"; "2"; "3"; "4"; "5"; "6"; "7"; "8"; "9"]%char.
Proof.
  destruct c as [[] [] [] [] [] [] [] []]; intros H; try discriminate H;
    simpl; tauto.
Qed.

Lemma digit_bounds (c : ascii) : isDigit c = true -> 0 <= digit c <= 9.
Proof.
  intros H. apply isDigit_cases in H. simpl in H.
  repeat (destruct H as [<-|H]; [vm_compute; split; discriminate|]). destruct H.
Qed.

Lemma digitValue_digit (c : ascii) : isDigit c = true -> digitValue c = Some (digit c).
Proof.
  intros H. apply isDigit_cases in H. simpl in H.
  repeat (destruct H as [<-|H]; [reflexivity|]). destruct H.
Qed.

Lemma ascii_compare_digit (a b : ascii) : Ascii.compare a b = (digit a ?= digit b).
Proof.
  unfold Ascii.compare, digit, nat_of_ascii.
  rewrite !N_nat_Z, <- N2Z.inj_compare.
  destruct (Z.compare_spec (Z.of_N (N_of_ascii a)) (Z.of_N (N_of_ascii b))); symmetry;
    [apply Z.compare_eq_iff | apply Z.compare_lt_iff | apply Z.compare_gt_iff]; lia.
Qed.

Lemma isYearKey_inv (s : string) :
  isYearKey s = true ->
  exists a b c d,
    s = String a (String b (String c (String d EmptyString))) /\
    isDigit a = true /\ isDigit b = true /\ isDigit c = true /\ isDigit d = true.
Proof.
  destruct s as [|a [|b [|c [|d [|? ?]]]]]; simpl; try discriminate.
  intros H. apply andb_prop in H as [H Hd]. apply andb_prop in H as [H Hc].
  apply andb_prop in H as [Ha Hb]. exists a, b, c, d. auto.
Qed.

Lemma decimalValue_year (a b c d : ascii) :
  decimalValue (String a (String b (String c (String d EmptyString))))
  = 1000 * digit a + 100 * digit b + 10 * digit c + digit d.
Proof. unfold decimalValue. cbn [list_ascii_of_string fold_left]. lia. Qed.

(** On year keys the code-unit order is the order of the integers. *)
Lemma year_compare (x y : string) :
  isYearKey x = true -> isYearKey y = true ->
  String.compare x y = (decimalValue x ?= decimalValue y).
Proof.
  intros Hx Hy.
  apply isYearKey_inv in Hx as (a & b & c & d & -> & Ha & Hb & Hc & Hd).
  apply isYearKey_inv in Hy as (a' & b' & c' & d' & -> & Ha' & Hb' & Hc' & Hd').
  rewrite !decimalValue_year. cbn [String.compare]. rewrite !ascii_compare_digit.
  apply digit_bounds in Ha, Hb, Hc, Hd, Ha', Hb', Hc', Hd'.
  symmetry.
  destruct (Z.compare_spec (digit a) (digit a'));
    [|apply Z.compare_lt_iff; lia | apply Z.compare_gt_iff; lia].
  destruct (Z.compare_spec (digit b) (digit b'));
    [|apply Z.compare_lt_iff; lia | apply Z.compare_gt_iff; lia].
  destruct (Z.compare_spec (digit c) (digit c'));
    [|apply Z.compare_lt_iff; lia | apply Z.compare_gt_iff; lia].
  destruct (Z.compare_spec (digit d) (digit d'));
    [apply Z.compare_eq_iff; lia |apply Z.compare_lt_iff; lia | apply Z.compare_gt_iff; lia].
Qed.

Lemma decimalValue_inj (x y : string) :
  isYearKey x = true -> isYearKey y = true ->
  decimalValue x = decimalValue y -> x = y.
Proof.
  intros Hx Hy E. apply String.compare_eq_iff.
  rewrite (year_compare x y Hx Hy). now apply Z.compare_eq_iff.
Qed.

Lemma parseInt_head (a b : ascii) (r : string) :
  isDigit a = true -> isDigit b = true ->
  parseInt (String a (String b r)) 0 = parseMagnitude 1 10 (String a (String b r)).
Proof.
  intros Ha Hb. apply isDigit_cases in Ha. apply isDigit_cases in Hb.
  simpl in Ha, Hb.
  repeat (destruct Ha as [<-|Ha]); try contradiction;
    repeat (destruct Hb as [<-|Hb]); try contradiction;
    cbv -[parseMagnitude]; reflexivity.
Qed.

(** [parseInt] reads a year key as the integer it denotes. *)
Lemma parseInt_year (s : string) :
  isYearKey s = true -> parseInt s 0 = Num (decimalValue s).
Proof.
  intros H. apply isYearKey_inv in H as (a & b & c & d & -> & Ha & Hb & Hc & Hd).
  rewrite (parseInt_head a b _ Ha Hb), decimalValue_year.
  unfold parseMagnitude. cbn [parseDigits].
  rewrite (digitValue_digit a Ha), (digitValue_digit b Hb),
          (digitValue_digit c Hc), (digitValue_digit d Hd).
  apply digit_bounds in Ha, Hb, Hc, Hd.
  repeat match goal with
         | |- context [?v <? 10] => destruct (Z.ltb_spec v 10); [|lia]
         end.
  f_equal. lia.
Qed.

(** ** Year order of the year-keyed transformers *)

Lemma NoDup_map_decimalValue (ks : list string) :
  Forall (fun k => isYearKey k = true) ks -> NoDup ks -> NoDup (map decimalValue ks).
Proof.
  induction 1 as [|k ks Hk Hks IH]; intros Hnd; simpl; [constructor|].
  inversion Hnd as [|? ? Hnin Hnd']; subst. constructor; [|now apply IH].
  intros Hin. apply in_map_iff in Hin as (k' & E & Hin').
  rewrite Forall_forall in Hks.
  apply decimalValue_inj in E; [subst; contradiction | now apply Hks | assumption].
Qed.

Lemma StronglySorted_map {A B : Type} (f : A -> B) (R : B -> B -> Prop) (l : list A) :
  StronglySorted (fun a b => R (f a) (f b)) l -> StronglySorted R (map f l).
Proof.
  induction 1 as [|x l Hs IH Hx]; simpl; constructor; auto.
  rewrite Forall_forall in *. intros y Hy.
  apply in_map_iff in Hy as (a & <- & Ha). now apply Hx.
Qed.

Lemma after_compareStrings (x y : string) :
  isYearKey x = true -> isYearKey y = true ->
  after compareStrings x y = (decimalValue y <? decimalValue x).
Proof.
  intros Hx Hy. unfold after, compareStrings. rewrite (year_compare x y Hx Hy).
  destruct (Z.compare_spec (decimalValue x) (decimalValue y));
    destruct (Z.ltb_spec (decimalValue y) (decimalValue x)); try reflexivity; lia.
Qed.

(** The default sort puts distinct year keys in strictly ascending order. *)
Lemma sort_years_ascending (ks : list string) :
  Forall (fun k => isYearKey k = true) ks -> NoDup ks ->
  ascendingYears (sort compareStrings ks).
Proof.
  intros Hk Hnd. unfold ascendingYears.
  apply (sorted_strict decimalValue).
  - apply (sort_sorted compareStrings decimalValue (fun k => isYearKey k = true)
             after_compareStrings ks Hk).
  - apply NoDup_map_decimalValue.
    + now apply sort_Forall.
    + eapply Permutation_NoDup; [apply Permutation_sym, sort_perm | exact Hnd].
Qed.

Section ByYear.
Context {A : Type}.
Variable year : A -> string.

Lemma after_byYear (x y : A) :
  isYearKey (year x) = true -> isYearKey (year y) = true ->
  after (byYear year) x y = (decimalValue (year y) <? decimalValue (year x)).
Proof.
  intros Hx Hy. unfold after, byYear.
  rewrite (parseInt_year _ Hx), (parseInt_year _ Hy). simpl number_sub. cbv iota.
  destruct (Z.ltb_spec 0 (decimalValue (year x) - decimalValue (year y)));
    destruct (Z.ltb_spec (decimalValue (year y)) (decimalValue (year x)));
    try reflexivity; lia.
Qed.

(** Sorting by [parseInt] of the year puts records with distinct year keys
    in strictly ascending order of the year. *)
Lemma sort_byYear_ascending (l : list A) :
  Forall (fun k => isYearKey k = true) (map year l) -> NoDup (map year l) ->
  Permutation (map year (sort (byYear year) l)) (map year l) /\
  ascendingYears (map year (sort (byYear year) l)).
Proof.
  intros Hk Hnd.
  assert (Hp : Permutation (map year (sort (byYear year) l)) (map year l))
    by apply Permutation_map, sort_perm.
  split; [exact Hp|].
  unfold ascendingYears. apply StronglySorted_map.
  apply (sorted_strict (fun r => decimalValue (year r))).
  - apply (sort_sorted (byYear year) (fun r => decimalValue (year r))
             (fun r => isYearKey (year r) = true) after_byYear).
    rewrite Forall_map in Hk. exact Hk.
  - rewrite <- map_map. apply NoDup_map_decimalValue.
    + eapply Permutation_Forall; [apply Permutation_sym, Hp | exact Hk].
    + eapply Permutation_NoDup; [apply Permutation_sym, Hp | exact Hnd].
Qed.

End ByYear.

Lemma mapM_ok {A B : Type} (f : A -> result B) (g : B -> A) (xs : list A) :
  (forall x, In x xs -> exists y, f x = Ok y /\ g y = x) ->
  exists ys, mapM f xs = Ok ys /\ map g ys = xs.
Proof.
  induction xs as [|x xs IH]; intros H; simpl.
  - exists []. split; reflexivity.
  - destruct (H x (or_introl eq_refl)) as (y & Ey & Gy).
    destruct IH as (ys & Eys & Gys); [intros x' Hx'; apply H; now right|].
    exists (y :: ys). rewrite Ey, Eys. simpl. split; [reflexivity | now rewrite Gy, Gys].
Qed.

Lemma getJakartaYearComparison_years (d : UnifiedData.t) (disease : string) :
  exists rows,
    getJakartaYearComparison d disease = Ok rows /\
    map YearComparisonRow.year rows
      = sort compareStrings (keys (Data.jakarta (UnifiedData.data d))).
Proof.
  unfold getJakartaYearComparison. apply mapM_ok. intros year Hy.
  apply sort_In, get_keys_Some in Hy. destruct Hy as (yearData & ->).
  eexists. split; reflexivity.
Qed.

Lemma getJatimDiseaseComparison_years (d : UnifiedData.t) :
  exists rows,
    getJatimDiseaseComparison d = Ok rows /\
    map jatimYear rows
      = sort compareStrings (keys (JatimData.yearlyData (Data.jatim (UnifiedData.data d)))).
Proof.
  unfold getJatimDiseaseComparison. apply mapM_ok. intros year Hy.
  apply sort_In, get_keys_Some in Hy. destruct Hy as (yearData & ->).
  eexists. split; reflexivity.
Qed.

(** C3.  In a document whose year-keyed mappings have distinct four-digit
    keys, [getJakartaYearComparison], [getCirebonYearlyTrend],
    [getBogorYearlyTrend] and [getJatimDiseaseComparison] return one record
    per year key, strictly ascending by the integer value of the year,
    whatever the order of the keys in the mapping. *)
Theorem year_keyed_transformers_ascending (d : UnifiedData.t) (disease : string) :
  yearKeyed (Data.jakarta (UnifiedData.data d)) ->
  yearKeyed (CirebonData.yearlyData (Data.cirebon (UnifiedData.data d))) ->
  yearKeyed (BogorData.yearlyData (Data.bogor (UnifiedData.data d))) ->
  yearKeyed (JatimData.yearlyData (Data.jatim (UnifiedData.data d))) ->
  (exists rows,
      getJakartaYearComparison d disease = Ok rows /\
      Permutation (map YearComparisonRow.year rows)
                  (keys (Data.jakarta (UnifiedData.data d))) /\
      ascendingYears (map YearComparisonRow.year rows)) /\
  (Permutation (map CirebonTrendRow.year (getCirebonYearlyTrend d))
               (keys (CirebonData.yearlyData (Data.cirebon (UnifiedData.data d)))) /\
   ascendingYears (map CirebonTrendRow.year (getCirebonYearlyTrend d))) /\
  (Permutation (map BogorTrendRow.year (getBogorYearlyTrend d))
               (keys (BogorData.yearlyData (Data.bogor (UnifiedData.data d)))) /\
   ascendingYears (map BogorTrendRow.year (getBogorYearlyTrend d))) /\
  (exists rows,
      getJatimDiseaseComparison d = Ok rows /\
      Permutation (map jatimYear rows)
                  (keys (JatimData.yearlyData (Data.jatim (UnifiedData.data d)))) /\
      ascendingYears (map jatimYear rows)).
Proof.
  intros [Hj1 Hj2] [Hc1 Hc2] [Hb1 Hb2] [Ht1 Ht2]. unfold wfObj in *.
  repeat apply conj.
  - destruct (getJakartaYearComparison_years d disease) as (rows & E & Ey).
    exists rows. rewrite Ey. split; [exact E | split].
    + apply sort_perm.
    + now apply sort_years_ascending.
  - unfold getCirebonYearlyTrend.
    set (f := fun '(year, data) => _).
    assert (Ek : map CirebonTrendRow.year
                     (map f (entries (CirebonData.yearlyData (Data.cirebon (UnifiedData.data d)))))
                 = keys (CirebonData.yearlyData (Data.cirebon (UnifiedData.data d)))).
    { unfold keys, entries. rewrite map_map. apply map_ext. now intros [y v]. }
    rewrite <- Ek. apply sort_byYear_ascending; now rewrite Ek.
  - unfold getCirebonYearlyTrend.
    set (f := fun '(year, data) => _).
    assert (Ek : map CirebonTrendRow.year
                     (map f (entries (CirebonData.yearlyData (Data.cirebon (UnifiedData.data d)))))
                 = keys (CirebonData.yearlyData (Data.cirebon (UnifiedData.data d)))).
    { unfold keys, entries. rewrite map_map. apply map_ext. now intros [y v]. }
    apply sort_byYear_ascending; now rewrite Ek.
  - unfold getBogorYearlyTrend.
    set (f := fun '(year, data) => _).
    assert (Ek : map BogorTrendRow.year
                     (map f (entries (BogorData.yearlyData (Data.bogor (UnifiedData.data d)))))
                 = keys (BogorData.yearlyData (Data.bogor (UnifiedData.data d)))).
    { unfold keys, entries. rewrite map_map. apply map_ext. now intros [y v]. }
    rewrite <- Ek. apply sort_byYear_ascending; now rewrite Ek.
  - unfold getBogorYearlyTrend.
    set (f := fun '(year, data) => _).
    assert (Ek : map BogorTrendRow.year
                     (map f (entries (BogorData.yearlyData (Data.bogor (UnifiedData.data d)))))
                 = keys (BogorData.yearlyData (Data.bogor (UnifiedData.data d)))).
    { unfold keys, entries. rewrite map_map. apply map_ext. now intros [y v]. }
    apply sort_byYear_ascending; now rewrite Ek.
  - destruct (getJatimDiseaseComparison_years d) as (rows & E & Ey).
    exists rows. rewrite Ey. split; [exact E | split].
    + apply sort_perm.
    + now apply sort_years_ascending.
Qed.

Lemma year_keyed_transformers_ascending_witness :
  (exists rows,
      getJakartaYearComparison fixture "difteri" = Ok rows /\
      Permutation (map YearComparisonRow.year rows) ["2023"; "2022"] /\
      ascendingYears (map YearComparisonRow.year rows)) /\
  (Permutation (map CirebonTrendRow.year (getCirebonYearlyTrend fixture))
               ["2023"; "2021"; "2022"] /\
   ascendingYears (map CirebonTrendRow.year (getCirebonYearlyTrend fixture))) /\
  (Permutation (map BogorTrendRow.year (getBogorYearlyTrend fixture))
               ["2023"; "2021"; "2022"] /\
   ascendingYears (map BogorTrendRow.year (getBogorYearlyTrend fixture))) /\
  (exists rows,
      getJatimDiseaseComparison fixture = Ok rows /\
      Permutation (map jatimYear rows) ["2025"; "2024"] /\
      ascendingYears (map jatimYear rows)).
Proof.
  apply (year_keyed_transformers_ascending fixture "difteri");
    (split;
     [ unfold wfObj; simpl; repeat constructor; simpl; intuition discriminate
     | simpl; repeat constructor ]).
Defined.

(** A set of years has one strictly ascending enumeration: the result does
    not depend on the order of the keys in the mapping. *)
Lemma ascendingYears_unique (l1 l2 : list string) :
  ascendingYears l1 -> ascendingYears l2 -> Permutation l1 l2 -> l1 = l2.
Proof.
  unfold ascendingYears. intros H1. revert l2.
  induction H1 as [|x l1 Hs1 IH Hx]; intros l2 H2 Hp.
  - apply Permutation_nil in Hp. now subst.
  - destruct H2 as [|y l2 Hs2 Hy].
    + apply Permutation_sym, Permutation_nil in Hp. discriminate.
    + assert (E : x = y).
      { assert (Hxin : In x (y :: l2)) by (eapply Permutation_in; [exact Hp | now left]).
        assert (Hyin : In y (x :: l1))
          by (eapply Permutation_in; [apply Permutation_sym, Hp | now left]).
        destruct Hxin as [E|Hxin]; [now symmetry|].
        destruct Hyin as [E|Hyin]; [assumption|].
        rewrite Forall_forall in Hx, Hy.
        specialize (Hx y Hyin). specialize (Hy x Hxin). lia. }
      subst y. f_equal. apply IH; [assumption|].
      now apply Permutation_cons_inv in Hp.
Qed.

Example getCirebonYearlyTrend_fixture_years :
  map CirebonTrendRow.year (getCirebonYearlyTrend fixture) = ["2021"; "2022"; "2023"].
Proof. reflexivity. Qed.

(** ** Yearly trends and the [total] field *)

Lemma getCirebonYearlyTrend_rows (d : UnifiedData.t) (r : CirebonTrendRow.t) :
  In r (getCirebonYearlyTrend d) ->
  exists data,
    In (CirebonTrendRow.year r, data)
       (CirebonData.yearlyData (Data.cirebon (UnifiedData.data d))) /\
    CirebonTrendRow.total r = get data "total".
Proof.
  unfold getCirebonYearlyTrend. intros Hr. apply sort_In in Hr.
  apply in_map_iff in Hr as ([year data] & <- & Hin).
  exists data. split; [exact Hin | reflexivity].
Qed.

Lemma getBogorYearlyTrend_rows (d : UnifiedData.t) (r : BogorTrendRow.t) :
  In r (getBogorYearlyTrend d) ->
  exists data,
    In (BogorTrendRow.year r, data)
       (BogorData.yearlyData (Data.bogor (UnifiedData.data d))) /\
    BogorTrendRow.total r = orElse (get data "total") (VNum 0) /\
    BogorTrendRow.isEstimated r = orElse (get data "isEstimated") (VBool false).
Proof.
  unfold getBogorYearlyTrend. intros Hr. apply sort_In in Hr.
  apply in_map_iff in Hr as ([year data] & <- & Hin).
  exists data. split; [exact Hin | split; reflexivity].
Qed.

(** C4 (the code departs from it).  A record of [getBogorYearlyTrend] has
    the year's numeric [total], 0 when the field is absent, and an
    [isEstimated] of [false] when that field is absent.  A record of
    [getCirebonYearlyTrend] has the year's [total] when it is present, but
    [undefined], not 0, when it is absent: on a year without [total] the two
    functions disagree. *)
Theorem yearly_trend_total_field :
  (forall d r, In r (getBogorYearlyTrend d) ->
     exists data,
       In (BogorTrendRow.year r, data)
          (BogorData.yearlyData (Data.bogor (UnifiedData.data d))) /\
       (forall n, get data "total" = Some (VNum n) -> BogorTrendRow.total r = VNum n) /\
       (get data "total" = None -> BogorTrendRow.total r = VNum 0) /\
       (get data "isEstimated" = None -> BogorTrendRow.isEstimated r = VBool false)) /\
  (forall d r, In r (getCirebonYearlyTrend d) ->
     exists data,
       In (CirebonTrendRow.year r, data)
          (CirebonData.yearlyData (Data.cirebon (UnifiedData.data d))) /\
       (forall n, get data "total" = Some n -> CirebonTrendRow.total r = Some n) /\
       (get data "total" = None -> CirebonTrendRow.total r = None)) /\
  getCirebonYearlyTrend noTotalDoc
    = [ {| CirebonTrendRow.year := "2020"; CirebonTrendRow.total := None |} ] /\
  getBogorYearlyTrend noTotalDoc
    = [ {| BogorTrendRow.year := "2020"; BogorTrendRow.total := VNum 0;
           BogorTrendRow.isEstimated := VBool false |} ].
Proof.
  repeat apply conj; try reflexivity.
  - intros d r Hr. destruct (getBogorYearlyTrend_rows d r Hr) as (data & Hin & Ht & He).
    exists data. repeat apply conj.
    + exact Hin.
    + intros n E. rewrite Ht, E. simpl. destruct (Z.eqb_spec n 0); simpl; congruence.
    + intros E. rewrite Ht, E. reflexivity.
    + intros E. rewrite He, E. reflexivity.
  - intros d r Hr. destruct (getCirebonYearlyTrend_rows d r Hr) as (data & Hin & Ht).
    exists data. repeat apply conj.
    + exact Hin.
    + intros n E. now rewrite Ht.
    + intros E. now rewrite Ht.
Qed.

(** ** fetchUnifiedData *)

(** A filled cache answers without a request and without changing the
    world. *)
Lemma fetchUnifiedData_cached (env : Env.t) (w : World.t) (r : ref) :
  World.cachedUnifiedData w = Some r -> fetchUnifiedData env w = (inl r, w).
Proof. intros H. unfold fetchUnifiedData. now rewrite H. Qed.

Lemma fetchTimes_cached (env : Env.t) (w : World.t) (r : ref) (n : nat) :
  World.cachedUnifiedData w = Some r ->
  fetchTimes env n w = (repeat (inl r) n, w).
Proof.
  intros H. induction n as [|n IH]; simpl; [reflexivity|].
  rewrite (fetchUnifiedData_cached env w r H), IH. reflexivity.
Qed.

(** C5.  From an empty cache, when the asset request is answered with a
    document, the first call issues exactly one request and stores the
    parsed document; each of any number of later calls issues no request,
    leaves the world as it is and returns the same reference.  Two calls in
    a row issue one request and return equal references. *)
Theorem fetchUnifiedData_memoized
  (env : Env.t) (w : World.t) (doc : UnifiedData.t) (n : nat) :
  World.cachedUnifiedData w = None ->
  Env.server env (List.length (World.requests w)) (unifiedDataUrl env) = Json doc ->
  let r := List.length (World.heap w) in
  let w1 := afterFirstFetch env w doc in
  fetchUnifiedData env w = (inl r, w1) /\
  World.requests w1 = (World.requests w ++ [unifiedDataUrl env])%list /\
  World.cachedUnifiedData w1 = Some r /\
  deref w1 r = Some doc /\
  fetchTimes env n w1 = (repeat (inl r) n, w1) /\
  fetchTimes env (S n) w = (repeat (inl r) (S n), w1) /\
  List.length (World.requests (snd (fetchTimes env (S n) w)))
    = S (List.length (World.requests w)) /\
  fst (fetchTimes env 2 w) = [inl r; inl r].
Proof.
  intros Hc Hs r w1.
  assert (H1 : fetchUnifiedData env w = (inl r, w1)).
  { unfold fetchUnifiedData. rewrite Hc, Hs. reflexivity. }
  assert (Hn : forall k, fetchTimes env k w1 = (repeat (inl r) k, w1)).
  { intros k. now apply fetchTimes_cached. }
  assert (HS : forall k, fetchTimes env (S k) w = (repeat (inl r) (S k), w1)).
  { intros k. simpl. rewrite H1, Hn. reflexivity. }
  repeat apply conj.
  - exact H1.
  - reflexivity.
  - reflexivity.
  - unfold deref, w1, afterFirstFetch, r. simpl.
    rewrite nth_error_app2 by lia. now rewrite Nat.sub_diag.
  - apply Hn.
  - apply HS.
  - rewrite HS. simpl. rewrite length_app. simpl. lia.
  - rewrite (HS 1%nat). reflexivity.
Qed.

Lemma fetchUnifiedData_memoized_witness :
  fetchTimes fixtureEnv 3 emptyWorld
  = ([inl 0%nat; inl 0%nat; inl 0%nat],
     {| World.cachedUnifiedData := Some 0%nat;
        World.heap := [fixture];
        World.requests := ["/app/data/unified-data.json"] |}).
Proof.
  exact (proj1 (proj2 (proj2 (proj2 (proj2 (proj2
           (fetchUnifiedData_memoized fixtureEnv emptyWorld fixture 2 eq_refl eq_refl))))))).
Defined.

(** Without the cache cell every call would ask again: when the first
    request fails the cache stays empty and the next call issues a second
    request. *)
Example fetchUnifiedData_retry_after_failure :
  fetchTimes failingOnceEnv 2 emptyWorld
  = ([inr FetchFailed; inl 0%nat],
     {| World.cachedUnifiedData := Some 0%nat;
        World.heap := [fixture];
        World.requests := ["/app/data/unified-data.json"; "/app/data/unified-data.json"] |}).
Proof. reflexivity. Qed.

(** ** Legacy aggregations *)

Lemma get_set_same {V : Type} (o : Obj V) (k : string) (v : V) :
  get (set o k v) k = Some v.
Proof.
  induction o as [|[k' v'] o IH]; simpl.
  - now rewrite String.eqb_refl.
  - destruct (k' =? k)%string eqn:E; simpl; rewrite E; [reflexivity | exact IH].
Qed.

Lemma set_values_Forall {V : Type} (P : V -> Prop) (o : Obj V) (k : string) (v : V) :
  Forall P (values o) -> P v -> Forall P (values (set o k v)).
Proof.
  intros Ho Hv. induction o as [|[k' v'] o IH]; simpl.
  - constructor; [exact Hv | constructor].
  - inversion Ho; subst. destruct (k' =? k)%string; simpl; constructor; auto.
Qed.

Lemma get_values_Forall {V : Type} (P : V -> Prop) (o : Obj V) (k : string) (v : V) :
  Forall P (values o) -> get o k = Some v -> P v.
Proof.
  intros Ho Hg. apply get_In in Hg. rewrite Forall_forall in Ho.
  apply Ho. unfold values. now apply (in_map snd) in Hg.
Qed.

(** A map entry for [k] exists once [k] has been set if missing. *)
Lemma get_ensure {V : Type} (P : V -> Prop) (o : Obj V) (k : string) (v0 : V) :
  Forall P (values o) -> P v0 ->
  exists v, get (if has o k then o else set o k v0) k = Some v /\ P v /\
            Forall P (values (if has o k then o else set o k v0)).
Proof.
  intros Ho Hv. unfold has. destruct (get o k) as [v|] eqn:E.
  - exists v. split; [exact E | split; [|exact Ho]].
    eapply get_values_Forall; eauto.
  - exists v0. split; [apply get_set_same | split; [exact Hv|]].
    now apply set_values_Forall.
Qed.

Lemma isNum_add (a b : number) :
  isNum a = true -> isNum b = true -> isNum (number_add a b) = true.
Proof. destruct a, b; simpl; congruence. Qed.

Lemma jakartaRegionStep_ok (diseaseType : string) (m : Obj RegionCount.t)
  (item : JakartaDataItem.t) :
  exists m',
    jakartaRegionStep diseaseType (Ok m) item = Ok m' /\
    (Forall numericCount (values m) ->
     isNum (parseInt (jakartaJumlah item) 10) = true ->
     Forall numericCount (values m')).
Proof.
  unfold jakartaRegionStep. cbn [bind].
  set (region := orStr _ "Unknown").
  destruct (_ || _)%bool; [|exists m; split; [reflexivity | auto]].
  set (zero := {| RegionCount.laki := Num 0; RegionCount.perempuan := Num 0 |}).
  destruct (get_ensure (fun _ => True) m region zero) as (current & Hg & _ & _);
    [apply Forall_forall; auto | exact I |].
  rewrite Hg.
  destruct (includes _ "laki"); eexists; (split; [reflexivity|]); intros Hm Hj;
    destruct (get_ensure numericCount m region zero Hm) as (c' & Hg' & [Hl Hp] & Hall);
    try (split; reflexivity);
    rewrite Hg in Hg'; injection Hg' as <-;
    (apply set_values_Forall; [exact Hall|]); split; simpl; auto using isNum_add.
Qed.

Lemma jakartaRegionFold_ok (diseaseType : string) (data : list JakartaDataItem.t)
  (m : Obj RegionCount.t) :
  exists m',
    fold_left (jakartaRegionStep diseaseType) data (Ok m) = Ok m' /\
    (Forall numericCount (values m) ->
     Forall (fun item => isNum (parseInt (jakartaJumlah item) 10) = true) data ->
     Forall numericCount (values m')).
Proof.
  revert m. induction data as [|item data IH]; intros m; cbn [fold_left].
  - exists m. split; [reflexivity | auto].
  - destruct (jakartaRegionStep_ok diseaseType m item) as (m1 & E1 & H1).
    rewrite E1. destruct (IH m1) as (m' & E' & H').
    exists m'. split; [exact E'|].
    intros Hm Hd. inversion Hd; subst. auto.
Qed.







(* ================================================================== *)
(** * Further properties *)

(** ** Order and content of the chart data *)

Lemma StronglySorted_impl {A : Type} (R R' : A -> A -> Prop) (l : list A) :
  (forall a b, R a b -> R' a b) -> StronglySorted R l -> StronglySorted R' l.
Proof.
  intros HR. induction 1 as [|x l Hs IH Hx]; constructor; auto.
  eapply Forall_impl; [|exact Hx]. auto.
Qed.



Lemma mapM_Forall2 {A B : Type} (f : A -> result B) (R : A -> B -> Prop) (xs : list A) :
  (forall x, In x xs -> exists y, f x = Ok y /\ R x y) ->
  exists ys, mapM f xs = Ok ys /\ Forall2 R xs ys.
Proof.
  induction xs as [|x xs IH]; intros H; cbn [mapM].
  - exists []. split; [reflexivity | constructor].
  - destruct (H x (or_introl eq_refl)) as (y & Ey & Ry).
    destruct IH as (ys & Eys & Rys); [intros x' Hx'; apply H; now right|].
    exists (y :: ys). rewrite Ey, Eys. cbn [bind]. split; [reflexivity | now constructor].
Qed.

(** X2.  [getJakartaYearComparison] never fails, whatever the keys of the Jakarta
    mapping: it returns one record per key, in the order of the sorted keys;
    the record has the counts of the disease in that year's summary; when
    the summary lacks the disease the counts are zeros, unless the disease
    id is the name of a member of [Object.prototype], and then they are
    [undefined]; [isEstimated] is [false] when the year does not set it. *)
Theorem getJakartaYearComparison_rows (d : UnifiedData.t) (disease : string) :
  exists rows,
    getJakartaYearComparison d disease = Ok rows /\
    Forall2 (comparisonRowOf d disease)
            (sort compareStrings (keys (Data.jakarta (UnifiedData.data d)))) rows.
Proof.
  unfold getJakartaYearComparison. apply mapM_Forall2. intros year Hy.
  apply sort_In, get_keys_Some in Hy. destruct Hy as (yearData & Hg).
  rewrite Hg. eexists. split; [reflexivity|].
  split; [reflexivity|]. exists yearData. split; [exact Hg|].
  cbn [YearComparisonRow.isEstimated YearComparisonRow.total YearComparisonRow.laki
       YearComparisonRow.perempuan].
  split; [reflexivity|]. unfold lookup.
  destruct (get (JakartaYearData.summary yearData) disease); [cbn; auto|].
  destruct (inherited disease); cbn; auto.
Qed.

Lemma mapM_inv {A B : Type} (f : A -> result B) (xs : list A) (ys : list B) :
  mapM f xs = Ok ys -> Forall2 (fun x y => f x = Ok y) xs ys.
Proof.
  revert ys. induction xs as [|x xs IH]; intros ys; cbn [mapM].
  - intros [= <-]. constructor.
  - destruct (f x) as [y|] eqn:Ey; cbn [bind]; [|discriminate].
    destruct (mapM f xs) as [ys'|]; cbn [bind]; [|discriminate].
    intros [= <-]. constructor; auto.
Qed.

Lemma Forall2_In_r {A B : Type} (R : A -> B -> Prop) (xs : list A) (ys : list B) (y : B) :
  Forall2 R xs ys -> In y ys -> exists x, In x xs /\ R x y.
Proof.
  induction 1 as [|x0 y0 xs ys HR _ IH]; intros Hin; [destruct Hin|].
  destruct Hin as [<-|Hin].
  - exists x0. split; [now left | assumption].
  - destruct (IH Hin) as (x & Hx & Hr). exists x. split; [now right | assumption].
Qed.

(** X3.  The yearly comparison and the headline agree: in the records
    [getJakartaYearComparison] returns for difteri, the one of 2023 carries
    the total [getSummaryStats] reports as [jakartaDifteri2023], and the one
    of 2022 the total it reports as [jakartaDifteri2022]. *)
Theorem getJakartaYearComparison_agrees_with_summary
  (d : UnifiedData.t) (rows : list YearComparisonRow.t) (r : YearComparisonRow.t) :
  getJakartaYearComparison d "difteri" = Ok rows ->
  In r rows ->
  (YearComparisonRow.year r = "2023" ->
   YearComparisonRow.total r = Some (SummaryStats.jakartaDifteri2023 (getSummaryStats d))) /\
  (YearComparisonRow.year r = "2022" ->
   YearComparisonRow.total r = Some (SummaryStats.jakartaDifteri2022 (getSummaryStats d))).
Proof.
  intros E Hin.
  unfold getJakartaYearComparison in E. apply mapM_inv in E.
  destruct (Forall2_In_r _ _ _ _ E Hin) as (year & _ & Hr). cbv beta in Hr.
  destruct (getSummaryStats_difteri d) as (H23 & H22 & _). cbv zeta in H23, H22.
  destruct (get (Data.jakarta (UnifiedData.data d)) year) as [yearData|] eqn:Hg;
    [|discriminate Hr].
  injection Hr as <-. cbn [YearComparisonRow.year YearComparisonRow.total].
  assert (Ht : countField DiseaseCount.total
                 (lookup (JakartaYearData.summary yearData) "difteri")
               = Some (difteriTotal (Some yearData))).
  { unfold difteriTotal, lookup.
    destruct (get (JakartaYearData.summary yearData) "difteri"); reflexivity. }
  cbv zeta. rewrite Ht.
  split; intros ->.
  - now rewrite H23, Hg.
  - now rewrite H22, Hg.
Qed.

Lemma getJakartaYearComparison_agrees_with_summary_witness :
  getJakartaYearComparison fixture "difteri"
  = Ok [ {| YearComparisonRow.year := "2022"; YearComparisonRow.total := Some 15;
            YearComparisonRow.laki := Some 10; YearComparisonRow.perempuan := Some 5;
            YearComparisonRow.isEstimated := false |};
         {| YearComparisonRow.year := "2023"; YearComparisonRow.total := Some 22;
            YearComparisonRow.laki := Some 14; YearComparisonRow.perempuan := Some 8;
            YearComparisonRow.isEstimated := false |} ] /\
  Some 22 = Some (SummaryStats.jakartaDifteri2023 (getSummaryStats fixture)).
Proof.
  split; [reflexivity|].
  exact (proj1 (getJakartaYearComparison_agrees_with_summary fixture _
                  {| YearComparisonRow.year := "2023"; YearComparisonRow.total := Some 22;
                     YearComparisonRow.laki := Some 14;
                     YearComparisonRow.perempuan := Some 8;
                     YearComparisonRow.isEstimated := false |}
                  eq_refl (or_intror (or_introl eq_refl)))
               eq_refl).
Defined.

(** X4.  [getJatimDiseaseComparison] never fails: it returns one record per year
    key, in the order of the sorted keys, and every record holds, in this
    order, the year, the partial-year flag ([false] when the year does not
    set it) and the totals of the four diseases, each 0 when the year does
    not list the disease. *)
Theorem getJatimDiseaseComparison_rows (d : UnifiedData.t) :
  exists rows,
    getJatimDiseaseComparison d = Ok rows /\
    Forall2
      (fun year r =>
         exists yearData,
           get (JatimData.yearlyData (Data.jatim (UnifiedData.data d))) year = Some yearData /\
           r = [ ("year", FStr year);
                 ("isPartialYear",
                  FBool match JatimYearData.isPartialYear yearData with
                        | Some b => b
                        | None => false
                        end);
                 ("diare-akut", FNum (jatimTotal yearData "diare-akut"));
                 ("dengue", FNum (jatimTotal yearData "dengue"));
                 ("pneumonia", FNum (jatimTotal yearData "pneumonia"));
                 ("tifoid", FNum (jatimTotal yearData "tifoid")) ])
      (sort compareStrings (keys (JatimData.yearlyData (Data.jatim (UnifiedData.data d)))))
      rows.
Proof.
  unfold getJatimDiseaseComparison. apply mapM_Forall2. intros year Hy.
  apply sort_In, get_keys_Some in Hy. destruct Hy as (yearData & Hg).
  rewrite Hg. eexists. split; [reflexivity|].
  exists yearData. split; [reflexivity|]. unfold jatimTotal. cbn.
  repeat match goal with
         | |- context [get (JatimYearData.diseases yearData) ?k] =>
             destruct (get (JatimYearData.diseases yearData) k)
         end; reflexivity.
Qed.

Lemma find_unique (ds : list District.t) (e : District.t) :
  In e ds ->
  (forall e', In e' ds -> District.id e' = District.id e -> e' = e) ->
  find (fun x => (District.id x =? District.id e)%string) ds = Some e.
Proof.
  induction ds as [|x ds IH]; intros Hin Hu; [destruct Hin|]. cbn [find].
  destruct (String.eqb_spec (District.id x) (District.id e)) as [E|Hne].
  - f_equal. apply Hu; [now left | exact E].
  - destruct Hin as [->|Hin]; [contradiction|].
    apply IH; [exact Hin|]. intros e' He'. apply Hu. now right.
Qed.

(** X5.  When the catalog, whose ids are distinct, has an entry for the district
    of a case, the record of [getJakartaDistrictData] is named after that
    entry; an entry with an empty name leaves the raw district id as the
    name. *)
Theorem getJakartaDistrictData_catalog_name
  (unifiedData : UnifiedData.t) (year disease : string) (yearData : JakartaYearData.t)
  (i : nat) (c : DistrictCases.t) (ds : list District.t) (e : District.t) :
  get (Data.jakarta (UnifiedData.data unifiedData)) year = Some yearData ->
  nth_error (JakartaYearData.cases yearData) i = Some c ->
  RegionInfo.districts (Regions.jakarta (UnifiedData.regions unifiedData)) = Some ds ->
  In e ds ->
  District.id e = DistrictCases.district c ->
  (forall e', In e' ds -> District.id e' = District.id e -> e' = e) ->
  exists rows r,
    getJakartaDistrictData unifiedData year disease = Ok rows /\
    nth_error rows i = Some r /\
    (District.name e <> "" -> DistrictRow.name r = District.name e) /\
    (District.name e = "" -> DistrictRow.name r = DistrictCases.district c).
Proof.
  intros Hy Hc Hds Hin Hid Hu.
  destruct (getJakartaDistrictData_own_year unifiedData year disease yearData Hy)
    as (rows & E & _ & Hrows).
  destruct (Hrows i c Hc) as (r & Hr & _ & Hname).
  exists rows, r. split; [exact E|]. split; [exact Hr|].
  rewrite Hname. unfold findDistrict. rewrite Hds, <- Hid.
  rewrite (find_unique ds e Hin Hu). cbn [option_map orStr].
  destruct (String.eqb_spec (District.name e) ""); split; congruence.
Qed.

Lemma getJakartaDistrictData_catalog_name_witness :
  exists rows r,
    getJakartaDistrictData fixture "2023" "difteri" = Ok rows /\
    nth_error rows 0 = Some r /\
    DistrictRow.name r = "Jakarta Pusat".
Proof.
  destruct (getJakartaDistrictData_catalog_name fixture "2023" "difteri" fixture2023 0
              {| DistrictCases.district := "jakarta-pusat";
                 DistrictCases.diseases := [("difteri", count 3 2 5)] |}
              [ {| District.id := "jakarta-pusat"; District.name := "Jakarta Pusat";
                   District.type := "kota" |} ]
              {| District.id := "jakarta-pusat"; District.name := "Jakarta Pusat";
                 District.type := "kota" |}
              eq_refl eq_refl eq_refl (or_introl eq_refl) eq_refl)
    as (rows & r & E & Hr & Hname & _).
  - intros e' [<-|[]] _. reflexivity.
  - exists rows, r. split; [exact E|]. split; [exact Hr|]. apply Hname. discriminate.
Defined.

(** ** Computations of the pages *)

Lemma summaryDifteri_difteriTotal (yearData : option JakartaYearData.t) :
  summaryDifteri (option_map JakartaYearData.summary yearData) = difteriTotal yearData.
Proof. destruct yearData; reflexivity. Qed.

(** X6.  For the year 2023 the Jakarta page shows the figures of
    [getSummaryStats]: the same two totals, the same change and the same
    percentage string, compared with 2022. *)
Theorem jakartaTotals_2023_agrees_with_summary (d : UnifiedData.t) :
  JakartaTotals.prevYear (jakartaTotals d "2023") = Some "2022" /\
  JakartaTotals.totalDifteri (jakartaTotals d "2023")
    = SummaryStats.jakartaDifteri2023 (getSummaryStats d) /\
  JakartaTotals.prevTotalDifteri (jakartaTotals d "2023")
    = SummaryStats.jakartaDifteri2022 (getSummaryStats d) /\
  JakartaTotals.change (jakartaTotals d "2023")
    = SummaryStats.difteriChange (getSummaryStats d) /\
  JakartaTotals.changePercent (jakartaTotals d "2023")
    = SummaryStats.difteriChangePercent (getSummaryStats d).
Proof.
  unfold jakartaTotals, getSummaryStats. cbn -[summaryDifteri difteriTotal percent Z.sub Z.ltb].
  rewrite !summaryDifteri_difteriTotal. repeat split.
Qed.

(** X7.  A selected year other than 2023 and 2024 has no previous year on the
    Jakarta page: the previous total is 0, the change is the year's own
    total and the percentage is the string "0".  A selected year that the
    Jakarta mapping lacks has total 0 and no disease to list. *)
Theorem jakartaTotals_without_previous_year (d : UnifiedData.t) (selectedYear : string) :
  (selectedYear <> "2023" -> selectedYear <> "2024" ->
   JakartaTotals.prevYear (jakartaTotals d selectedYear) = None /\
   JakartaTotals.prevTotalDifteri (jakartaTotals d selectedYear) = 0 /\
   JakartaTotals.change (jakartaTotals d selectedYear)
     = JakartaTotals.totalDifteri (jakartaTotals d selectedYear) /\
   JakartaTotals.changePercent (jakartaTotals d selectedYear) = "0") /\
  (~ In selectedYear (keys (Data.jakarta (UnifiedData.data d))) ->
   JakartaTotals.totalDifteri (jakartaTotals d selectedYear) = 0 /\
   JakartaTotals.diseases (jakartaTotals d selectedYear) = []).
Proof.
  split.
  - intros H23 H24. unfold jakartaTotals.
    apply String.eqb_neq in H23, H24. rewrite H23, H24.
    cbn -[Z.sub]. repeat split. lia.
  - intros Hk. apply get_None_iff in Hk. unfold jakartaTotals. rewrite Hk.
    split; reflexivity.
Qed.

Lemma jakartaTotals_without_previous_year_witness :
  JakartaTotals.totalDifteri (jakartaTotals fixture "2022") = 15 /\
  JakartaTotals.change (jakartaTotals fixture "2022") = 15 /\
  JakartaTotals.changePercent (jakartaTotals fixture "2022") = "0" /\
  JakartaTotals.diseases (jakartaTotals fixture "1999") = [].
Proof.
  destruct (jakartaTotals_without_previous_year fixture "2022") as [H _].
  destruct (H ltac:(discriminate) ltac:(discriminate)) as (_ & _ & Hc & Hp).
  destruct (jakartaTotals_without_previous_year fixture "1999") as [_ H'].
  split; [reflexivity | split; [rewrite Hc; reflexivity | split; [exact Hp|]]].
  apply H'. cbn. intros [E|[E|[]]]; discriminate.
Defined.

Lemma after_byNamedTotalDesc (x y : NamedTotal.t) :
  True -> True ->
  after byNamedTotalDesc x y = (- NamedTotal.total y <? - NamedTotal.total x).
Proof.
  intros _ _. unfold after, byNamedTotalDesc.
  destruct (Z.ltb_spec 0 (NamedTotal.total y - NamedTotal.total x)),
           (Z.ltb_spec (- NamedTotal.total y) (- NamedTotal.total x));
    try reflexivity; lia.
Qed.

(** X8.  The disease comparison of the Regional page has at most eight rows, all
    with a strictly positive total, in descending order of the total; every
    row is one of the first eight disease types, with the sum of the
    disease's totals over all years (a year that does not list the disease
    counts 0). *)
Theorem regionalDiseaseComparison_rows
  (diseaseTypes : list DiseaseType.t) (jatimData : JatimData.t) :
  (List.length (regionalDiseaseComparison diseaseTypes jatimData) <= 8)%nat /\
  Forall (fun r => 0 < NamedTotal.total r) (regionalDiseaseComparison diseaseTypes jatimData) /\
  StronglySorted (fun a b => NamedTotal.total b <= NamedTotal.total a)
                 (regionalDiseaseComparison diseaseTypes jatimData) /\
  (forall r, In r (regionalDiseaseComparison diseaseTypes jatimData) ->
     exists disease,
       In disease (firstn 8 diseaseTypes) /\
       NamedTotal.total r
         = fold_right Z.add 0
             (map (fun yearData => jatimTotal yearData (DiseaseType.id disease))
                  (values (JatimData.yearlyData jatimData))) /\
       NamedTotal.name r
         = replace (replace (DiseaseType.name disease) "Suspek " "") " / DBD" "").
Proof.
  unfold regionalDiseaseComparison.
  set (row := fun disease : DiseaseType.t => _).
  repeat apply conj.
  - rewrite (Permutation_length (sort_perm _ _)).
    eapply Nat.le_trans; [apply filter_length_le|].
    rewrite length_map. apply firstn_le_length.
  - apply sort_Forall. rewrite Forall_forall. intros r Hr.
    apply filter_In in Hr as [_ Hr]. now apply Z.ltb_lt.
  - apply (StronglySorted_impl (keyLe (fun r => - NamedTotal.total r))).
    + unfold keyLe. intros; lia.
    + apply (sort_sorted byNamedTotalDesc (fun r => - NamedTotal.total r) (fun _ => True)
               after_byNamedTotalDesc).
      apply Forall_True.
  - intros r Hr. apply sort_In, filter_In in Hr. destruct Hr as [Hr _].
    apply in_map_iff in Hr as (disease & <- & Hd).
    exists disease. split; [exact Hd | split; [|reflexivity]].
    unfold row. cbn [NamedTotal.total].
    rewrite (fold_left_add
               (fun yearData =>
                  orZero (option_map JatimDiseaseCount.total
                            (get (JatimYearData.diseases yearData) (DiseaseType.id disease))))).
    rewrite Z.add_0_l. f_equal. apply map_ext. intros yearData. unfold jatimTotal.
    destruct (get (JatimYearData.diseases yearData) (DiseaseType.id disease)); reflexivity.
Qed.

(** ** Fetching *)

(** X9.  A request that fails, by the network or by the body not being JSON,
    makes [fetchUnifiedData] reject; it is logged, but the cache stays empty
    and no document is stored, so the next call issues a request of its
    own: two calls after a failure make two requests. *)
Theorem fetchUnifiedData_failure_not_cached (env : Env.t) (w : World.t) :
  World.cachedUnifiedData w = None ->
  (Env.server env (List.length (World.requests w)) (unifiedDataUrl env) = NetworkFailure \/
   Env.server env (List.length (World.requests w)) (unifiedDataUrl env) = InvalidJson) ->
  (exists err, fst (fetchUnifiedData env w) = inr err) /\
  World.cachedUnifiedData (snd (fetchUnifiedData env w)) = None /\
  World.heap (snd (fetchUnifiedData env w)) = World.heap w /\
  World.requests (snd (fetchUnifiedData env w))
    = (World.requests w ++ [unifiedDataUrl env])%list /\
  World.requests (snd (fetchTimes env 2 w))
    = (World.requests w ++ [unifiedDataUrl env; unifiedDataUrl env])%list.
Proof.
  intros Hc Hs.
  set (w1 := {| World.cachedUnifiedData := None;
                World.heap := World.heap w;
                World.requests := (World.requests w ++ [unifiedDataUrl env])%list |}).
  assert (H1 : exists err, fetchUnifiedData env w = (inr err, w1)).
  { unfold fetchUnifiedData. rewrite Hc. destruct Hs as [-> | ->]; eexists; reflexivity. }
  destruct H1 as (err & H1). rewrite H1. cbn [fst snd].
  repeat apply conj; try reflexivity.
  - now exists err.
  - cbn [fetchTimes]. rewrite H1.
    unfold fetchUnifiedData at 1. cbn [World.cachedUnifiedData World.requests w1].
    destruct (Env.server env (List.length (World.requests w ++ [unifiedDataUrl env]))
                         (unifiedDataUrl env));
      cbn; rewrite <- app_assoc; reflexivity.
Qed.

Lemma fetchUnifiedData_failure_not_cached_witness :
  World.cachedUnifiedData (snd (fetchUnifiedData failingOnceEnv emptyWorld)) = None /\
  World.requests (snd (fetchTimes failingOnceEnv 2 emptyWorld))
  = ["/app/data/unified-data.json"; "/app/data/unified-data.json"].
Proof.
  destruct (fetchUnifiedData_failure_not_cached failingOnceEnv emptyWorld eq_refl
              (or_introl eq_refl)) as (_ & Hc & _ & _ & H2).
  split; [exact Hc | exact H2].
Defined.

Lemma fetchJakartaData_frame (env : LegacyEnv.t) (year : string) (w : World.t) :
  World.cachedUnifiedData (snd (fetchJakartaData env year w)) = World.cachedUnifiedData w /\
  World.heap (snd (fetchJakartaData env year w)) = World.heap w.
Proof.
  unfold fetchJakartaData. destruct (LegacyEnv.server env _ _); split; reflexivity.
Qed.

Lemma fetchJakartaEach_frame (env : LegacyEnv.t) (years : list string) (w : World.t) :
  World.cachedUnifiedData (snd (fetchJakartaEach env years w)) = World.cachedUnifiedData w /\
  World.heap (snd (fetchJakartaEach env years w)) = World.heap w.
Proof.
  revert w. induction years as [|year years IH]; intros w; cbn [fetchJakartaEach].
  - split; reflexivity.
  - destruct (fetchJakartaData_frame env year w) as [Hc Hh].
    destruct (fetchJakartaData env year w) as [r w1]. cbn [snd] in Hc, Hh.
    specialize (IH w1). destruct (fetchJakartaEach env years w1) as [rs w2].
    cbn [snd] in *. destruct IH as [Hc' Hh']. split; congruence.
Qed.

(** X10.  [fetchJakartaData] keeps nothing: every call issues a request for the
    file of its year, whatever was fetched before, and no call reads or
    changes the cache of [fetchUnifiedData] or the documents it stored. *)
Theorem fetchJakartaData_never_cached
  (env : LegacyEnv.t) (years : list string) (w : World.t) :
  List.length (fst (fetchJakartaEach env years w)) = List.length years /\
  World.requests (snd (fetchJakartaEach env years w))
    = (World.requests w ++ map (jakartaUrl env) years)%list /\
  World.cachedUnifiedData (snd (fetchJakartaEach env years w)) = World.cachedUnifiedData w /\
  World.heap (snd (fetchJakartaEach env years w)) = World.heap w.
Proof.
  revert w. induction years as [|year years IH]; intros w; cbn [fetchJakartaEach].
  - cbn. rewrite app_nil_r. repeat split.
  - destruct (fetchJakartaData env year w) as [r w1] eqn:E1.
    assert (Hw1 : w1 = {| World.cachedUnifiedData := World.cachedUnifiedData w;
                          World.heap := World.heap w;
                          World.requests := (World.requests w ++ [jakartaUrl env year])%list |}).
    { unfold fetchJakartaData in E1.
      destruct (LegacyEnv.server env _ _); injection E1 as _ <-; reflexivity. }
    specialize (IH w1).
    destruct (fetchJakartaEach env years w1) as [rs w2]. cbn [fst snd] in *.
    destruct IH as (Hl & Hr & Hc & Hh). subst w1. cbn in Hr, Hc, Hh.
    repeat apply conj.
    + cbn. now rewrite Hl.
    + rewrite Hr, <- app_assoc. reflexivity.
    + exact Hc.
    + exact Hh.
Qed.

(** X11.  Legacy fetches between two calls of [fetchUnifiedData] do not disturb
    the memo: once the cache is filled, the unified document is returned
    without a request whatever legacy files were fetched in between. *)
Theorem fetchUnifiedData_cached_after_legacy
  (env : Env.t) (legacy : LegacyEnv.t) (years : list string) (w : World.t) (r : ref) :
  World.cachedUnifiedData w = Some r ->
  fetchUnifiedData env (snd (fetchJakartaEach legacy years w))
  = (inl r, snd (fetchJakartaEach legacy years w)) /\
  deref (snd (fetchJakartaEach legacy years w)) r = deref w r.
Proof.
  intros Hc.
  destruct (fetchJakartaEach_frame legacy years w) as (Hc' & Hh).
  split.
  - apply fetchUnifiedData_cached. now rewrite Hc'.
  - unfold deref. now rewrite Hh.
Qed.

Lemma fetchUnifiedData_cached_after_legacy_witness :
  fst (fetchUnifiedData fixtureEnv
         (snd (fetchJakartaEach legacyEnv ["2022"; "2023"]
                 (snd (fetchUnifiedData fixtureEnv emptyWorld)))))
  = inl 0%nat.
Proof.
  exact (f_equal fst
           (proj1 (fetchUnifiedData_cached_after_legacy fixtureEnv legacyEnv ["2022"; "2023"]
                     (snd (fetchUnifiedData fixtureEnv emptyWorld)) 0%nat eq_refl))).
Defined.

(** ** The theme switch *)

Lemma clicks_invariant (n : nat) (isDark : bool) (b : Browser.t) :
  isDark = Browser.darkClass b ->
  fst (clicks n isDark b) = Browser.darkClass (snd (clicks n isDark b)) /\
  fst (clicks n isDark b) = xorb isDark (Nat.odd n) /\
  (n = O -> snd (clicks n isDark b) = b) /\
  ((0 < n)%nat ->
   Browser.theme (snd (clicks n isDark b))
   = Some (if fst (clicks n isDark b) then "dark" else "light")).
Proof.
  revert isDark b. induction n as [|n IH]; intros isDark b Hinv.
  - cbn. rewrite xorb_false_r. repeat split; auto. lia.
  - cbn [clicks toggleTheme].
    set (b1 := {| Browser.darkClass := negb isDark;
                  Browser.theme := Some (if negb isDark then "dark" else "light") |}).
    destruct (IH (negb isDark) b1 eq_refl) as (H1 & H2 & H3 & H4).
    repeat apply conj.
    + exact H1.
    + rewrite H2, Nat.odd_succ, <- Nat.negb_odd. now destruct isDark, (Nat.odd n).
    + discriminate.
    + intros _. destruct n as [|n'].
      * cbn. reflexivity.
      * apply H4. lia.
Qed.

Lemma clicks_after_first (n : nat) (isDark : bool) (b : Browser.t) :
  (0 < n)%nat ->
  fst (clicks n isDark b) = Browser.darkClass (snd (clicks n isDark b)) /\
  fst (clicks n isDark b) = xorb isDark (Nat.odd n) /\
  Browser.theme (snd (clicks n isDark b))
  = Some (if fst (clicks n isDark b) then "dark" else "light").
Proof.
  destruct n as [|n]; [lia|]. intros _. cbn [clicks toggleTheme].
  set (b1 := {| Browser.darkClass := negb isDark;
                Browser.theme := Some (if negb isDark then "dark" else "light") |}).
  destruct (clicks_invariant n (negb isDark) b1 eq_refl) as (H1 & H2 & H3 & H4).
  repeat apply conj.
  - exact H1.
  - rewrite H2, Nat.odd_succ, <- Nat.negb_odd. now destruct isDark, (Nat.odd n).
  - destruct n as [|n'].
    + cbn. reflexivity.
    + apply H4. lia.
Qed.

(** X12.  After the page has mounted, the header's effect before that of [App],
    [isDark] after any number of clicks is the presence of the class the
    page came with, flipped when the number of clicks is odd.  After at
    least one click [isDark] equals the presence of the class [dark] and
    the stored theme is "dark" or "light" according to it.  Before the
    first click the browser is as [App] left it, and [isDark] differs from
    the presence of the class exactly when the page came without the class
    and with the stored theme "dark"; the first click then leaves the class
    in place. *)
Theorem theme_switch_consistent (n : nat) (b : Browser.t) :
  let isDark := fst (clicks n (fst (mount b)) (snd (mount b))) in
  let browser := snd (clicks n (fst (mount b)) (snd (mount b))) in
  isDark = xorb (Browser.darkClass b) (Nat.odd n) /\
  ((0 < n)%nat ->
   isDark = Browser.darkClass browser /\
   Browser.theme browser = Some (if isDark then "dark" else "light")) /\
  (n = O ->
   browser = appMount b /\
   (isDark <> Browser.darkClass browser <->
    Browser.darkClass b = false /\ Browser.theme b = Some "dark")) /\
  (n = 1%nat -> Browser.darkClass b = false -> Browser.theme b = Some "dark" ->
   isDark = true /\ Browser.darkClass browser = true).
Proof.
  intros isDark browser. subst isDark browser. unfold mount. cbn [fst snd].
  repeat apply conj.
  - destruct n as [|n].
    + cbn. now rewrite xorb_false_r.
    + apply (clicks_after_first (S n) (headerMount b) (appMount b)). lia.
  - intros Hn.
    destruct (clicks_after_first n (headerMount b) (appMount b) Hn) as (H1 & _ & H3).
    split; assumption.
  - intros ->. cbn [clicks fst snd]. split; [reflexivity|].
    unfold headerMount, appMount. destruct b as [c [t|]]; cbn [Browser.darkClass Browser.theme].
    + destruct (String.eqb_spec t "dark") as [->|Hne]; cbn [Browser.darkClass].
      * destruct c; split.
        -- congruence.
        -- intros [E _]. discriminate E.
        -- intros _. split; reflexivity.
        -- intros _. discriminate.
      * split; [congruence|]. intros [_ [= E]]. contradiction.
    + split; [congruence|]. intros [_ E]. discriminate E.
  - intros -> Hc Ht. cbn. unfold headerMount. rewrite Hc. split; reflexivity.
Qed.

Lemma theme_switch_consistent_witness :
  fst (mount {| Browser.darkClass := false; Browser.theme := Some "dark" |}) = false /\
  Browser.darkClass (snd (mount {| Browser.darkClass := false;
                                   Browser.theme := Some "dark" |})) = true /\
  fst (clicks 1 false {| Browser.darkClass := true; Browser.theme := Some "dark" |}) = true.
Proof.
  split; [reflexivity | split; [reflexivity|]].
  exact (proj1 (proj2 (proj2 (proj2
           (theme_switch_consistent 1
              {| Browser.darkClass := false; Browser.theme := Some "dark" |})))
           eq_refl eq_refl eq_refl)).
Defined.

(** X13.  The mount effect of [App] never removes the class and never writes the
    storage; it adds the class exactly when the stored theme is "dark".  So
    a page loaded after [n >= 1] clicks has the class when the last state
    was dark, and otherwise has it only if the page came with it. *)
Theorem appMount_restores_dark (n : nat) (b : Browser.t) (fresh : bool) :
  Browser.theme (appMount b) = Browser.theme b /\
  Browser.darkClass (appMount b)
    = (Browser.darkClass b
       || match Browser.theme b with Some t => (t =? "dark")%string | None => false end)%bool /\
  ((0 < n)%nat ->
   Browser.darkClass
     (appMount {| Browser.darkClass := fresh;
                  Browser.theme := Browser.theme (snd (clicks n (headerMount b) b)) |})
   = (fresh || fst (clicks n (headerMount b) b))%bool).
Proof.
  repeat apply conj.
  - destruct b as [c [t|]]; unfold appMount; cbn; [|reflexivity].
    destruct (t =? "dark")%string; reflexivity.
  - destruct b as [c [t|]]; unfold appMount; cbn.
    + destruct (t =? "dark")%string; cbn; [now rewrite orb_true_r | now rewrite orb_false_r].
    + now rewrite orb_false_r.
  - intros Hn. destruct (clicks_invariant n (headerMount b) b eq_refl) as (_ & _ & _ & Ht).
    rewrite (Ht Hn). unfold appMount. cbn [Browser.theme].
    destruct (fst (clicks n (headerMount b) b)); cbn;
      [now rewrite orb_true_r | now rewrite orb_false_r].
Qed.

(** ** Grouping in the legacy aggregations *)

Lemma get_set_other {V : Type} (o : Obj V) (k k' : string) (v : V) :
  k <> k' -> get (set o k v) k' = get o k'.
Proof.
  intros Hne. induction o as [|[k0 v0] o IH]; cbn [set get].
  - apply String.eqb_neq in Hne. now rewrite Hne.
  - destruct (String.eqb_spec k0 k) as [->|Hk]; cbn [get].
    + apply String.eqb_neq in Hne. now rewrite Hne.
    + now rewrite IH.
Qed.

Lemma keys_set {V : Type} (o : Obj V) (k : string) (v : V) :
  keys (set o k v) = if has o k then keys o else (keys o ++ [k])%list.
Proof.
  unfold has. induction o as [|[k0 v0] o IH]; cbn [set get keys map]; [reflexivity|].
  destruct (String.eqb_spec k0 k) as [->|Hk]; cbn [map fst]; [reflexivity|].
  fold (keys (set o k v)). rewrite IH. fold (keys o).
  destruct (get o k); reflexivity.
Qed.

Lemma keys_set_new {V : Type} (o : Obj V) (k : string) (v : V) :
  has o k = false -> keys (set o k v) = (keys o ++ [k])%list.
Proof. intros H. now rewrite keys_set, H. Qed.

Lemma has_true_iff {V : Type} (o : Obj V) (k : string) :
  has o k = true <-> In k (keys o).
Proof.
  unfold has. destruct (get o k) eqn:E.
  - split; [|reflexivity]. intros _.
    apply get_In in E. change k with (fst (k, v)). now apply in_map.
  - apply get_None_iff in E. split; [discriminate | contradiction].
Qed.

Lemma In_get {V : Type} (o : Obj V) (k : string) (v : V) :
  wfObj o -> In (k, v) o -> get o k = Some v.
Proof.
  unfold wfObj. induction o as [|[k0 v0] o IH]; intros Hnd Hin; [destruct Hin|].
  cbn [keys map fst] in Hnd. inversion Hnd as [|? ? Hnin Hnd']; subst. cbn [get].
  destruct Hin as [[= -> ->]|Hin].
  - now rewrite String.eqb_refl.
  - destruct (String.eqb_spec k0 k) as [->|Hk]; [|now apply IH].
    exfalso. apply Hnin. change k with (fst (k, v)). now apply in_map.
Qed.

Lemma yearStep_get_same (m : Obj number) (y f : string) :
  get (yearStep m y f) y
  = Some (number_add match get m y with Some t => t | None => Num 0 end (parseInt f 10)).
Proof.
  unfold yearStep, has. rewrite get_set_same.
  destruct (get m y) as [t|] eqn:E; [now rewrite E | now rewrite get_set_same].
Qed.

Lemma yearStep_get_other (m : Obj number) (y y' f : string) :
  y <> y' -> get (yearStep m y f) y' = get m y'.
Proof.
  intros Hne. unfold yearStep. rewrite get_set_other by assumption.
  destruct (has m y); [reflexivity | now apply get_set_other].
Qed.

Lemma yearStep_keys (m : Obj number) (y f : string) :
  keys (yearStep m y f) = if has m y then keys m else (keys m ++ [y])%list.
Proof.
  unfold yearStep. rewrite keys_set.
  destruct (has m y) eqn:E; [now rewrite E|].
  unfold has at 1. rewrite get_set_same. apply keys_set_new. exact E.
Qed.

Section GroupFold.
Context {Item : Type}.
Variables key field : Item -> string.

Lemma groupFold_get (data : list Item) (m : Obj number) (y : string) :
  get (groupFold key field data m) y
  = if (has m y || existsb (fun item => (key item =? y)%string) data)%bool
    then Some (fold_left (fun sum f => number_add sum (parseInt f 10))
                 (map field (filter (fun item => (key item =? y)%string) data))
                 match get m y with Some t => t | None => Num 0 end)
    else None.
Proof.
  revert m. induction data as [|item data IH]; intros m.
  - cbn. unfold has. destruct (get m y); reflexivity.
  - change (groupFold key field (item :: data) m)
      with (groupFold key field data (yearStep m (key item) (field item))).
    rewrite IH. cbn [existsb filter].
    destruct (String.eqb_spec (key item) y) as [E|Hne].
    + subst y. unfold has at 1. rewrite yearStep_get_same.
      cbn [orb map fold_left]. now rewrite orb_true_r.
    + unfold has. rewrite (yearStep_get_other m _ y (field item) Hne).
      reflexivity.
Qed.

Lemma groupFold_wf (data : list Item) (m : Obj number) :
  wfObj m -> wfObj (groupFold key field data m).
Proof.
  revert m. induction data as [|item data IH]; intros m Hm; [exact Hm|].
  change (groupFold key field (item :: data) m)
    with (groupFold key field data (yearStep m (key item) (field item))).
  apply IH. unfold wfObj in *. rewrite yearStep_keys.
  destruct (has m (key item)) eqn:E; [exact Hm|].
  apply NoDup_app; [exact Hm | repeat constructor; intros [] |].
  intros x Hx [<-|[]]. apply has_true_iff in Hx. congruence.
Qed.

Lemma groupFold_keys (data : list Item) (y : string) :
  In y (keys (groupFold key field data [])) <-> In y (map key data).
Proof.
  rewrite <- has_true_iff. unfold has. rewrite groupFold_get. cbn [has get orb].
  destruct (existsb (fun item => (key item =? y)%string) data) eqn:E.
  - split; [|reflexivity]. intros _. apply existsb_exists in E as (item & Hin & Hk).
    apply String.eqb_eq in Hk. subst y. now apply in_map.
  - split; [discriminate|]. intros Hin. apply in_map_iff in Hin as (item & <- & Hin).
    assert (existsb (fun item0 => (key item0 =? key item)%string) data = true).
    { apply existsb_exists. exists item. split; [exact Hin | apply String.eqb_refl]. }
    congruence.
Qed.

(** The rows made from the grouped map: one per distinct key, each with the
    sum of the rows of its key. *)
Lemma yearRows_groupFold (data : list Item) :
  NoDup (map YearRow.year (yearRows (groupFold key field data []))) /\
  (forall y, In y (map YearRow.year (yearRows (groupFold key field data [])))
             <-> In y (map key data)) /\
  (forall r, In r (yearRows (groupFold key field data [])) ->
             YearRow.total r
             = sumParsed (map field (filter (fun item => (key item =? YearRow.year r)%string)
                                            data))).
Proof.
  set (m := groupFold key field data []).
  assert (Hwf : wfObj m) by (apply groupFold_wf; constructor).
  assert (Hp : Permutation (map YearRow.year (yearRows m)) (keys m)).
  { unfold yearRows. eapply Permutation_trans; [apply Permutation_map, sort_perm|].
    unfold keys, entries. rewrite map_map.
    erewrite map_ext; [apply Permutation_refl|]. now intros [y t]. }
  repeat apply conj.
  - eapply Permutation_NoDup; [apply Permutation_sym, Hp | exact Hwf].
  - intros y. unfold m. rewrite <- groupFold_keys. fold m.
    split; apply Permutation_in; [exact Hp | apply Permutation_sym, Hp].
  - intros r Hr. unfold yearRows in Hr. apply sort_In in Hr.
    apply in_map_iff in Hr as ([y t] & <- & Hin). cbn [YearRow.year YearRow.total].
    apply (In_get m y t Hwf) in Hin. unfold m in Hin. rewrite groupFold_get in Hin.
    cbn [has get orb] in Hin.
    destruct (existsb _ data); [|discriminate]. now injection Hin as <-.
Qed.

End GroupFold.

(** X14.  [transformCirebonByYear] and [transformBogorByYear] return one row per
    distinct year of the input, and the total of a year is the sum of the
    parsed counts of the rows of that year, in row order. *)
Theorem by_year_aggregations_group
  (cirebon : list CirebonDataItem.t) (bogor : list BogorDataItem.t) :
  (NoDup (map YearRow.year (transformCirebonByYear cirebon)) /\
   (forall y, In y (map YearRow.year (transformCirebonByYear cirebon))
              <-> In y (map CirebonDataItem.tahun cirebon)) /\
   (forall r, In r (transformCirebonByYear cirebon) ->
      YearRow.total r
      = sumParsed (map CirebonDataItem.jumlah_kasus
                     (filter (fun item => (CirebonDataItem.tahun item =? YearRow.year r)%string)
                             cirebon)))) /\
  (NoDup (map YearRow.year (transformBogorByYear bogor)) /\
   (forall y, In y (map YearRow.year (transformBogorByYear bogor))
              <-> In y (map BogorDataItem.tahun bogor)) /\
   (forall r, In r (transformBogorByYear bogor) ->
      YearRow.total r
      = sumParsed (map BogorDataItem.jumlah_wabah_lainya
                     (filter (fun item => (BogorDataItem.tahun item =? YearRow.year r)%string)
                             bogor)))).
Proof.
  split.
  - apply (yearRows_groupFold CirebonDataItem.tahun CirebonDataItem.jumlah_kasus cirebon).
  - apply (yearRows_groupFold BogorDataItem.tahun BogorDataItem.jumlah_wabah_lainya bogor).
Qed.

(** X15.  On rows whose years are four-digit strings, [transformCirebonByYear]
    and [transformBogorByYear] return the years strictly ascending. *)
Theorem by_year_aggregations_ascending
  (cirebon : list CirebonDataItem.t) (bogor : list BogorDataItem.t) :
  (Forall (fun item => isYearKey (CirebonDataItem.tahun item) = true) cirebon ->
   ascendingYears (map YearRow.year (transformCirebonByYear cirebon))) /\
  (Forall (fun item => isYearKey (BogorDataItem.tahun item) = true) bogor ->
   ascendingYears (map YearRow.year (transformBogorByYear bogor))).
Proof.
  assert (H : forall (Item : Type) (key field : Item -> string) (data : list Item),
             Forall (fun item => isYearKey (key item) = true) data ->
             ascendingYears (map YearRow.year (yearRows (groupFold key field data [])))).
  { intros Item key field data Hk.
    destruct (yearRows_groupFold key field data) as (Hnd & Hin & _).
    unfold yearRows in *.
    set (rows := map _ (entries (groupFold key field data []))) in *.
    assert (Hp : Permutation (map YearRow.year (sort (byYear YearRow.year) rows))
                             (map YearRow.year rows))
      by apply Permutation_map, sort_perm.
    apply sort_byYear_ascending.
    - rewrite Forall_forall. intros y Hy.
      apply (Permutation_in _ (Permutation_sym Hp)) in Hy. apply Hin in Hy.
      apply in_map_iff in Hy as (item & <- & Hi).
      rewrite Forall_forall in Hk. now apply Hk.
    - eapply Permutation_NoDup; [exact Hp | exact Hnd]. }
  split; intros Hk.
  - apply (H _ CirebonDataItem.tahun CirebonDataItem.jumlah_kasus cirebon Hk).
  - apply (H _ BogorDataItem.tahun BogorDataItem.jumlah_wabah_lainya bogor Hk).
Qed.

Lemma by_year_aggregations_ascending_witness :
  map YearRow.year
      (transformCirebonByYear
         [cirebonRow "2021" "3"; cirebonRow "2020" "4"; cirebonRow "2021" "5"])
  = ["2020"; "2021"] /\
  ascendingYears
    (map YearRow.year
       (transformCirebonByYear
          [cirebonRow "2021" "3"; cirebonRow "2020" "4"; cirebonRow "2021" "5"])).
Proof.
  split; [reflexivity|].
  apply (proj1 (by_year_aggregations_ascending
                  [cirebonRow "2021" "3"; cirebonRow "2020" "4"; cirebonRow "2021" "5"] [])).
  repeat constructor.
Defined.

Lemma fold_left_filter {A B : Type} (p : B -> bool) (g : A -> B -> A) (l : list B) (a : A) :
  fold_left (fun acc x => if p x then g acc x else acc) l a = fold_left g (filter p l) a.
Proof.
  revert a. induction l as [|x l IH]; intros a; cbn [fold_left filter]; [reflexivity|].
  destruct (p x); cbn [fold_left]; apply IH.
Qed.

Lemma filter_filter_and {A : Type} (p q : A -> bool) (l : list A) :
  filter q (filter p l) = filter (fun x => p x && q x) l.
Proof.
  induction l as [|x l IH]; cbn [filter]; [reflexivity|].
  destruct (p x); cbn [filter andb]; [destruct (q x)|]; now rewrite IH.
Qed.

(** X16.  Whatever order [localeCompare] induces, [transformJawaTimurByMonth]
    returns one row per distinct month among the rows of the disease (the
    rows whose [penyakit] contains the name, letter case aside), and the
    total of a month is the sum of the parsed counts of those rows of that
    month; rows of other diseases count nowhere. *)
Theorem transformJawaTimurByMonth_groups
  (localeCompare : string -> string -> number)
  (data : list JawaTimurDataItem.t) (diseaseName : string) :
  NoDup (map MonthRow.month (transformJawaTimurByMonth localeCompare data diseaseName)) /\
  (forall m,
      In m (map MonthRow.month (transformJawaTimurByMonth localeCompare data diseaseName))
      <-> exists item, In item data /\ matchesDisease diseaseName item = true /\
                       JawaTimurDataItem.periode_update item = m) /\
  (forall r,
      In r (transformJawaTimurByMonth localeCompare data diseaseName) ->
      MonthRow.total r
      = sumParsed
          (map JawaTimurDataItem.jumlah
             (filter (fun item =>
                        matchesDisease diseaseName item
                        && (JawaTimurDataItem.periode_update item =? MonthRow.month r)%string)
                     data))).
Proof.
  unfold transformJawaTimurByMonth.
  rewrite (fold_left_filter (matchesDisease diseaseName)
             (fun monthMap item =>
                yearStep monthMap (JawaTimurDataItem.periode_update item)
                         (JawaTimurDataItem.jumlah item))).
  set (sel := filter (matchesDisease diseaseName) data).
  change (fold_left _ sel [])
    with (groupFold JawaTimurDataItem.periode_update JawaTimurDataItem.jumlah sel []).
  set (m := groupFold _ _ sel []).
  assert (Hwf : wfObj m) by (apply groupFold_wf; constructor).
  set (rows := sort _ _).
  assert (Hp : Permutation (map MonthRow.month rows) (keys m)).
  { unfold rows. eapply Permutation_trans; [apply Permutation_map, sort_perm|].
    unfold keys, entries. rewrite map_map.
    erewrite map_ext; [apply Permutation_refl|]. now intros [y t]. }
  repeat apply conj.
  - eapply Permutation_NoDup; [apply Permutation_sym, Hp | exact Hwf].
  - intros mth. transitivity (In mth (keys m)).
    + split; apply Permutation_in; [exact Hp | apply Permutation_sym, Hp].
    + unfold m. rewrite groupFold_keys, in_map_iff. unfold sel. split.
      * intros (item & E & Hin). apply filter_In in Hin as [Hin Hm]. now exists item.
      * intros (item & Hin & Hm & E). exists item. split; [exact E|].
        apply filter_In. now split.
  - intros r Hr. unfold rows in Hr. apply sort_In in Hr.
    apply in_map_iff in Hr as ([y t] & <- & Hin). cbn [MonthRow.month MonthRow.total].
    apply (In_get m y t Hwf) in Hin. unfold m in Hin. rewrite groupFold_get in Hin.
    cbn [has get orb] in Hin.
    destruct (existsb _ sel); [|discriminate]. injection Hin as <-.
    unfold sel. rewrite filter_filter_and. reflexivity.
Qed.

(** ** Unique diseases *)

Lemma codeUnitLe_trans (x y z : string) :
  codeUnitLe x y -> codeUnitLe y z -> codeUnitLe x z.
Proof.
  unfold codeUnitLe. intros Hxy Hyz.
  destruct (String.compare x y) eqn:Exy; [| |congruence].
  - apply String.compare_eq_iff in Exy. now subst.
  - destruct (String.compare y z) eqn:Eyz; [| |congruence].
    + apply String.compare_eq_iff in Eyz. subst. now rewrite Exy.
    + apply OrderedTypeEx.String_as_OT.cmp_lt in Exy, Eyz.
      pose proof (OrderedTypeEx.String_as_OT.lt_trans _ _ _ Exy Eyz) as Hxz.
      apply OrderedTypeEx.String_as_OT.cmp_lt in Hxz.
      unfold OrderedTypeEx.String_as_OT.cmp in Hxz. now rewrite Hxz.
Qed.

Lemma after_compareStrings_Gt (x y : string) :
  after compareStrings x y = true <-> String.compare x y = Gt.
Proof.
  unfold after, compareStrings. destruct (String.compare x y); cbn; split; congruence.
Qed.

Lemma insert_compareStrings_sorted (x : string) (l : list string) :
  StronglySorted codeUnitLe l -> StronglySorted codeUnitLe (insert compareStrings x l).
Proof.
  induction 1 as [|y l Hs IH Hy]; cbn [insert].
  - constructor; constructor.
  - destruct (after compareStrings x y) eqn:E.
    + apply after_compareStrings_Gt in E. constructor; [exact IH|].
      eapply Permutation_Forall; [apply Permutation_sym, insert_perm|].
      constructor; [|exact Hy].
      unfold codeUnitLe. rewrite String.compare_antisym, E. discriminate.
    + assert (Hxy : codeUnitLe x y).
      { unfold codeUnitLe. intros Hgt. apply after_compareStrings_Gt in Hgt. congruence. }
      constructor; [now constructor|].
      constructor; [exact Hxy|].
      eapply Forall_impl; [|exact Hy]. intros z. now apply codeUnitLe_trans.
Qed.

(** The default sort puts any strings in code-unit order. *)
Lemma sort_compareStrings_sorted (l : list string) :
  StronglySorted codeUnitLe (sort compareStrings l).
Proof.
  induction l as [|x l IH]; cbn [sort fold_right]; [constructor|].
  now apply insert_compareStrings_sorted.
Qed.

Lemma setAdd_In (s : list string) (x y : string) :
  In y (setAdd s x) <-> In y s \/ y = x.
Proof.
  unfold setAdd. destruct (existsb (String.eqb x) s) eqn:E.
  - split; [now left|]. intros [H | ->]; [exact H|].
    apply existsb_exists in E as (z & Hz & Ez). apply String.eqb_eq in Ez. now subst.
  - rewrite in_app_iff. cbn. split; intros [H|H]; auto.
    + destruct H as [<-|[]]. now right.
Qed.

Lemma setAdd_NoDup (s : list string) (x : string) : NoDup s -> NoDup (setAdd s x).
Proof.
  intros Hs. unfold setAdd. destruct (existsb (String.eqb x) s) eqn:E; [exact Hs|].
  apply NoDup_app; [exact Hs | repeat constructor; intros [] |].
  intros y Hy [<-|[]].
  assert (existsb (String.eqb x) s = true); [|congruence].
  apply existsb_exists. exists x. split; [exact Hy | apply String.eqb_refl].
Qed.

Lemma setAdd_fold (data : list JawaTimurDataItem.t) (s : list string) :
  NoDup s ->
  NoDup (fold_left (fun diseases item => setAdd diseases (JawaTimurDataItem.penyakit item))
                   data s) /\
  (forall y,
      In y (fold_left (fun diseases item => setAdd diseases (JawaTimurDataItem.penyakit item))
                      data s)
      <-> In y s \/ In y (map JawaTimurDataItem.penyakit data)).
Proof.
  revert s. induction data as [|item data IH]; intros s Hs; cbn [fold_left map].
  - split; [exact Hs|]. intros y. cbn. tauto.
  - destruct (IH (setAdd s (JawaTimurDataItem.penyakit item)) (setAdd_NoDup _ _ Hs))
      as [Hnd Hin].
    split; [exact Hnd|]. intros y. rewrite Hin, setAdd_In. cbn [In]. intuition.
Qed.

(** X17.  [getUniqueDiseasesJatim] returns every disease name of the rows exactly
    once, and nothing else, in strictly ascending code-unit order. *)
Theorem getUniqueDiseasesJatim_sorted_set (data : list JawaTimurDataItem.t) :
  NoDup (getUniqueDiseasesJatim data) /\
  (forall x, In x (getUniqueDiseasesJatim data)
             <-> In x (map JawaTimurDataItem.penyakit data)) /\
  StronglySorted codeUnitLt (getUniqueDiseasesJatim data).
Proof.
  unfold getUniqueDiseasesJatim.
  destruct (setAdd_fold data [] (NoDup_nil _)) as [Hnd Hin].
  set (diseases := fold_left _ data []) in *.
  assert (Hnd' : NoDup (sort compareStrings diseases)).
  { eapply Permutation_NoDup; [apply Permutation_sym, sort_perm | exact Hnd]. }
  repeat apply conj.
  - exact Hnd'.
  - intros x. rewrite sort_In, Hin. cbn. tauto.
  - pose proof (sort_compareStrings_sorted diseases) as Hs.
    induction Hs as [|y l Hs IH Hy]; constructor.
    + apply IH. now inversion Hnd'.
    + inversion Hnd' as [|? ? Hnin _]; subst.
      rewrite Forall_forall in *. intros z Hz. specialize (Hy z Hz).
      unfold codeUnitLe, codeUnitLt in *.
      destruct (String.compare y z) eqn:E; [|reflexivity | congruence].
      apply String.compare_eq_iff in E. subst. contradiction.
Qed.

(** ** Grouping by region *)

Lemma jakartaRegionStep_effect (diseaseType : string) (m m1 : Obj RegionCount.t)
  (item : JakartaDataItem.t) :
  jakartaRegionStep diseaseType (Ok m) item = Ok m1 ->
  (selectsRow diseaseType item = false -> m1 = m) /\
  (selectsRow diseaseType item = true ->
   let c0 := match get m (regionOf item) with
             | Some c => c
             | None => {| RegionCount.laki := Num 0; RegionCount.perempuan := Num 0 |}
             end in
   let j := parseInt (jakartaJumlah item) 10 in
   get m1 (regionOf item)
     = Some (if isMale item
             then {| RegionCount.laki := number_add (RegionCount.laki c0) j;
                     RegionCount.perempuan := RegionCount.perempuan c0 |}
             else {| RegionCount.laki := RegionCount.laki c0;
                     RegionCount.perempuan := number_add (RegionCount.perempuan c0) j |}) /\
   (forall r', regionOf item <> r' -> get m1 r' = get m r') /\
   keys m1 = if has m (regionOf item) then keys m else (keys m ++ [regionOf item])%list).
Proof.
  unfold jakartaRegionStep. cbn [bind].
  change (orStr (orOptStr (JakartaDataItem.wilayah item)
                          (JakartaDataItem.kota_atau_kabupaten item)) "Unknown")
    with (regionOf item).
  change (match option_map (fun k => includes (toLowerCase k) (toLowerCase diseaseType))
                           (JakartaDataItem.jenis_kasus item) with
          | Some b => b
          | None => false
          end || (diseaseType =? "difteri")%string)%bool
    with (selectsRow diseaseType item).
  change (includes (toLowerCase (JakartaDataItem.jenis_kelamin item)) "laki")
    with (isMale item).
  destruct (selectsRow diseaseType item).
  2:{ intros [= <-]. split; [reflexivity | discriminate]. }
  set (zero := {| RegionCount.laki := Num 0; RegionCount.perempuan := Num 0 |}).
  set (m0 := if has m (regionOf item) then m else set m (regionOf item) zero).
  assert (Hg0 : get m0 (regionOf item)
                = Some match get m (regionOf item) with Some c => c | None => zero end).
  { unfold m0, has. destruct (get m (regionOf item)) eqn:E; [exact E | apply get_set_same]. }
  assert (Hk0 : keys m0 = if has m (regionOf item) then keys m
                          else (keys m ++ [regionOf item])%list).
  { unfold m0. destruct (has m (regionOf item)) eqn:E; [reflexivity|].
    now apply keys_set_new. }
  assert (Hh0 : has m0 (regionOf item) = true) by (unfold has; now rewrite Hg0).
  assert (Ho0 : forall r', regionOf item <> r' -> get m0 r' = get m r').
  { intros r' Hne. unfold m0. destruct (has m (regionOf item)); [reflexivity|].
    now apply get_set_other. }
  rewrite Hg0. intros Hm1. split; [discriminate|]. intros _. cbv zeta.
  destruct (isMale item); injection Hm1 as <-;
    (repeat apply conj;
     [ apply get_set_same
     | intros r' Hne; rewrite get_set_other by assumption; now apply Ho0
     | rewrite keys_set, Hh0; exact Hk0 ]).
Qed.

Lemma jakartaRegionFold_get (diseaseType : string) (data : list JakartaDataItem.t)
  (m m' : Obj RegionCount.t) (r : string) :
  fold_left (jakartaRegionStep diseaseType) data (Ok m) = Ok m' ->
  (wfObj m -> wfObj m') /\
  get m' r
  = if (has m r
        || existsb (fun item => selectsRow diseaseType item && (regionOf item =? r)%string)
                   data)%bool
    then
      let c0 := match get m r with
                | Some c => c
                | None => {| RegionCount.laki := Num 0; RegionCount.perempuan := Num 0 |}
                end in
      Some {| RegionCount.laki :=
                regionSumFrom diseaseType true data r (RegionCount.laki c0);
              RegionCount.perempuan :=
                regionSumFrom diseaseType false data r (RegionCount.perempuan c0) |}
    else None.
Proof.
  revert m. induction data as [|item data IH]; intros m; cbn [fold_left].
  - intros [= <-]. split; [auto|]. unfold regionSumFrom, has. cbn.
    destruct (get m r) as [[l p]|]; reflexivity.
  - destruct (jakartaRegionStep_ok diseaseType m item) as (m1 & E1 & _).
    rewrite E1. intros Hfold. destruct (IH m1 Hfold) as [Hwf Hget].
    destruct (jakartaRegionStep_effect diseaseType m m1 item E1) as [Hskip Hsel].
    unfold regionSumFrom in *. cbn [existsb filter].
    destruct (selectsRow diseaseType item) eqn:Es; cbn [andb].
    2:{ rewrite (Hskip eq_refl) in *. split; [exact Hwf | exact Hget]. }
    destruct (Hsel eq_refl) as (Hsame & Hother & Hkeys). cbv zeta in Hsame.
    split.
    + intros Hm. apply Hwf. unfold wfObj in *. rewrite Hkeys.
      destruct (has m (regionOf item)) eqn:Eh; [exact Hm|].
      apply NoDup_app; [exact Hm | repeat constructor; intros [] |].
      intros x Hx [<-|[]]. apply has_true_iff in Hx. congruence.
    + rewrite Hget. destruct (String.eqb_spec (regionOf item) r) as [E|Hne].
      * subst r. unfold has at 1. rewrite Hsame. cbn [orb]. rewrite orb_true_r.
        destruct (isMale item); cbn [Bool.eqb map fold_left RegionCount.laki
                                       RegionCount.perempuan]; reflexivity.
      * unfold has. rewrite (Hother r Hne). reflexivity.
Qed.

Lemma has_existsb {V : Type} (o : Obj V) (k : string) :
  has o k = existsb (String.eqb k) (keys o).
Proof.
  unfold has. induction o as [|[k' v] o IH]; cbn [get keys map fst existsb]; [reflexivity|].
  rewrite (String.eqb_sym k k'). destruct (k' =? k)%string; [reflexivity | exact IH].
Qed.

Lemma jakartaRegionFold_keys (diseaseType : string) (data : list JakartaDataItem.t)
  (m m' : Obj RegionCount.t) :
  fold_left (jakartaRegionStep diseaseType) data (Ok m) = Ok m' ->
  keys m' = fold_left setAdd (map regionOf (filter (selectsRow diseaseType) data)) (keys m).
Proof.
  revert m. induction data as [|item data IH]; intros m; cbn [fold_left filter].
  - now intros [= <-].
  - destruct (jakartaRegionStep_ok diseaseType m item) as (m1 & E1 & _).
    rewrite E1. intros Hfold. rewrite (IH m1 Hfold).
    destruct (jakartaRegionStep_effect diseaseType m m1 item E1) as [Hskip Hsel].
    destruct (selectsRow diseaseType item) eqn:Es.
    + destruct (Hsel eq_refl) as (_ & _ & Hkeys). cbn [map fold_left].
      f_equal. rewrite Hkeys. unfold setAdd. now rewrite has_existsb.
    + now rewrite (Hskip eq_refl).
Qed.

Lemma Forall2_map_entries {V B : Type} (R : string -> B -> Prop) (f : string * V -> B)
  (o : Obj V) :
  (forall k v, In (k, v) o -> R k (f (k, v))) -> Forall2 R (keys o) (map f o).
Proof.
  induction o as [|[k v] o IH]; intros H; cbn [keys map]; constructor.
  - apply H. now left.
  - apply IH. intros k' v' Hin. apply H. now right.
Qed.

(** X18.  [transformJakartaDataByRegion] returns one row per distinct region among
    the rows it counts for the disease type, in the order in which the
    regions first occur; regions are told apart before the administrative
    prefixes are stripped from the name.  The male and the female count of a
    region are the sums of the parsed counts of its counted rows of that
    sex, and the total is their sum. *)
Theorem transformJakartaDataByRegion_groups
  (data : list JakartaDataItem.t) (diseaseType : string) :
  exists rows regions,
    transformJakartaDataByRegion data diseaseType = Ok rows /\
    regions = distinct (map regionOf (filter (selectsRow diseaseType) data)) /\
    NoDup regions /\
    (forall r, In r regions <->
               exists item, In item data /\ selectsRow diseaseType item = true /\
                            regionOf item = r) /\
    Forall2 (fun region row =>
               RegionRow.name row = stripPrefixes region /\
               RegionRow.laki row = regionSum diseaseType true data region /\
               RegionRow.perempuan row = regionSum diseaseType false data region /\
               RegionRow.total row
                 = number_add (regionSum diseaseType true data region)
                              (regionSum diseaseType false data region))
            regions rows.
Proof.
  unfold transformJakartaDataByRegion.
  destruct (jakartaRegionFold_ok diseaseType data []) as (m & E & _).
  assert (Hm : forall r, (wfObj (V := RegionCount.t) [] -> wfObj m) /\ _ )
    by (intros r; exact (jakartaRegionFold_get diseaseType data [] m r E)).
  unfold Obj in *. rewrite E. cbn [bind].
  assert (Hwf : wfObj m) by (apply (proj1 (Hm "")); constructor).
  eexists. exists (keys m). split; [reflexivity|]. repeat apply conj.
  - exact (jakartaRegionFold_keys diseaseType data [] m E).
  - exact Hwf.
  - intros r. rewrite <- has_true_iff. unfold has. rewrite (proj2 (Hm r)).
    cbn [has get orb].
    destruct (existsb _ data) eqn:Ex.
    + split; [|reflexivity]. intros _. apply existsb_exists in Ex as (item & Hin & Hc).
      apply andb_prop in Hc as [Hs Hr]. apply String.eqb_eq in Hr. now exists item.
    + split; [discriminate|]. intros (item & Hin & Hs & Hr).
      assert (existsb (fun item0 => selectsRow diseaseType item0
                                    && (regionOf item0 =? r)%string) data = true).
      { apply existsb_exists. exists item. split; [exact Hin|].
        rewrite Hs, Hr, String.eqb_refl. reflexivity. }
      congruence.
  - apply Forall2_map_entries. intros k v Hin.
    apply (In_get m k v Hwf) in Hin. rewrite (proj2 (Hm k)) in Hin.
    cbn [has get orb] in Hin. destruct (existsb _ data); [|discriminate].
    cbv zeta in Hin. injection Hin as <-.
    cbn [RegionRow.name RegionRow.laki RegionRow.perempuan RegionRow.total
         RegionCount.laki RegionCount.perempuan].
    repeat split.
Qed.

Lemma jakartaRegionStep_difteri_kasus (acc : result (Obj RegionCount.t))
  (item : JakartaDataItem.t) :
  jakartaRegionStep "difteri" acc (withoutKasus item) = jakartaRegionStep "difteri" acc item.
Proof.
  unfold jakartaRegionStep, jakartaJumlah. destruct acc as [m|]; [|reflexivity].
  cbn [bind withoutKasus JakartaDataItem.wilayah JakartaDataItem.kota_atau_kabupaten
       JakartaDataItem.jenis_kelamin JakartaDataItem.jenis_kasus JakartaDataItem.jumlah
       JakartaDataItem.jumlah_difteri option_map].
  change ("difteri" =? "difteri")%string with true.
  rewrite !orb_true_r. reflexivity.
Qed.

(** X19.  For the disease type "difteri" [transformJakartaDataByRegion] counts
    every row, whatever its [jenis_kasus]: the result is the one obtained
    from the rows with their [jenis_kasus] removed. *)
Theorem transformJakartaDataByRegion_difteri_counts_every_row
  (data : list JakartaDataItem.t) :
  (forall item, selectsRow "difteri" item = true) /\
  transformJakartaDataByRegion (map withoutKasus data) "difteri"
  = transformJakartaDataByRegion data "difteri".
Proof.
  split.
  - intros item. unfold selectsRow. apply orb_true_r.
  - unfold transformJakartaDataByRegion. f_equal.
    generalize (Ok [] : result (Obj RegionCount.t)).
    induction data as [|item data IH]; intros acc; cbn [map fold_left]; [reflexivity|].
    now rewrite jakartaRegionStep_difteri_kasus, IH.
Qed.

(** ** calculateSummary *)

Lemma sum_NaN_start {A : Type} (f : A -> number) (l : list A) :
  fold_left (fun sum x => number_add sum (f x)) l NaN = NaN.
Proof. induction l as [|x l IH]; cbn [fold_left number_add]; [reflexivity | exact IH]. Qed.

Lemma sum_NaN {A : Type} (f : A -> number) (l : list A) (start : number) (x : A) :
  In x l -> f x = NaN -> fold_left (fun sum x => number_add sum (f x)) l start = NaN.
Proof.
  revert start. induction l as [|y l IH]; intros start Hin Hx; [destruct Hin|].
  cbn [fold_left]. destruct Hin as [->|Hin].
  - rewrite Hx. replace (number_add start NaN) with NaN by (now destruct start).
    apply sum_NaN_start.
  - now apply IH.
Qed.

Lemma toFixed1_nan_quotient (y c : float) :
  toFixed1 (PrimFloat.mul (PrimFloat.div PrimFloat.nan y) c) = "NaN".
Proof.
  unfold toFixed1. rewrite FloatAxioms.mul_spec, FloatAxioms.div_spec.
  change (Prim2SF PrimFloat.nan) with S754_nan.
  destruct (Prim2SF y), (Prim2SF c); reflexivity.
Qed.

(** X20.  [calculateSummary] has no guard against a count that does not parse:
    when the text it reads from a row of either year does not parse, the
    change is [NaN] and the percentage is the string "NaN". *)
Theorem calculateSummary_unparsable_is_NaN
  (jakartaData2022 jakartaData2023 : list JakartaDataItem.t) :
  ((exists item,
       In item jakartaData2022 /\
       parseInt (orStr (orOptStr (JakartaDataItem.jumlah_difteri item)
                                 (JakartaDataItem.jumlah item)) "0") 10 = NaN) \/
   (exists item,
       In item jakartaData2023 /\
       parseInt (orStr (JakartaDataItem.jumlah item) "0") 10 = NaN)) ->
  Summary.change (calculateSummary jakartaData2022 jakartaData2023) = NaN /\
  Summary.changePercent (calculateSummary jakartaData2022 jakartaData2023) = "NaN".
Proof.
  intros H. unfold calculateSummary.
  cbn [Summary.change Summary.changePercent].
  set (t22 := fold_left _ jakartaData2022 (Num 0)).
  set (t23 := fold_left _ jakartaData2023 (Num 0)).
  assert (Hsub : number_sub t23 t22 = NaN).
  { destruct H as [(item & Hin & Hp)|(item & Hin & Hp)].
    - assert (E : t22 = NaN).
      { unfold t22.
        apply (sum_NaN (fun item =>
                          parseInt (orStr (orOptStr (JakartaDataItem.jumlah_difteri item)
                                                    (JakartaDataItem.jumlah item)) "0") 10)
                 jakartaData2022 (Num 0) item Hin Hp). }
      rewrite E. now destruct t23.
    - assert (E : t23 = NaN).
      { unfold t23.
        apply (sum_NaN (fun item => parseInt (orStr (JakartaDataItem.jumlah item) "0") 10)
                 jakartaData2023 (Num 0) item Hin Hp). }
      now rewrite E. }
  rewrite Hsub. split; [reflexivity|]. apply toFixed1_nan_quotient.
Qed.

Lemma calculateSummary_unparsable_is_NaN_witness :
  Summary.changePercent (calculateSummary [jakartaRow (Some "12")] [jakartaRow (Some "n/a")])
  = "NaN".
Proof.
  apply (calculateSummary_unparsable_is_NaN
           [jakartaRow (Some "12")] [jakartaRow (Some "n/a")]).
  right. exists (jakartaRow (Some "n/a")). split; [now left | reflexivity].
Defined.

(** X21.  [calculateSummary] divides by the 2022 total without a guard: when both
    totals are 0, as for two empty lists, the percentage is the string
    "NaN", where [getSummaryStats] reports "0". *)
Theorem calculateSummary_zero_totals
  (jakartaData2022 jakartaData2023 : list JakartaDataItem.t) :
  Summary.totalDifteri2022 (calculateSummary jakartaData2022 jakartaData2023) = Num 0 ->
  Summary.totalDifteri2023 (calculateSummary jakartaData2022 jakartaData2023) = Num 0 ->
  Summary.change (calculateSummary jakartaData2022 jakartaData2023) = Num 0 /\
  Summary.changePercent (calculateSummary jakartaData2022 jakartaData2023) = "NaN".
Proof.
  unfold calculateSummary.
  cbn [Summary.totalDifteri2022 Summary.totalDifteri2023 Summary.change
       Summary.changePercent].
  intros -> ->. split; [reflexivity|]. vm_compute. reflexivity.
Qed.

Lemma calculateSummary_zero_totals_witness :
  Summary.changePercent (calculateSummary [] [jakartaRow None]) = "NaN".
Proof.
  apply (calculateSummary_zero_totals [] [jakartaRow None]); reflexivity.
Defined.

(** X22.  The 2023 total of [calculateSummary] reads [jumlah] only: a
    [jumlah_difteri] on a 2023 row changes nothing. *)
Theorem calculateSummary_2023_ignores_jumlah_difteri
  (jakartaData2022 jakartaData2023 : list JakartaDataItem.t) :
  calculateSummary jakartaData2022 (map withoutJumlahDifteri jakartaData2023)
  = calculateSummary jakartaData2022 jakartaData2023.
Proof.
  unfold calculateSummary.
  assert (E : forall start,
             fold_left (fun sum item =>
                          number_add sum
                            (parseInt (orStr (JakartaDataItem.jumlah item) "0") 10))
                       (map withoutJumlahDifteri jakartaData2023) start
             = fold_left (fun sum item =>
                            number_add sum
                              (parseInt (orStr (JakartaDataItem.jumlah item) "0") 10))
                         jakartaData2023 start).
  { induction jakartaData2023 as [|item l IH]; intros start; cbn [map fold_left];
      [reflexivity | now rewrite IH]. }
  now rewrite E.
Qed.

(** ** Ties in the per-subdistrict results *)




(** ** The further functions on small inputs *)

Example transformJawaTimurByMonth_example :
  transformJawaTimurByMonth compareStrings
    [ {| JawaTimurDataItem.penyakit := "Suspek Dengue"; JawaTimurDataItem.periode_update := "2024-02";
         JawaTimurDataItem.jumlah := "7" |};
      {| JawaTimurDataItem.penyakit := "Pneumonia"; JawaTimurDataItem.periode_update := "2024-01";
         JawaTimurDataItem.jumlah := "9" |};
      {| JawaTimurDataItem.penyakit := "DENGUE"; JawaTimurDataItem.periode_update := "2024-01";
         JawaTimurDataItem.jumlah := "2" |};
      {| JawaTimurDataItem.penyakit := "dengue"; JawaTimurDataItem.periode_update := "2024-02";
         JawaTimurDataItem.jumlah := "1" |} ]
    "dengue"
  = [ {| MonthRow.month := "2024-01"; MonthRow.total := Num 2 |};
      {| MonthRow.month := "2024-02"; MonthRow.total := Num 8 |} ].
Proof. reflexivity. Qed.

Example getUniqueDiseasesJatim_example :
  getUniqueDiseasesJatim
    [ {| JawaTimurDataItem.penyakit := "Pneumonia"; JawaTimurDataItem.periode_update := "";
         JawaTimurDataItem.jumlah := "" |};
      {| JawaTimurDataItem.penyakit := "Dengue"; JawaTimurDataItem.periode_update := "";
         JawaTimurDataItem.jumlah := "" |};
      {| JawaTimurDataItem.penyakit := "Pneumonia"; JawaTimurDataItem.periode_update := "";
         JawaTimurDataItem.jumlah := "" |} ]
  = ["Dengue"; "Pneumonia"].
Proof. reflexivity. Qed.

Example calculateSummary_example :
  calculateSummary [jakartaRow (Some "10"); jakartaRow (Some "5")]
                   [jakartaRow (Some "14"); jakartaRow (Some "8")]
  = {| Summary.totalDifteri2022 := Num 15; Summary.totalDifteri2023 := Num 22;
       Summary.change := Num 7; Summary.changePercent := "46.7" |}.
Proof. vm_compute. reflexivity. Qed.

Example calculateSummary_zero_prior :
  Summary.changePercent (calculateSummary [] [jakartaRow (Some "5")]) = "Infinity".
Proof. vm_compute. reflexivity. Qed.

Example transformJakartaDataByRegion_prefix_not_merged :
  transformJakartaDataByRegion
    [ jakartaRow (Some "2");
      {| JakartaDataItem.periode_data := "2023";
         JakartaDataItem.wilayah := Some "JAKARTA PUSAT";
         JakartaDataItem.kota_atau_kabupaten := None;
         JakartaDataItem.jenis_kelamin := "Perempuan";
         JakartaDataItem.jenis_kasus := None;
         JakartaDataItem.jumlah := Some "3";
         JakartaDataItem.jumlah_difteri := None |} ]
    "difteri"
  = Ok [ {| RegionRow.name := "JAKARTA PUSAT"; RegionRow.laki := Num 2;
            RegionRow.perempuan := Num 0; RegionRow.total := Num 2 |};
         {| RegionRow.name := "JAKARTA PUSAT"; RegionRow.laki := Num 0;
            RegionRow.perempuan := Num 3; RegionRow.total := Num 3 |} ].
Proof. reflexivity. Qed.

Example regionalDiseaseComparison_example :
  regionalDiseaseComparison
    [ {| DiseaseType.id := "tifoid"; DiseaseType.name := "Suspek Tifoid" |};
      {| DiseaseType.id := "dengue"; DiseaseType.name := "Suspek Dengue / DBD" |} ]
    {| JatimData.yearlyData := fixtureJatimYearly |}
  = [ {| NamedTotal.name := "Dengue"; NamedTotal.total := 3 |} ].
Proof. reflexivity. Qed.

Example lookup_examples :
  lookup (Data.jakarta (UnifiedData.data fixture)) "2023" = Own fixture2023 /\
  lookup (Data.jakarta (UnifiedData.data fixture)) "2021" = Undefined /\
  lookup (Data.jakarta (UnifiedData.data fixture)) "toString" = Inherited /\
  lookup [("__proto__", 1)] "__proto__" = Own 1.
Proof. repeat split. Qed.

Example getJakartaYearComparison_inherited_disease :
  getJakartaYearComparison fixture "valueOf"
  = Ok [ {| YearComparisonRow.year := "2022"; YearComparisonRow.total := None;
            YearComparisonRow.laki := None; YearComparisonRow.perempuan := None;
            YearComparisonRow.isEstimated := false |};
         {| YearComparisonRow.year := "2023"; YearComparisonRow.total := None;
            YearComparisonRow.laki := None; YearComparisonRow.perempuan := None;
            YearComparisonRow.isEstimated := false |} ].
Proof. reflexivity. Qed.

Example subdistrict_results_of_separate_catalogs :
  getCirebonBySubdistrict separateCatalogsDoc
  = [ {| SubdistrictRow.name := "Kejaksan"; SubdistrictRow.id := "kejaksan";
         SubdistrictRow.total := 0 |} ] /\
  getBogorBySubdistrict separateCatalogsDoc
  = [ {| SubdistrictRow.name := "Ciawi"; SubdistrictRow.id := "ciawi";
         SubdistrictRow.total := 6 |} ].
Proof. split; reflexivity. Qed.

Example getSummaryStats_only_2022 :
  SummaryStats.jakartaDifteri2023 (getSummaryStats only2022Doc) = 0 /\
  SummaryStats.jakartaDifteri2022 (getSummaryStats only2022Doc) = 15 /\
  SummaryStats.difteriChange (getSummaryStats only2022Doc) = -15 /\
  SummaryStats.difteriChangePercent (getSummaryStats only2022Doc) = "-100.0".
Proof. vm_compute. repeat split. Qed.

Example mount_with_stored_dark_theme :
  mount {| Browser.darkClass := false; Browser.theme := Some "dark" |}
  = (false, {| Browser.darkClass := true; Browser.theme := Some "dark" |}).
Proof. reflexivity. Qed.
